(** * Job-description parsing and candidate matching (apps/ai-jd)

    A shallow embedding of [services/jd_parser.py], [services/candidate_matcher.py]
    and [models/jd_models.py], followed by the properties proved about them.

    Conventions of the embedding.
    - Python [str] values are [string]s over 7-bit ASCII; [str.lower], [\b] and
      [\w] are modelled on that alphabet.
    - Python [float] values are idealised as exact rationals ([Q]); equality of
      scores is [Qeq].  [round(x, 2)] is rounding to the nearest hundredth,
      halves to even.
    - A pydantic model whose fields carry [ge]/[le] bounds is built through a
      constructor returning [option]: [None] stands for the [ValidationError]
      that the constructor raises.
    - A Python [set] is iterated in an order fixed by the interpreter's string
      hashing; the parser service therefore carries its vocabularies as lists
      in "some iteration order", and the properties are proved for every
      such order.
    - [datetime.now()] is read once per evaluated candidate; the readings are
      supplied as a function from the index of the reading. *)

From Stdlib Require Import Bool Arith List ZArith QArith Qround Lia Lqa.
From Stdlib Require Import Ascii String Permutation Sorted.
Import ListNotations.

Local Close Scope Q_scope.
Local Open Scope string_scope.
Local Open Scope list_scope.

(* ================================================================== *)
(** ** Strings *)

Module Str.

Definition is_upper (c : ascii) : bool :=
  ((65 <=? nat_of_ascii c) && (nat_of_ascii c <=? 90))%nat.

Definition is_lower (c : ascii) : bool :=
  ((97 <=? nat_of_ascii c) && (nat_of_ascii c <=? 122))%nat.

Definition is_digit (c : ascii) : bool :=
  ((48 <=? nat_of_ascii c) && (nat_of_ascii c <=? 57))%nat.

(** [\w]: letters, digits and the underscore. *)
Definition is_word (c : ascii) : bool :=
  is_upper c || is_lower c || is_digit c || Ascii.eqb c "_"%char.

Definition lower_char (c : ascii) : ascii :=
  if is_upper c then ascii_of_nat (nat_of_ascii c + 32) else c.

(** [s.lower()] *)
Fixpoint lower (s : string) : string :=
  match s with
  | EmptyString => EmptyString
  | String c s' => String (lower_char c) (lower s')
  end.

(** [s.startswith(p)] *)
Fixpoint startswith (p s : string) : bool :=
  match p with
  | EmptyString => true
  | String a p' =>
      match s with
      | EmptyString => false
      | String b s' => Ascii.eqb a b && startswith p' s'
      end
  end.

(** [sub in s] *)
Fixpoint contains (sub s : string) : bool :=
  startswith sub s ||
  match s with
  | EmptyString => false
  | String _ s' => contains sub s'
  end.

(** [s.find(sub)]: index of the first occurrence, [-1] when there is none. *)
Fixpoint find (sub s : string) : Z :=
  if startswith sub s then 0%Z
  else match s with
       | EmptyString => (-1)%Z
       | String _ s' =>
           let i := find sub s' in
           if (i <? 0)%Z then (-1)%Z else (i + 1)%Z
       end.

Fixpoint drop (n : nat) (s : string) : string :=
  match n with
  | O => s
  | S k => match s with
           | EmptyString => EmptyString
           | String _ s' => drop k s'
           end
  end.

(** [s[i:]], with Python's reading of a negative start. *)
Definition slice_from (i : Z) (s : string) : string :=
  if (0 <=? i)%Z then drop (Z.to_nat i) s
  else drop (Z.to_nat (Z.max 0 (Z.of_nat (String.length s) + i))) s.

(** Truth value of a string in a condition. *)
Definition truthy (s : string) : bool :=
  match s with EmptyString => false | String _ _ => true end.

Definition head (s : string) : option ascii :=
  match s with EmptyString => None | String c _ => Some c end.

End Str.

(* ================================================================== *)
(** ** The regular expressions [\b literal \b] *)

Module Re.

Definition opt_is_word (c : option ascii) : bool :=
  match c with None => false | Some a => Str.is_word a end.

(** [\b] at the position whose left neighbour is [prev] and whose right
    neighbour is the head of [s]. *)
Definition word_boundary (prev : option ascii) (s : string) : bool :=
  xorb (opt_is_word prev) (opt_is_word (Str.head s)).

(** The escaped literal followed by [\b]. *)
Fixpoint match_literal (pat : string) (prev : option ascii) (s : string) : bool :=
  match pat with
  | EmptyString => word_boundary prev s
  | String a pat' =>
      match s with
      | EmptyString => false
      | String b s' => Ascii.eqb a b && match_literal pat' (Some b) s'
      end
  end.

(** [\b + re.escape(pat) + \b] anchored at the current position. *)
Definition match_here (pat : string) (prev : option ascii) (s : string) : bool :=
  word_boundary prev s && match_literal pat prev s.

(** Number of non-overlapping matches found scanning left to right.  After a
    match of length [n] the scan resumes [n] characters further: [skip]
    counts the characters still covered by the last match. *)
Fixpoint count_from (pat : string) (prev : option ascii) (skip : nat) (s : string) : nat :=
  match s with
  | EmptyString =>
      match skip with
      | O => if match_here pat prev s then 1 else 0
      | S _ => 0
      end
  | String c s' =>
      match skip with
      | S k => count_from pat (Some c) k s'
      | O =>
          if match_here pat prev s
          then S (count_from pat (Some c) (String.length pat - 1) s')
          else count_from pat (Some c) 0 s'
      end
  end.

(** [len(re.findall(r'\b' + re.escape(pat) + r'\b', s))] *)
Definition findall_count (pat s : string) : nat := count_from pat None 0 s.

Fixpoint search_from (pat : string) (prev : option ascii) (s : string) : bool :=
  match_here pat prev s ||
  match s with
  | EmptyString => false
  | String c s' => search_from pat (Some c) s'
  end.

(** [bool(re.search(r'\b' + re.escape(pat) + r'\b', s))] *)
Definition search (pat s : string) : bool := search_from pat None s.

End Re.

(* ================================================================== *)
(** ** Numbers *)

Module Num.

(** [min(a, b)] *)
Definition py_min (a b : Q) : Q := if Qle_bool a b then a else b.

(** Nearest integer, halves to even. *)
Definition round_half_even (q : Q) : Z :=
  let f := Qfloor q in
  let r := (q - inject_Z f)%Q in
  match (r ?= 1 # 2)%Q with
  | Lt => f
  | Gt => (f + 1)%Z
  | Eq => if Z.even f then f else (f + 1)%Z
  end.

(** [round(x, 2)] *)
Definition round2 (x : Q) : Q :=
  (inject_Z (round_half_even (x * 100)) / 100)%Q.

(** The bound check of a field declared [Field(..., ge=lo, le=hi)]. *)
Definition in_range (lo hi x : Q) : bool := Qle_bool lo x && Qle_bool x hi.

Definition of_nat (n : nat) : Q := inject_Z (Z.of_nat n).

Definition sumQ (l : list Q) : Q := fold_left Qplus l 0%Q.

End Num.

(* ================================================================== *)
(** ** [list.sort(key=..., reverse=True)] and slicing *)

Module PyList.

Section Sort.
Context {A : Type} (key : A -> Q).

(** Insert [x] in front of a list sorted by descending key: [x] goes
    before the first element whose key is not greater than its own, so an
    element inserted later stays ahead of its equals. *)
Fixpoint insert_desc (x : A) (l : list A) : list A :=
  match l with
  | [] => [x]
  | y :: l' =>
      if Qle_bool (key y) (key x) then x :: y :: l'
      else y :: insert_desc x l'
  end.

(** The result of the stable sort by descending key. *)
Definition sort_desc (l : list A) : list A :=
  fold_right insert_desc [] l.
End Sort.

(** [l[:k]], with Python's reading of a negative stop. *)
Definition slice_to {A : Type} (k : Z) (l : list A) : list A :=
  if (0 <=? k)%Z then firstn (Z.to_nat k) l
  else firstn (Z.to_nat (Z.max 0 (Z.of_nat (List.length l) + k))) l.

End PyList.

(* ================================================================== *)
(** ** [models/jd_models.py] *)

Inductive SeniorityLevel : Type :=
| JUNIOR
| MID
| SENIOR
| LEAD
| PRINCIPAL.

(** Iteration order of the enumeration class. *)
Definition SeniorityLevel_members : list SeniorityLevel :=
  [JUNIOR; MID; SENIOR; LEAD; PRINCIPAL].

Definition SeniorityLevel_eqb (a b : SeniorityLevel) : bool :=
  match a, b with
  | JUNIOR, JUNIOR | MID, MID | SENIOR, SENIOR
  | LEAD, LEAD | PRINCIPAL, PRINCIPAL => true
  | _, _ => false
  end.

Record Skill : Type := mkSkill
  { Skill_name : string;
    Skill_weight : Q }.

(** [Skill(name=..., weight=...)]: [weight] is declared [ge=0.0, le=1.0]. *)
Definition new_Skill (name : string) (weight : Q) : option Skill :=
  if Num.in_range 0%Q 1%Q weight then Some (mkSkill name weight) else None.

Record JDParseRequest : Type := mkJDParseRequest
  { JDParseRequest_job_description : string;
    JDParseRequest_job_id : option string }.

Record JDParseResponse : Type := mkJDParseResponse
  { JDParseResponse_skills : list Skill;
    JDParseResponse_soft_skills : list string;
    JDParseResponse_seniority_hint : SeniorityLevel;
    JDParseResponse_job_id : option string }.

Record Project : Type := mkProject
  { Project_name : string;
    Project_description : option string;
    Project_technologies : list string;
    Project_completion_date : option string }.

Record Candidate : Type := mkCandidate
  { Candidate_student_id : string;
    Candidate_skills : list (string * Q);
    Candidate_eval_score : Q;
    Candidate_recent_projects : list Project }.

Record MatchWeights : Type := mkMatchWeights
  { MatchWeights_skill : Q;
    MatchWeights_eval : Q;
    MatchWeights_recency : Q }.

(** [MatchWeights()] *)
Definition default_MatchWeights : MatchWeights :=
  mkMatchWeights 0.6%Q 0.3%Q 0.1%Q.

Record MatchRequest : Type := mkMatchRequest
  { MatchRequest_job_id : string;
    MatchRequest_candidates : list Candidate;
    MatchRequest_top_k : Z;
    MatchRequest_weights : MatchWeights }.

(** The [reasons] field of [Match] (lists of explanatory strings, built by
    [_generate_match_reasons], which has no failing path and no bounded
    field) is left out of the record. *)
Record Match : Type := mkMatch
  { Match_student_id : string;
    Match_score : Q;
    Match_skill_score : Q;
    Match_eval_score : Q;
    Match_recency_score : Q }.

(** [Match(...)]: the four scores are declared [ge=0.0, le=100.0]. *)
Definition new_Match (student_id : string)
    (score skill_score eval_score recency_score : Q) : option Match :=
  if Num.in_range 0%Q 100%Q score
     && Num.in_range 0%Q 100%Q skill_score
     && Num.in_range 0%Q 100%Q eval_score
     && Num.in_range 0%Q 100%Q recency_score
  then Some (mkMatch student_id score skill_score eval_score recency_score)
  else None.

(** [processing_time_ms] is a wall-clock measurement and is left out. *)
Record MatchResponse : Type := mkMatchResponse
  { MatchResponse_job_id : string;
    MatchResponse_matches : list Match;
    MatchResponse_total_candidates : nat }.

(** The bounds pydantic checks on an incoming [MatchRequest]. *)
Definition valid_Candidate (c : Candidate) : bool :=
  Num.in_range 0%Q 100%Q (Candidate_eval_score c).

Definition valid_MatchWeights (w : MatchWeights) : bool :=
  Num.in_range 0%Q 1%Q (MatchWeights_skill w)
  && Num.in_range 0%Q 1%Q (MatchWeights_eval w)
  && Num.in_range 0%Q 1%Q (MatchWeights_recency w).

Definition valid_MatchRequest (r : MatchRequest) : bool :=
  forallb valid_Candidate (MatchRequest_candidates r)
  && (1 <=? MatchRequest_top_k r)%Z && (MatchRequest_top_k r <=? 100)%Z
  && valid_MatchWeights (MatchRequest_weights r).

(** The bound the data model states for skill levels (not checked by
    [Candidate], whose [skills] field is a plain [Dict[str, float]]). *)
Definition levels_in_range (c : Candidate) : bool :=
  forallb (fun kv => Num.in_range 0%Q 5%Q (snd kv)) (Candidate_skills c).

(* ================================================================== *)
(** ** [services/jd_parser.py] *)

Module JDParser.

(** The literal of [self.technical_skills], in the order it is written. *)
Definition technical_vocabulary : list string :=
  [ "python"; "java"; "javascript"; "typescript"; "c++"; "c#"; "go"; "rust";
    "php"; "ruby"; "swift"; "kotlin"; "scala"; "r"; "matlab"; "sql"; "html";
    "css";
    "react"; "angular"; "vue"; "nodejs"; "express"; "django"; "flask";
    "fastapi"; "spring"; "hibernate"; "tensorflow"; "pytorch"; "keras";
    "scikit-learn"; "pandas"; "numpy"; "matplotlib"; "seaborn";
    "mysql"; "postgresql"; "mongodb"; "redis"; "elasticsearch"; "cassandra";
    "oracle"; "sqlite"; "dynamodb";
    "aws"; "azure"; "gcp"; "docker"; "kubernetes"; "jenkins"; "gitlab";
    "github"; "terraform"; "ansible"; "chef"; "puppet"; "nginx"; "apache";
    "git"; "linux"; "unix"; "bash"; "powershell"; "vim"; "vscode"; "intellij";
    "jira"; "confluence"; "slack"; "teams";
    "agile"; "scrum"; "kanban"; "devops"; "ci/cd"; "tdd"; "bdd";
    "hadoop"; "spark"; "kafka"; "airflow"; "tableau"; "powerbi"; "looker";
    "etl"; "data warehouse"; "machine learning"; "deep learning"; "nlp";
    "ios"; "android"; "react native"; "flutter"; "xamarin";
    "cybersecurity"; "penetration testing"; "oauth"; "jwt"; "ssl"; "tls" ].

(** The literal of [self.soft_skills], in the order it is written. *)
Definition soft_vocabulary : list string :=
  [ "communication"; "leadership"; "teamwork"; "problem solving";
    "critical thinking"; "creativity"; "adaptability"; "time management";
    "project management"; "analytical thinking"; "attention to detail";
    "collaboration"; "mentoring"; "presentation"; "negotiation";
    "customer service"; "emotional intelligence" ].

(** The literal of [self.seniority_keywords]: a dict, iterated in insertion
    order. *)
Definition seniority_table : list (SeniorityLevel * list string) :=
  [ (JUNIOR, ["junior"; "entry level"; "graduate"; "intern"; "0-2 years";
              "beginner"]);
    (MID, ["mid level"; "intermediate"; "2-5 years"; "3-5 years";
           "experienced"]);
    (SENIOR, ["senior"; "5+ years"; "5-8 years"; "expert"; "advanced"]);
    (LEAD, ["lead"; "team lead"; "tech lead"; "technical lead"; "manager"]);
    (PRINCIPAL, ["principal"; "architect"; "staff"; "distinguished";
                 "10+ years"]) ].

(** The service object.  The two vocabularies are Python sets: the lists
    hold their elements in the order in which the interpreter iterates. *)
Record JDParserService : Type := mkJDParserService
  { technical_skills : list string;
    soft_skills : list string;
    seniority_keywords : list (SeniorityLevel * list string) }.

(** What [__init__] establishes. *)
Definition initialised (self : JDParserService) : Prop :=
  Permutation (technical_skills self) technical_vocabulary
  /\ Permutation (soft_skills self) soft_vocabulary
  /\ seniority_keywords self = seniority_table.

(** The service whose sets iterate in the order of the literals. *)
Definition declared_service : JDParserService :=
  mkJDParserService technical_vocabulary soft_vocabulary seniority_table.

(** The three section markers tested by the boost. *)
Definition section_markers : list string :=
  ["requirements"; "required"; "must have"].

(** The condition of the inner [if] of the boost,
      [skill in jd_text[jd_text.find('requirements'):]
         if 'requirements' in jd_text else jd_text]:
    a conditional expression whose else-branch is the text itself, taken
    for its truth value. *)
Definition boost_inner (skill jd_text : string) : bool :=
  if Str.contains "requirements" jd_text
  then Str.contains skill (Str.slice_from (Str.find "requirements" jd_text) jd_text)
  else Str.truthy jd_text.

(** The weight computed for a skill found [frequency] times, before it is
    rounded. *)
Definition skill_weight (skill jd_text : string) (frequency : nat) : Q :=
  let weight := Num.py_min (0.1 + Num.of_nat frequency * 0.1)%Q 1%Q in
  if existsb (fun section => Str.contains section jd_text) section_markers
  then if boost_inner skill jd_text
       then Num.py_min (weight * 1.5)%Q 1%Q
       else weight
  else weight.

(** The body of the loop of [_extract_technical_skills] for one skill:
    [None] when the [Skill] constructor raises, otherwise the list of found
    skills with the new one appended, if any. *)
Definition extract_step (jd_text : string) (found : list Skill) (skill : string)
  : option (list Skill) :=
  let frequency := Re.findall_count (Str.lower skill) jd_text in
  if (0 <? frequency)%nat then
    match new_Skill skill (Num.round2 (skill_weight skill jd_text frequency)) with
    | Some s => Some (found ++ [s])
    | None => None
    end
  else Some found.

Fixpoint extract_loop (jd_text : string) (found : list Skill) (todo : list string)
  : option (list Skill) :=
  match todo with
  | [] => Some found
  | skill :: todo' =>
      match extract_step jd_text found skill with
      | Some found' => extract_loop jd_text found' todo'
      | None => None
      end
  end.

Definition _extract_technical_skills (self : JDParserService) (jd_text : string)
  : option (list Skill) :=
  match extract_loop jd_text [] (technical_skills self) with
  | Some found_skills =>
      Some (PyList.slice_to 20 (PyList.sort_desc Skill_weight found_skills))
  | None => None
  end.

Definition _extract_soft_skills (self : JDParserService) (jd_text : string)
  : list string :=
  filter (fun skill => Re.search (Str.lower skill) jd_text) (soft_skills self).

(** [seniority_scores[level] += matches], on a dict held as an association
    list in insertion order. *)
Fixpoint add_score (level : SeniorityLevel) (n : nat)
    (scores : list (SeniorityLevel * nat)) : list (SeniorityLevel * nat) :=
  match scores with
  | [] => []
  | (l, v) :: rest =>
      if SeniorityLevel_eqb l level then (l, v + n) :: rest
      else (l, v) :: add_score level n rest
  end.

(** The dict [seniority_scores] after the two nested loops. *)
Definition seniority_scores (self : JDParserService) (jd_text : string)
  : list (SeniorityLevel * nat) :=
  fold_left
    (fun scores entry =>
       fold_left
         (fun scores keyword =>
            add_score (fst entry)
                      (Re.findall_count (Str.lower keyword) jd_text) scores)
         (snd entry) scores)
    (seniority_keywords self)
    (map (fun level => (level, 0)) SeniorityLevel_members).

(** [max(values)] on a list of naturals. *)
Definition max_value (scores : list (SeniorityLevel * nat)) : nat :=
  fold_left Nat.max (map snd scores) 0.

(** [max(items, key=lambda x: x[1])]: the first item whose value is not
    exceeded by any later one. *)
Fixpoint max_item (best : SeniorityLevel * nat)
    (items : list (SeniorityLevel * nat)) : SeniorityLevel * nat :=
  match items with
  | [] => best
  | it :: rest =>
      if (snd best <? snd it)%nat then max_item it rest else max_item best rest
  end.

Definition _determine_seniority (self : JDParserService) (jd_text : string)
  : SeniorityLevel :=
  let scores := seniority_scores self jd_text in
  if (max_value scores =? 0)%nat then MID
  else match scores with
       | [] => MID
       | first :: rest => fst (max_item first rest)
       end.

(** [None] when a constructor raises. *)
Definition parse_jd (self : JDParserService) (request : JDParseRequest)
  : option JDParseResponse :=
  let jd_text := Str.lower (JDParseRequest_job_description request) in
  match _extract_technical_skills self jd_text with
  | Some technical_skills =>
      let soft_skills := _extract_soft_skills self jd_text in
      let seniority := _determine_seniority self jd_text in
      Some (mkJDParseResponse technical_skills soft_skills seniority
                              (JDParseRequest_job_id request))
  | None => None
  end.

End JDParser.

(* ================================================================== *)
(** ** The library calls [datetime.strptime(s, '%Y-%m-%d')] and
       [(a - b).days] *)

Module Datetime.

(** A naive [datetime]: the proleptic Gregorian ordinal of its date and the
    microseconds elapsed since midnight. *)
Record datetime : Type := mkdatetime
  { ordinal : Z;
    micros : Z }.

Definition micros_per_day : Z := 86400000000.

(** What every [datetime] object satisfies. *)
Definition well_formed (t : datetime) : Prop :=
  (0 <= micros t < micros_per_day)%Z.

Definition is_leap (y : Z) : bool :=
  (y mod 4 =? 0)%Z && (negb (y mod 100 =? 0)%Z || (y mod 400 =? 0)%Z).

Definition days_in_month (y m : Z) : Z :=
  if (m =? 2)%Z then (if is_leap y then 29 else 28)%Z
  else if ((m =? 4) || (m =? 6) || (m =? 9) || (m =? 11))%Z then 30%Z
  else 31%Z.

Definition days_before_year (year : Z) : Z :=
  let y := (year - 1)%Z in
  (y * 365 + y / 4 - y / 100 + y / 400)%Z.

Definition days_before_month (y m : Z) : Z :=
  fold_left (fun acc k => (acc + days_in_month y (Z.of_nat k))%Z)
            (seq 1 (Z.to_nat (m - 1))) 0%Z.

Definition ymd2ord (y m d : Z) : Z :=
  (days_before_year y + days_before_month y m + d)%Z.

(** [datetime(y, m, d)]: [None] stands for the [ValueError] raised on a date
    that does not exist. *)
Definition new_datetime (y m d : Z) : option datetime :=
  if ((1 <=? y) && (y <=? 9999) && (1 <=? m) && (m <=? 12)
      && (1 <=? d) && (d <=? days_in_month y m))%Z
  then Some (mkdatetime (ymd2ord y m d) 0)
  else None.

Definition digit_val (c : ascii) : option Z :=
  if Str.is_digit c then Some (Z.of_nat (nat_of_ascii c - 48)) else None.

(** [%Y], the group [\d\d\d\d]. *)
Definition parse_year (s : string) : option (Z * string) :=
  match s with
  | String a (String b (String c (String d rest))) =>
      match digit_val a, digit_val b, digit_val c, digit_val d with
      | Some x3, Some x2, Some x1, Some x0 =>
          Some ((x3 * 1000 + x2 * 100 + x1 * 10 + x0)%Z, rest)
      | _, _, _, _ => None
      end
  | _ => None
  end.

(** Two characters read as a number when [ok] accepts them. *)
Definition two_chars (ok : ascii -> ascii -> bool) (s : string)
  : list (Z * string) :=
  match s with
  | String a (String b rest) =>
      if ok a b
      then match digit_val a, digit_val b with
           | Some x1, Some x0 => [((x1 * 10 + x0)%Z, rest)]
           | None, Some x0 => [(x0, rest)]
           | _, _ => []
           end
      else []
  | _ => []
  end.

Definition one_char (s : string) : list (Z * string) :=
  match s with
  | String a rest =>
      if Str.is_digit a && negb (Ascii.eqb a "0"%char)
      then match digit_val a with Some x => [(x, rest)] | None => [] end
      else []
  | _ => []
  end.

Definition between (lo hi c : ascii) : bool :=
  ((nat_of_ascii lo <=? nat_of_ascii c) && (nat_of_ascii c <=? nat_of_ascii hi))%nat.

(** [%m], the group [1[0-2]|0[1-9]|[1-9]]: the ways it can match at the
    head of [s], in the order the matcher tries them. *)
Definition month_alternatives (s : string) : list (Z * string) :=
  two_chars (fun a b => Ascii.eqb a "1"%char && between "0"%char "2"%char b) s
  ++ two_chars (fun a b => Ascii.eqb a "0"%char && between "1"%char "9"%char b) s
  ++ one_char s.

(** [%d], the group [3[0-1]|[1-2]\d|0[1-9]|[1-9]| [1-9]]. *)
Definition day_alternatives (s : string) : list (Z * string) :=
  two_chars (fun a b => Ascii.eqb a "3"%char && between "0"%char "1"%char b) s
  ++ two_chars (fun a b => between "1"%char "2"%char a && Str.is_digit b) s
  ++ two_chars (fun a b => Ascii.eqb a "0"%char && between "1"%char "9"%char b) s
  ++ one_char s
  ++ two_chars (fun a b => Ascii.eqb a " "%char && between "1"%char "9"%char b) s.

(** The first way, in the matcher's order, in which the compiled format
    matches a prefix of [s]: year, month, day and the unconverted rest. *)
Definition format_match (s : string) : option (Z * Z * Z * string) :=
  match parse_year s with
  | Some (y, String "-" r1) =>
      List.hd_error
        (flat_map
           (fun mr =>
              match snd mr with
              | String "-" r3 =>
                  map (fun dr => (y, fst mr, fst dr, snd dr)) (day_alternatives r3)
              | _ => []
              end)
           (month_alternatives r1))
  | _ => None
  end.

(** [datetime.strptime(s, '%Y-%m-%d')]; [None] stands for [ValueError]
    (no match, unconverted data, or a date that does not exist). *)
Definition strptime (s : string) : option datetime :=
  match format_match s with
  | Some (y, m, d, EmptyString) => new_datetime y m d
  | _ => None
  end.

(** [(a - b).days]: the difference is normalised so that its seconds and
    microseconds are non-negative, hence the floor. *)
Definition days_between (a b : datetime) : Z :=
  (((ordinal a - ordinal b) * micros_per_day + (micros a - micros b))
   / micros_per_day)%Z.

End Datetime.

(* ================================================================== *)
(** ** [services/candidate_matcher.py] *)

Module CandidateMatcher.

(** A [Dict[str, float]] as an association list in insertion order. *)
Definition dict : Type := list (string * Q).

(** [d.get(k)]: [None] when [k] is not a key. *)
Fixpoint dict_get (k : string) (d : dict) : option Q :=
  match d with
  | [] => None
  | (k', v) :: rest => if String.eqb k k' then Some v else dict_get k rest
  end.

(** [k in d] *)
Definition dict_mem (k : string) (d : dict) : bool :=
  match dict_get k d with Some _ => true | None => false end.

(** [d[k] = v]: a key already present keeps its position. *)
Fixpoint dict_set (k : string) (v : Q) (d : dict) : dict :=
  match d with
  | [] => [(k, v)]
  | (k', v') :: rest =>
      if String.eqb k k' then (k', v) :: rest
      else (k', v') :: dict_set k v rest
  end.

(** [{k.lower(): v for k, v in d.items()}] *)
Definition lower_keys (d : dict) : dict :=
  fold_left (fun acc kv => dict_set (Str.lower (fst kv)) (snd kv) acc) d [].

(** [set(...)] of a list of strings: its distinct elements.  The score
    summed over the set does not depend on the order of iteration (lemma
    [skill_loop_order] below). *)
Definition set_of (l : list string) : list string :=
  nodup string_dec l.

(** The default of [match_candidates] when no skill list is passed. *)
Definition default_job_skills : list string :=
  ["python"; "machine learning"; "sql"; "communication"].

(** The dict literal [skill_mappings]. *)
Definition skill_mappings : list (string * list string) :=
  [ ("machine learning", ["ml"; "ai"; "artificial intelligence"]);
    ("artificial intelligence", ["ai"; "ml"; "machine learning"]);
    ("javascript", ["js"; "node"; "nodejs"]);
    ("python", ["py"]);
    ("database", ["db"; "sql"; "mysql"; "postgresql"]);
    ("react", ["reactjs"]);
    ("angular", ["angularjs"]) ].

Fixpoint mapping_get (k : string) (m : list (string * list string))
  : option (list string) :=
  match m with
  | [] => None
  | (k', v) :: rest => if String.eqb k k' then Some v else mapping_get k rest
  end.

(** The loop over the aliases: the first alias that is a key decides. *)
Fixpoint alias_loop (aliases : list string) (candidate_skills : dict) : option Q :=
  match aliases with
  | [] => None
  | alias :: rest =>
      match dict_get alias candidate_skills with
      | Some level => Some (level * 0.8)%Q
      | None => alias_loop rest candidate_skills
      end
  end.

(** The loop over the candidate's items: the first skill name that contains
    the job skill, or is contained in it, decides. *)
Fixpoint substring_loop (job_skill : string) (items : dict) : Q :=
  match items with
  | [] => 0%Q
  | (candidate_skill, level) :: rest =>
      if Str.contains job_skill candidate_skill
         || Str.contains candidate_skill job_skill
      then (level * 0.6)%Q
      else substring_loop job_skill rest
  end.

Definition _find_partial_skill_match (job_skill : string) (candidate_skills : dict)
  : Q :=
  let by_alias :=
    match mapping_get job_skill skill_mappings with
    | Some aliases => alias_loop aliases candidate_skills
    | None => None
    end in
  match by_alias with
  | Some score => score
  | None => substring_loop job_skill candidate_skills
  end.

(** What one job skill adds to [total_skill_score]. *)
Definition contribution (candidate_skills_lower : dict) (job_skill : string) : Q :=
  match dict_get job_skill candidate_skills_lower with
  | Some level => level
  | None => _find_partial_skill_match job_skill candidate_skills_lower
  end.

(** The [for job_skill in job_skills_set] loop, on the pair
    [(total_skill_score, max_possible_score)]. *)
Definition skill_loop (candidate_skills_lower : dict) (todo : list string)
    (acc : Q * Q) : Q * Q :=
  fold_left
    (fun acc job_skill =>
       (fst acc + contribution candidate_skills_lower job_skill, snd acc + 5)%Q)
    todo acc.

Definition _calculate_skill_score (candidate_skills : dict) (job_skills : list string)
  : Q :=
  match job_skills, candidate_skills with
  | [], _ => 0%Q
  | _, [] => 0%Q
  | _ :: _, _ :: _ =>
      let job_skills_set := set_of (map Str.lower job_skills) in
      let candidate_skills_lower := lower_keys candidate_skills in
      let matched_skills :=
        filter (fun s => dict_mem s candidate_skills_lower) job_skills_set in
      match matched_skills with
      | [] => 0%Q
      | _ :: _ =>
          let '(total_skill_score, max_possible_score) :=
            skill_loop candidate_skills_lower job_skills_set (0%Q, 0%Q) in
          if negb (Qle_bool max_possible_score 0)
          then (total_skill_score / max_possible_score * 100)%Q
          else 0%Q
      end
  end.

(** What one project adds to [total_score]; [current_date] is the reading
    of the clock.  A date that is [None] or the empty string fails the
    truth test and counts as absent. *)
Definition project_score (current_date : Datetime.datetime) (project : Project) : Q :=
  match Project_completion_date project with
  | Some s =>
      if Str.truthy s then
        match Datetime.strptime s with
        | Some completion_date =>
            let days_ago := Datetime.days_between current_date completion_date in
            if (days_ago <=? 30)%Z then 100%Q
            else if (days_ago <=? 90)%Z then 80%Q
            else if (days_ago <=? 180)%Z then 60%Q
            else if (days_ago <=? 365)%Z then 40%Q
            else 20%Q
        | None => 50%Q
        end
      else 70%Q
  | None => 70%Q
  end.

Definition _calculate_recency_score (current_date : Datetime.datetime)
    (projects : list Project) : Q :=
  match projects with
  | [] => 50%Q
  | _ :: _ =>
      let total_score :=
        fold_left (fun total p => (total + project_score current_date p)%Q)
                  projects 0%Q in
      (total_score / Num.of_nat (List.length projects))%Q
  end.

(** The weighted sum before rounding. *)
Definition overall_score (skill_score eval_score recency_score : Q)
    (weights : MatchWeights) : Q :=
  (skill_score * MatchWeights_skill weights
   + eval_score * MatchWeights_eval weights
   + recency_score * MatchWeights_recency weights)%Q.

(** [None] when the [Match] constructor raises. *)
Definition _evaluate_candidate (current_date : Datetime.datetime)
    (candidate : Candidate) (job_skills : list string) (weights : MatchWeights)
  : option Match :=
  let skill_score := _calculate_skill_score (Candidate_skills candidate) job_skills in
  let eval_score := Candidate_eval_score candidate in
  let recency_score :=
    _calculate_recency_score current_date (Candidate_recent_projects candidate) in
  let overall := overall_score skill_score eval_score recency_score weights in
  new_Match (Candidate_student_id candidate)
            (Num.round2 overall)
            (Num.round2 skill_score)
            (Num.round2 eval_score)
            (Num.round2 recency_score).

(** The [for candidate in request.candidates] loop; [clock i] is the [i]-th
    reading of [datetime.now()].  An exception in one evaluation ends the
    loop. *)
Fixpoint evaluate_loop (clock : nat -> Datetime.datetime) (i : nat)
    (todo : list Candidate) (job_skills : list string) (weights : MatchWeights)
    (matches : list Match) : option (list Match) :=
  match todo with
  | [] => Some matches
  | candidate :: todo' =>
      match _evaluate_candidate (clock i) candidate job_skills weights with
      | Some match_result =>
          evaluate_loop clock (S i) todo' job_skills weights
                        (matches ++ [match_result])
      | None => None
      end
  end.

(** [if job_skills is None: job_skills = [...]] *)
Definition job_skills_or_default (job_skills : option (list string)) : list string :=
  match job_skills with
  | None => default_job_skills
  | Some l => l
  end.

(** [None] when the call raises (the [except] clause logs and re-raises). *)
Definition match_candidates (clock : nat -> Datetime.datetime)
    (request : MatchRequest) (job_skills : option (list string))
  : option MatchResponse :=
  let job_skills := job_skills_or_default job_skills in
  match evaluate_loop clock 0 (MatchRequest_candidates request) job_skills
                      (MatchRequest_weights request) [] with
  | Some matches =>
      let matches := PyList.sort_desc Match_score matches in
      let top_matches := PyList.slice_to (MatchRequest_top_k request) matches in
      Some (mkMatchResponse (MatchRequest_job_id request) top_matches
                            (List.length (MatchRequest_candidates request)))
  | None => None
  end.

End CandidateMatcher.

(* ================================================================== *)
(** ** [main.py]: the handler of [POST /api/ai/jd/match] *)

Module Main.

(** [candidate_matcher.match_candidates(request)]: no skill list is passed.
    [None] is the [HTTPException] with status 500. *)
Definition match_candidates (clock : nat -> Datetime.datetime)
    (request : MatchRequest) : option MatchResponse :=
  CandidateMatcher.match_candidates clock request None.

End Main.

(* ================================================================== *)
(** ** Notions of the specification, used to state the properties *)

Module Ref.

(** Base weight of a term matched [f] times. *)
Definition base_weight (f : nat) : Q :=
  Num.py_min (0.1 + 0.1 * Num.of_nat f)%Q 1%Q.

(** The boost window: the text from the first occurrence of "requirements"
    on when that word is present, the whole text otherwise. *)
Definition boost_window (jd_text : string) : string :=
  if Str.contains "requirements" jd_text
  then Str.slice_from (Str.find "requirements" jd_text) jd_text
  else jd_text.

(** The text has one of the three phrases and the term occurs in the boost
    window. *)
Definition boost_applies (term jd_text : string) : bool :=
  (Str.contains "requirements" jd_text
   || Str.contains "required" jd_text
   || Str.contains "must have" jd_text)
  && Str.contains term (boost_window jd_text).

(** The trigger phrases of a level. *)
Definition trigger_phrases (level : SeniorityLevel) : list string :=
  match find (fun e => SeniorityLevel_eqb (fst e) level) JDParser.seniority_table with
  | Some e => snd e
  | None => []
  end.

(** Total of the whole-word match counts of the trigger phrases of a
    level. *)
Definition level_total (jd_text : string) (level : SeniorityLevel) : nat :=
  list_sum (map (fun phrase => Re.findall_count phrase jd_text)
                (trigger_phrases level)).

(** Position of a level in the enumeration. *)
Definition rank (level : SeniorityLevel) : nat :=
  match level with
  | JUNIOR => 0
  | MID => 1
  | SENIOR => 2
  | LEAD => 3
  | PRINCIPAL => 4
  end.

(** The level with the greatest total, the first one in enumeration order
    among equals. *)
Definition greatest_first (jd_text : string) : SeniorityLevel :=
  fold_left
    (fun best level =>
       if (level_total jd_text best <? level_total jd_text level)%nat
       then level else best)
    [MID; SENIOR; LEAD; PRINCIPAL] JUNIOR.

(** [x] brought back into [[lo, hi]]. *)
Definition clamp (lo hi x : Q) : Q :=
  if Qle_bool x lo then lo else if Qle_bool hi x then hi else x.

(** [a] may stand before [b] in a list sorted by descending key. *)
Definition desc {A : Type} (key : A -> Q) (a b : A) : Prop :=
  (key b <= key a)%Q.

(** The elements whose key equals [s], in the order they have in the
    list. *)
Definition with_key {A : Type} (key : A -> Q) (s : Q) (l : list A) : list A :=
  filter (fun m => Qeq_bool (key m) s) l.

(** A skill level within the bounds of the data model. *)
Definition level_ok (kv : string * Q) : Prop := (0 <= snd kv <= 5)%Q.

(** The same request under another job identifier. *)
Definition with_job_id (request : MatchRequest) (job_id : string) : MatchRequest :=
  mkMatchRequest job_id (MatchRequest_candidates request)
                 (MatchRequest_top_k request) (MatchRequest_weights request).

End Ref.

(* ================================================================== *)
(** ** Sample data for the concrete instances *)

Module Sample.

(** Noon of 4 November 2026. *)
Definition noon_2026_11_04 : Datetime.datetime :=
  Datetime.mkdatetime 739924 43200000000.

(** A clock that always reads noon of 4 November 2026. *)
Definition clock (i : nat) : Datetime.datetime := noon_2026_11_04.

(** A candidate at the top of every scale. *)
Definition strong_candidate : Candidate :=
  mkCandidate "student_001" [("python", 5%Q)] 100%Q [].

(** Weights that are each within [[0, 1]] and sum to 3. *)
Definition unit_weights : MatchWeights := mkMatchWeights 1%Q 1%Q 1%Q.

Definition unit_request : MatchRequest :=
  mkMatchRequest "job_001" [strong_candidate] 1%Z unit_weights.

(** Fifteen candidates with the same skills and evaluation score. *)
Definition fifteen_candidates : list Candidate :=
  map (fun i => mkCandidate (String (ascii_of_nat (65 + i)) "")
                            [("python", 3%Q); ("sql", 2%Q)] 70%Q [])
      (seq 0 15).

Definition fifteen_request : MatchRequest :=
  mkMatchRequest "job_004" fifteen_candidates 5%Z default_MatchWeights.

(** Two candidates with the same overall score, then a better one. *)
Definition three_request : MatchRequest :=
  mkMatchRequest "job_002"
    [ mkCandidate "first" [("python", 3%Q)] 60%Q [];
      mkCandidate "second" [("sql", 3%Q)] 60%Q [];
      mkCandidate "third" [("python", 5%Q); ("sql", 5%Q)] 90%Q [] ]
    10%Z default_MatchWeights.

Definition three_response : MatchResponse :=
  Eval vm_compute in
    match Main.match_candidates clock three_request with
    | Some response => response
    | None => mkMatchResponse "" [] 0
    end.

End Sample.

(* ================================================================== *)
(** ** [services/candidate_matcher.py]: reasons and similarity *)

(** [MatchReasons]: three lists of strings, without bounds. *)
Record MatchReasons : Type := mkMatchReasons
  { MatchReasons_top_terms : list string;
    MatchReasons_skill_gaps : list string;
    MatchReasons_strengths : list string }.

Module Reasons.

Section WithFormat.

(** The text Python prints for a float inside an f-string. *)
Variable float_str : Q -> string.

(** [f"{skill} (level {level})"] *)
Definition strength_text (skill : string) (level : Q) : string :=
  skill ++ " (level " ++ float_str level ++ ")".

(** [f"{skill} (low level: {level})"] *)
Definition low_level_text (skill : string) (level : Q) : string :=
  skill ++ " (low level: " ++ float_str level ++ ")".

(** The body of the loop over the required skills, on the triple
    [(top_terms, skill_gaps, strengths)]. *)
Definition required_step (candidate_skills_lower : CandidateMatcher.dict)
    (acc : list string * list string * list string) (job_skill : string)
  : list string * list string * list string :=
  let '(top_terms, skill_gaps, strengths) := acc in
  match CandidateMatcher.dict_get job_skill candidate_skills_lower with
  | Some skill_level =>
      if Qle_bool 4 skill_level
      then (top_terms ++ [job_skill], skill_gaps,
            strengths ++ [strength_text job_skill skill_level])
      else if Qle_bool 2 skill_level
      then (top_terms ++ [job_skill], skill_gaps, strengths)
      else (top_terms, skill_gaps ++ [low_level_text job_skill skill_level],
            strengths)
  | None => (top_terms, skill_gaps ++ [job_skill], strengths)
  end.

(** The body of the loop over the candidate's own skills. *)
Definition own_step (job_skills_lower : list string) (strengths : list string)
    (item : string * Q) : list string :=
  if Qle_bool 4.5 (snd item)
     && negb (existsb (String.eqb (Str.lower (fst item))) job_skills_lower)
  then strengths ++ [strength_text (fst item) (snd item)]
  else strengths.

Definition _generate_match_reasons (candidate : Candidate) (job_skills : list string)
  : MatchReasons :=
  let candidate_skills_lower := CandidateMatcher.lower_keys (Candidate_skills candidate) in
  let job_skills_lower := map Str.lower job_skills in
  let '(top_terms, skill_gaps, strengths) :=
    fold_left (required_step candidate_skills_lower) job_skills_lower ([], [], []) in
  let strengths :=
    fold_left (own_step job_skills_lower) (Candidate_skills candidate) strengths in
  mkMatchReasons (PyList.slice_to 5 top_terms) (PyList.slice_to 5 skill_gaps)
                 (PyList.slice_to 3 strengths).

End WithFormat.

End Reasons.

Module Similarity.

(** [re.findall(r'\w+', s)]: the maximal runs of word characters; [cur] is
    the run being read. *)
Fixpoint words_from (cur : string) (s : string) : list string :=
  match s with
  | EmptyString => if Str.truthy cur then [cur] else []
  | String c s' =>
      if Str.is_word c then words_from (cur ++ String c EmptyString) s'
      else (if Str.truthy cur then [cur] else []) ++ words_from EmptyString s'
  end.

(** [set(re.findall(r'\w+', skill.lower()))] *)
Definition word_set (skill : string) : list string :=
  CandidateMatcher.set_of (words_from EmptyString (Str.lower skill)).

Definition mem (w : string) (l : list string) : bool :=
  existsb (String.eqb w) l.

Definition _skills_are_similar (skill1 skill2 : string) : bool :=
  let words1 := word_set skill1 in
  let words2 := word_set skill2 in
  match words1, words2 with
  | [], _ => false
  | _, [] => false
  | _ :: _, _ :: _ =>
      let intersection := List.length (filter (fun w => mem w words2) words1) in
      let union := List.length (CandidateMatcher.set_of (words1 ++ words2)) in
      if (0 <? union)%nat
      then negb (Qle_bool (Num.of_nat intersection / Num.of_nat union) 0.3)
      else false
  end.

(** [max(a, b)] *)
Definition py_max (a b : Q) : Q := if Qle_bool b a then a else b.

(** The inner loop of [_calculate_skill_similarity] over the candidate's
    items: the best score and whether the loop ended on a [break]. *)
Fixpoint partial_loop (required_skill : string) (items : CandidateMatcher.dict)
    (best_match_score : Q) : Q * bool :=
  match items with
  | [] => (best_match_score, false)
  | (candidate_skill, level) :: rest =>
      if Str.contains required_skill candidate_skill
         || Str.contains candidate_skill required_skill
         || _skills_are_similar required_skill candidate_skill
      then
        let partial_score := (level / 5 * 0.7)%Q in
        let best := py_max best_match_score partial_score in
        if negb (Qle_bool best 0) then (best, true)
        else partial_loop required_skill rest best
      else partial_loop required_skill rest best_match_score
  end.

(** The body of the outer loop, on the pair [(total_score, matched_skills)]. *)
Definition required_step (candidate_skills_lower : CandidateMatcher.dict)
    (acc : Q * nat) (required_skill : string) : Q * nat :=
  match CandidateMatcher.dict_get required_skill candidate_skills_lower with
  | Some level => (fst acc + level / 5, S (snd acc))%Q
  | None =>
      let '(best, matched) :=
        partial_loop required_skill candidate_skills_lower 0%Q in
      ((fst acc + best)%Q, if matched then S (snd acc) else snd acc)
  end.

(** The [try] block has no raising operation, so the [except] clause is
    never entered. *)
Definition _calculate_skill_similarity (candidate_skills : CandidateMatcher.dict)
    (required_skills : list string) : Q :=
  match candidate_skills, required_skills with
  | [], _ => 0%Q
  | _, [] => 0%Q
  | _ :: _, _ :: _ =>
      let candidate_skills_lower := CandidateMatcher.lower_keys candidate_skills in
      let required_skills_lower := map Str.lower required_skills in
      let '(total_score, matched_skills) :=
        fold_left (required_step candidate_skills_lower) required_skills_lower
                  (0%Q, 0%nat) in
      if (0 <? List.length required_skills)%nat
      then
        let similarity := (total_score / Num.of_nat (List.length required_skills))%Q in
        let coverage_bonus :=
          (Num.of_nat matched_skills / Num.of_nat (List.length required_skills) * 0.1)%Q in
        Num.py_min (similarity + coverage_bonus) 1
      else 0%Q
  end.

End Similarity.

Module RefReasons.

(** The candidate holds the skill at level 2 or more. *)
Definition held (candidate_skills_lower : CandidateMatcher.dict) (skill : string) : bool :=
  match CandidateMatcher.dict_get skill candidate_skills_lower with
  | Some level => Qle_bool 2 level
  | None => false
  end.

(** The candidate holds the skill at level 4 or more. *)
Definition strong (candidate_skills_lower : CandidateMatcher.dict) (skill : string) : bool :=
  match CandidateMatcher.dict_get skill candidate_skills_lower with
  | Some level => Qle_bool 4 level
  | None => false
  end.

(** The level of a skill the candidate has; 0 stands for a missing one. *)
Definition level_of (candidate_skills_lower : CandidateMatcher.dict) (skill : string) : Q :=
  match CandidateMatcher.dict_get skill candidate_skills_lower with
  | Some level => level
  | None => 0%Q
  end.

(** A skill of the candidate at level 4.5 or more that is not required. *)
Definition extra (job_skills_lower : list string) (item : string * Q) : bool :=
  Qle_bool 4.5 (snd item)
  && negb (existsb (String.eqb (Str.lower (fst item))) job_skills_lower).

(** The entry of [skill_gaps] for a required skill that is not held: the
    bare name when the skill is missing, the name with its level when the
    level is below 2. *)
Definition gap_text (float_str : Q -> string)
    (candidate_skills_lower : CandidateMatcher.dict) (skill : string) : string :=
  match CandidateMatcher.dict_get skill candidate_skills_lower with
  | Some level => Reasons.low_level_text float_str skill level
  | None => skill
  end.

End RefReasons.

(* ================================================================== *)
(** ** Further notions used to state the properties *)

Module RefRe.

(** Last character of [pat], or [prev] when [pat] is empty. *)
Fixpoint last_char (prev : option ascii) (pat : string) : option ascii :=
  match pat with
  | EmptyString => prev
  | String a pat' => last_char (Some a) pat'
  end.

(** The character that follows a prefix of the length of [pat]. *)
Definition char_after (pat s : string) : option ascii :=
  Str.head (Str.drop (String.length pat) s).

End RefRe.

Module RefParser.

(** The term has at least one whole-word match in the text. *)
Definition mentioned (jd_text term : string) : bool :=
  (0 <? Re.findall_count (Str.lower term) jd_text)%nat.

(** The [Skill] appended for a mentioned term. *)
Definition found_skill (jd_text term : string) : Skill :=
  mkSkill term
    (Num.round2
       (JDParser.skill_weight term jd_text
          (Re.findall_count (Str.lower term) jd_text))).

End RefParser.

Module RefMatcher.

(** The value of the last item of [d] whose lower-cased key is [k]. *)
Definition last_value (k : string) (d : CandidateMatcher.dict) : option Q :=
  fold_left
    (fun found kv => if String.eqb k (Str.lower (fst kv)) then Some (snd kv) else found)
    d None.


End RefMatcher.

Module RefRecency.

(** The contribution of a project completed [days_ago] days ago. *)
Definition bucket (days_ago : Z) : Q :=
  if (days_ago <=? 30)%Z then 100%Q
  else if (days_ago <=? 90)%Z then 80%Q
  else if (days_ago <=? 180)%Z then 60%Q
  else if (days_ago <=? 365)%Z then 40%Q
  else 20%Q.

End RefRecency.

Module RefMatch.

(** The four scores of a match lie in [[0, 100]]. *)
Definition scores_in_range (m : Match) : Prop :=
  (0 <= Match_score m <= 100)%Q
  /\ (0 <= Match_skill_score m <= 100)%Q
  /\ (0 <= Match_eval_score m <= 100)%Q
  /\ (0 <= Match_recency_score m <= 100)%Q.

End RefMatch.

Module RefScan.

(** The character before position [n] of [s], when [prev] is the character
    before its position 0. *)
Fixpoint prev_at (prev : option ascii) (s : string) (n : nat) {struct n}
  : option ascii :=
  match n with
  | O => prev
  | S k =>
      match s with
      | String c s' => prev_at (Some c) s' k
      | EmptyString => prev
      end
  end.

End RefScan.

(* ================================================================== *)
(** * Properties *)

(** ** Strings and matches *)

Lemma startswith_contains (p s : string) :
  Str.startswith p s = true -> Str.contains p s = true.
Proof.
  destruct s; simpl; intros ->; reflexivity.
Qed.

Lemma contains_tail (p : string) (c : ascii) (s : string) :
  Str.contains p s = true -> Str.contains p (String c s) = true.
Proof.
  intros H. change (Str.contains p (String c s))
    with (Str.startswith p (String c s) || Str.contains p s).
  rewrite H. apply orb_true_r.
Qed.

Lemma match_literal_startswith (pat : string) :
  forall prev s, Re.match_literal pat prev s = true -> Str.startswith pat s = true.
Proof.
  induction pat as [|a pat IH]; intros prev s H; [reflexivity|].
  destruct s as [|b s]; simpl in *; [discriminate|].
  apply andb_true_iff in H as [Hab Hrest].
  rewrite Hab. simpl. eapply IH; eassumption.
Qed.

Lemma match_here_contains (pat : string) (prev : option ascii) (s : string) :
  Re.match_here pat prev s = true -> Str.contains pat s = true.
Proof.
  unfold Re.match_here. intros H.
  apply andb_true_iff in H as [_ H].
  apply startswith_contains. eapply match_literal_startswith; eassumption.
Qed.

(** A text in which the pattern is found at least once contains the
    literal. *)
Lemma count_from_contains (pat : string) :
  forall s prev skip,
    (0 < Re.count_from pat prev skip s)%nat -> Str.contains pat s = true.
Proof.
  induction s as [|c s IH]; intros prev skip H.
  - simpl in H. destruct skip; [|lia].
    destruct (Re.match_here pat prev "") eqn:E; [|lia].
    eapply match_here_contains; eassumption.
  - simpl in H. destruct skip as [|k].
    + destruct (Re.match_here pat prev (String c s)) eqn:E.
      * eapply match_here_contains; eassumption.
      * apply contains_tail. eapply IH; eassumption.
    + apply contains_tail. eapply IH; eassumption.
Qed.

Lemma findall_contains (pat s : string) :
  (0 < Re.findall_count pat s)%nat -> Str.contains pat s = true.
Proof. apply count_from_contains. Qed.

(** When the scan counts no match, the search fails. *)
Lemma count_from_zero_search (pat : string) :
  forall s prev,
    Re.count_from pat prev 0 s = 0%nat -> Re.search_from pat prev s = false.
Proof.
  induction s as [|c s IH]; intros prev H; simpl in *.
  - destruct (Re.match_here pat prev ""); [discriminate|reflexivity].
  - destruct (Re.match_here pat prev (String c s)); [discriminate|].
    simpl. apply IH, H.
Qed.

(** The vocabularies and trigger phrases are written in lower case. *)
Lemma technical_vocabulary_lower (t : string) :
  In t JDParser.technical_vocabulary -> Str.lower t = t.
Proof.
  intros H.
  assert (E : forallb (fun s => String.eqb (Str.lower s) s)
                      JDParser.technical_vocabulary = true) by (vm_compute; reflexivity).
  rewrite forallb_forall in E. apply String.eqb_eq, E, H.
Qed.

Lemma soft_vocabulary_lower (t : string) :
  In t JDParser.soft_vocabulary -> Str.lower t = t.
Proof.
  intros H.
  assert (E : forallb (fun s => String.eqb (Str.lower s) s)
                      JDParser.soft_vocabulary = true) by (vm_compute; reflexivity).
  rewrite forallb_forall in E. apply String.eqb_eq, E, H.
Qed.

(** ** Rounding *)

Lemma round_half_even_bounds (q : Q) :
  (Qfloor q <= Num.round_half_even q <= Qfloor q + 1)%Z.
Proof.
  unfold Num.round_half_even.
  destruct (q - inject_Z (Qfloor q) ?= 1 # 2)%Q; try destruct (Z.even _); lia.
Qed.

Lemma round_half_even_le (q : Q) (n : Z) :
  (q <= inject_Z n)%Q -> (Num.round_half_even q <= n)%Z.
Proof.
  intros H.
  assert (Hf : (Qfloor q <= n)%Z).
  { rewrite <- (Qfloor_Z n). apply Qfloor_resp_le, H. }
  destruct (Z.eq_dec (Qfloor q) n) as [E|NE].
  - unfold Num.round_half_even.
    assert (Hq : (inject_Z (Qfloor q) <= q)%Q) by apply Qfloor_le.
    rewrite E in *.
    assert (Hr : (q - inject_Z n < 1 # 2)%Q) by lra.
    rewrite Qlt_alt in Hr. rewrite Hr. lia.
  - pose proof (round_half_even_bounds q). lia.
Qed.

Lemma round_half_even_ge (q : Q) (n : Z) :
  (inject_Z n <= q)%Q -> (n <= Num.round_half_even q)%Z.
Proof.
  intros H.
  assert (Hf : (n <= Qfloor q)%Z).
  { rewrite <- (Qfloor_Z n). apply Qfloor_resp_le, H. }
  pose proof (round_half_even_bounds q). lia.
Qed.

(** Rounding to two decimals keeps a value inside integer bounds. *)
Lemma round2_range (lo hi : Z) (x : Q) :
  (inject_Z lo <= x <= inject_Z hi)%Q ->
  Num.in_range (inject_Z lo) (inject_Z hi) (Num.round2 x) = true.
Proof.
  intros [Hlo Hhi]. unfold Num.in_range, Num.round2.
  assert (H1 : (lo * 100 <= Num.round_half_even (x * 100))%Z).
  { apply round_half_even_ge. rewrite inject_Z_mult.
    change (inject_Z 100) with 100%Q. lra. }
  assert (H2 : (Num.round_half_even (x * 100) <= hi * 100)%Z).
  { apply round_half_even_le. rewrite inject_Z_mult.
    change (inject_Z 100) with 100%Q. lra. }
  apply andb_true_iff; split; apply Qle_bool_iff.
  - apply Qle_shift_div_l; [reflexivity|].
    change (100%Q) with (inject_Z 100). rewrite <- inject_Z_mult.
    rewrite <- Zle_Qle. exact H1.
  - apply Qle_shift_div_r; [reflexivity|].
    change (100%Q) with (inject_Z 100). rewrite <- inject_Z_mult.
    rewrite <- Zle_Qle. exact H2.
Qed.

Lemma in_range_spec (lo hi x : Q) :
  Num.in_range lo hi x = true <-> (lo <= x <= hi)%Q.
Proof.
  unfold Num.in_range. rewrite andb_true_iff, !Qle_bool_iff. reflexivity.
Qed.

Lemma py_min_le_r (a b : Q) : (Num.py_min a b <= b)%Q.
Proof.
  unfold Num.py_min. destruct (Qle_bool a b) eqn:E.
  - apply Qle_bool_iff, E.
  - apply Qle_refl.
Qed.

Lemma py_min_ge (a b c : Q) : (c <= a)%Q -> (c <= b)%Q -> (c <= Num.py_min a b)%Q.
Proof.
  unfold Num.py_min. destruct (Qle_bool a b); auto.
Qed.

#[export] Instance py_min_proper : Proper (Qeq ==> Qeq ==> Qeq) Num.py_min.
Proof.
  intros a a' Ha b b' Hb. unfold Num.py_min.
  destruct (Qle_bool a b) eqn:E1, (Qle_bool a' b') eqn:E2; try assumption;
    exfalso.
  - apply Qle_bool_iff in E1.
    assert (N : ~ (a' <= b')%Q) by (rewrite <- Qle_bool_iff; congruence).
    apply N. lra.
  - apply Qle_bool_iff in E2.
    assert (N : ~ (a <= b)%Q) by (rewrite <- Qle_bool_iff; congruence).
    apply N. lra.
Qed.

(** ** The requirement extractor *)

Lemma base_weight_code (f : nat) :
  (Num.py_min (0.1 + Num.of_nat f * 0.1) 1 == Ref.base_weight f)%Q.
Proof.
  unfold Ref.base_weight. apply py_min_proper; [ring|reflexivity].
Qed.

(** The inner condition of the boost, once the outer one holds, is the
    occurrence of the term in the boost window. *)
Lemma boost_inner_window (term jd_text : string) :
  Str.contains term jd_text = true ->
  existsb (fun section => Str.contains section jd_text) JDParser.section_markers = true ->
  JDParser.boost_inner term jd_text = Str.contains term (Ref.boost_window jd_text).
Proof.
  intros Hterm Hany. unfold JDParser.boost_inner, Ref.boost_window.
  destruct (Str.contains "requirements" jd_text) eqn:A; [reflexivity|].
  rewrite Hterm. destruct jd_text; [discriminate Hany|reflexivity].
Qed.


(** Evaluates [lower] on the string literals of the goal. *)
Ltac eval_lower :=
  repeat match goal with
         | |- context [Str.lower ?s] =>
             let s' := eval vm_compute in (Str.lower s) in
             change (Str.lower s) with s'
         end.

(** After the two loops the dict holds, level by level in enumeration
    order, the total of the match counts of the level's phrases. *)
Lemma seniority_scores_totals (self : JDParser.JDParserService) (jd_text : string) :
  JDParser.seniority_keywords self = JDParser.seniority_table ->
  JDParser.seniority_scores self jd_text
  = map (fun level => (level, Ref.level_total jd_text level)) SeniorityLevel_members.
Proof.
  intros H. unfold JDParser.seniority_scores. rewrite H.
  cbv -[Re.findall_count Nat.add Str.lower].
  eval_lower.
  repeat (f_equal; try lia).
Qed.

Lemma determine_seniority_cases (self : JDParser.JDParserService) (jd_text : string) :
  JDParser.seniority_keywords self = JDParser.seniority_table ->
  forall a b c d e,
    a = Ref.level_total jd_text JUNIOR ->
    b = Ref.level_total jd_text MID ->
    c = Ref.level_total jd_text SENIOR ->
    d = Ref.level_total jd_text LEAD ->
    e = Ref.level_total jd_text PRINCIPAL ->
    JDParser._determine_seniority self jd_text
    = if (Nat.max (Nat.max (Nat.max (Nat.max (Nat.max 0 a) b) c) d) e =? 0)%nat then MID
      else fst (JDParser.max_item (JUNIOR, a) [(MID, b); (SENIOR, c); (LEAD, d); (PRINCIPAL, e)]).
Proof.
  intros Hk a b c d e -> -> -> -> ->.
  unfold JDParser._determine_seniority. rewrite (seniority_scores_totals _ _ Hk).
  reflexivity.
Qed.

Lemma determine_seniority_all_zero (self : JDParser.JDParserService) (jd_text : string) :
  JDParser.seniority_keywords self = JDParser.seniority_table ->
  (forall level, Ref.level_total jd_text level = 0%nat) ->
  JDParser._determine_seniority self jd_text = MID.
Proof.
  intros Hk Hz.
  rewrite (determine_seniority_cases self jd_text Hk _ _ _ _ _
             eq_refl eq_refl eq_refl eq_refl eq_refl).
  rewrite !Hz. reflexivity.
Qed.

(** C4 (amended).  For every text in which at least one trigger phrase
    matches, the level returned is the one with the greatest total of
    whole-word trigger-phrase match counts, the first in the enumeration order
    junior, mid, senior, lead, principal among equals: no level has a greater
    total, and every level with the same total comes later in the
    enumeration.  In particular one "junior" trigger and one "senior" trigger,
    with no level above 1, give junior.  When no trigger phrase matches at
    all the result is mid, not junior. *)
Theorem seniority_greatest_first (self : JDParser.JDParserService) (jd_text : string) :
  JDParser.initialised self ->
  let result := JDParser._determine_seniority self jd_text in
  ((exists level, 0 < Ref.level_total jd_text level)%nat ->
   result = Ref.greatest_first jd_text
   /\ (forall level, Ref.level_total jd_text level <= Ref.level_total jd_text result)%nat
   /\ (forall level,
         Ref.level_total jd_text level = Ref.level_total jd_text result ->
         Ref.rank result <= Ref.rank level)%nat
   /\ (Ref.level_total jd_text JUNIOR = 1%nat ->
       Ref.level_total jd_text SENIOR = 1%nat ->
       (forall level, Ref.level_total jd_text level <= 1)%nat ->
       result = JUNIOR))
  /\ ((forall level, Ref.level_total jd_text level = 0%nat) -> result = MID).
Proof.
  intros [_ [_ Hk]] result. subst result.
  rewrite (determine_seniority_cases self jd_text Hk _ _ _ _ _
             eq_refl eq_refl eq_refl eq_refl eq_refl).
  unfold Ref.greatest_first.
  cbn [fold_left JDParser.max_item fst snd].
  remember (Ref.level_total jd_text JUNIOR) as a eqn:Ea.
  remember (Ref.level_total jd_text MID) as b eqn:Eb.
  remember (Ref.level_total jd_text SENIOR) as c eqn:Ec.
  remember (Ref.level_total jd_text LEAD) as d eqn:Ed.
  remember (Ref.level_total jd_text PRINCIPAL) as e eqn:Ee.
  assert (Hall : forall level, Ref.level_total jd_text level =
                   match level with
                   | JUNIOR => a | MID => b | SENIOR => c | LEAD => d
                   | PRINCIPAL => e end).
  { intros []; congruence. }
  clear Ea Eb Ec Ed Ee.
  split.
  - intros Hpos.
    assert (Hmax : (Nat.max (Nat.max (Nat.max (Nat.max (Nat.max 0 a) b) c) d) e =? 0)%nat = false).
    { apply Nat.eqb_neq. destruct Hpos as [lv H]. rewrite Hall in H.
      destruct lv; lia. }
    rewrite Hmax.
    repeat (match goal with
            | |- context [(?x <? ?y)%nat] =>
                is_var x; is_var y; destruct (Nat.ltb_spec x y)
            end; rewrite ?Hall; cbn beta iota).
    all: cbn [fst snd]; rewrite ?Hall; cbn beta iota.
    all: split; [reflexivity|].
    all: split; [intros lv; rewrite Hall; destruct lv; lia|].
    all: split; [intros lv; rewrite Hall; destruct lv; cbn [Ref.rank]; lia|].
    all: intros J1 J2 J3; try reflexivity; exfalso.
    all: pose proof (J3 MID) as Q1; pose proof (J3 LEAD) as Q2;
      pose proof (J3 PRINCIPAL) as Q3;
      rewrite Hall in Q1, Q2, Q3; cbn beta iota in *; lia.
  - intros Hz.
    pose proof (Hz JUNIOR) as Z1. pose proof (Hz MID) as Z2.
    pose proof (Hz SENIOR) as Z3. pose proof (Hz LEAD) as Z4.
    pose proof (Hz PRINCIPAL) as Z5. rewrite Hall in Z1, Z2, Z3, Z4, Z5.
    cbn beta iota in *. rewrite Z1, Z2, Z3, Z4, Z5. reflexivity.
Qed.

Lemma of_nat_nonneg (n : nat) : (0 <= Num.of_nat n)%Q.
Proof.
  unfold Num.of_nat. change 0%Q with (inject_Z 0). rewrite <- Zle_Qle. lia.
Qed.

(** Every weight computed by the extractor passes the bounds of [Skill]. *)
Lemma skill_weight_range (skill jd_text : string) (frequency : nat) :
  (0 <= JDParser.skill_weight skill jd_text frequency <= 1)%Q.
Proof.
  unfold JDParser.skill_weight.
  pose proof (of_nat_nonneg frequency) as Hf.
  set (w := Num.py_min (0.1 + Num.of_nat frequency * 0.1)%Q 1%Q).
  assert (Hw : (0 <= w <= 1)%Q).
  { split; [apply py_min_ge; lra | apply py_min_le_r]. }
  destruct (existsb _ _); [destruct (JDParser.boost_inner _ _)|]; try exact Hw.
  split; [apply py_min_ge; lra | apply py_min_le_r].
Qed.

(** C3.  For a term of the technical vocabulary matched [f >= 1] times as a
    whole word, the weight before rounding is the base weight
    [min(0.1 + 0.1 f, 1)] multiplied by 1.5 and capped at 1 exactly when the
    text contains one of "requirements", "required", "must have" and the
    term occurs (as a substring) in the boost window; otherwise it is the
    base weight.  The skill appended to the found skills carries that
    weight rounded to two decimals. *)
Theorem section_boost_iff_window (term jd_text : string) (f : nat) :
  In term JDParser.technical_vocabulary ->
  f = Re.findall_count term jd_text ->
  (1 <= f)%nat ->
  (Ref.boost_applies term jd_text = true ->
   (JDParser.skill_weight term jd_text f
    == Num.py_min (Ref.base_weight f * 1.5) 1)%Q)
  /\ (Ref.boost_applies term jd_text = false ->
      (JDParser.skill_weight term jd_text f == Ref.base_weight f)%Q)
  /\ (forall found,
        JDParser.extract_step jd_text found term
        = Some (found
                ++ [mkSkill term
                      (Num.round2 (JDParser.skill_weight term jd_text f))])).
Proof.
  intros Hin Hf Hpos.
  assert (Hterm : Str.contains term jd_text = true).
  { apply findall_contains. lia. }
  apply and_assoc. split.
  2:{ intros found. unfold JDParser.extract_step, new_Skill.
      rewrite (technical_vocabulary_lower term Hin), <- Hf.
      destruct (Nat.ltb_spec 0 f); [|lia].
      assert (R : Num.in_range 0 1 (Num.round2 (JDParser.skill_weight term jd_text f))
                  = true)
        by (apply (round2_range 0 1), skill_weight_range).
      rewrite R. reflexivity. }
  unfold JDParser.skill_weight, Ref.boost_applies.
  destruct (existsb (fun section => Str.contains section jd_text)
                    JDParser.section_markers) eqn:Hany.
  - rewrite (boost_inner_window _ _ Hterm Hany).
    assert (Hor : Str.contains "requirements" jd_text
                  || Str.contains "required" jd_text
                  || Str.contains "must have" jd_text = true).
    { simpl in Hany. rewrite orb_false_r, orb_assoc in Hany. exact Hany. }
    rewrite Hor. simpl.
    destruct (Str.contains term (Ref.boost_window jd_text)); split;
      intros; try discriminate.
    + apply py_min_proper; [|reflexivity]. rewrite base_weight_code. reflexivity.
    + apply base_weight_code.
  - assert (Hor : Str.contains "requirements" jd_text
                  || Str.contains "required" jd_text
                  || Str.contains "must have" jd_text = false).
    { simpl in Hany. rewrite orb_false_r, orb_assoc in Hany. exact Hany. }
    rewrite Hor. simpl. split; intros; try discriminate.
    apply base_weight_code.
Qed.

Lemma extract_step_total (jd_text : string) (found : list Skill) (skill : string) :
  exists found', JDParser.extract_step jd_text found skill = Some found'.
Proof.
  unfold JDParser.extract_step, new_Skill.
  destruct (0 <? _)%nat; [|eauto].
  rewrite (round2_range 0 1); [eauto|]. apply skill_weight_range.
Qed.

Lemma extract_loop_total (jd_text : string) (todo : list string) :
  forall found, exists found', JDParser.extract_loop jd_text found todo = Some found'.
Proof.
  induction todo as [|skill todo IH]; intros found; simpl; [eauto|].
  destruct (extract_step_total jd_text found skill) as [found' ->]. apply IH.
Qed.

Lemma extract_loop_none_found (jd_text : string) (todo : list string) :
  (forall t, In t todo -> Re.findall_count (Str.lower t) jd_text = 0%nat) ->
  forall found, JDParser.extract_loop jd_text found todo = Some found.
Proof.
  induction todo as [|skill todo IH]; intros H found; simpl; [reflexivity|].
  unfold JDParser.extract_step. rewrite (H skill (or_introl eq_refl)). simpl.
  apply IH. intros t Ht. apply H. right. exact Ht.
Qed.

Lemma filter_none {A : Type} (p : A -> bool) (l : list A) :
  (forall x, In x l -> p x = false) -> filter p l = [].
Proof.
  induction l as [|x l IH]; intros H; simpl; [reflexivity|].
  rewrite (H x (or_introl eq_refl)). apply IH. intros y Hy. apply H. right. exact Hy.
Qed.

(** C8.  Requirement extraction always returns a response: no constructor
    raises, whatever the text and the iteration order of the vocabularies.
    When the lower-cased text has no whole-word match of any technical term,
    of any soft-skill term or of any seniority trigger phrase, the response
    has no skill, no soft skill, and seniority mid. *)
Theorem parse_jd_total (self : JDParser.JDParserService) (request : JDParseRequest) :
  JDParser.initialised self ->
  let jd_text := Str.lower (JDParseRequest_job_description request) in
  (exists response, JDParser.parse_jd self request = Some response)
  /\ ((forall t, In t JDParser.technical_vocabulary ->
                 Re.findall_count t jd_text = 0%nat) ->
      (forall t, In t JDParser.soft_vocabulary -> Re.search t jd_text = false) ->
      (forall level, Ref.level_total jd_text level = 0%nat) ->
      JDParser.parse_jd self request
      = Some (mkJDParseResponse [] [] MID (JDParseRequest_job_id request))).
Proof.
  intros Hinit jd_text. pose proof Hinit as [Ht [Hs Hk]].
  unfold JDParser.parse_jd. fold jd_text. split.
  - unfold JDParser._extract_technical_skills.
    destruct (extract_loop_total jd_text (JDParser.technical_skills self) [])
      as [found ->]. eauto.
  - intros Htech Hsoft Hsen.
    unfold JDParser._extract_technical_skills.
    rewrite extract_loop_none_found.
    + assert (Es : JDParser._extract_soft_skills self jd_text = []).
      { apply filter_none. intros t Hin.
        assert (Hv : In t JDParser.soft_vocabulary)
          by (eapply Permutation_in; eassumption).
        rewrite (soft_vocabulary_lower t Hv). apply Hsoft, Hv. }
      rewrite Es.
      rewrite (determine_seniority_all_zero self jd_text Hk Hsen). reflexivity.
    + intros t Hin.
      assert (Hv : In t JDParser.technical_vocabulary)
        by (eapply Permutation_in; eassumption).
      rewrite (technical_vocabulary_lower t Hv). apply Htech, Hv.
Qed.

(** The service built with the literals' own order is an initialised one. *)
Lemma declared_service_initialised : JDParser.initialised JDParser.declared_service.
Proof.
  repeat split; apply Permutation_refl.
Defined.

(** In "requirements: python and sql" the term "python", found once, gets
    the boosted weight. *)
Lemma section_boost_iff_window_witness :
  (JDParser.skill_weight "python" "requirements: python and sql" 1
   == Num.py_min (Ref.base_weight 1 * 1.5) 1)%Q.
Proof.
  apply (section_boost_iff_window "python" "requirements: python and sql" 1).
  - simpl. auto.
  - vm_compute. reflexivity.
  - lia.
  - vm_compute. reflexivity.
Defined.

(** The empty text has no trigger phrase: every level ties at 0, the first
    level of the enumeration is junior, and the code answers mid. *)
Lemma seniority_empty_text_is_mid :
  (forall level, Ref.level_total "" level = 0%nat)
  /\ Ref.greatest_first "" = JUNIOR
  /\ JDParser._determine_seniority JDParser.declared_service "" = MID
  /\ JDParser._determine_seniority JDParser.declared_service ""
     <> Ref.greatest_first "".
Proof.
  split; [intros []; reflexivity|].
  split; [reflexivity|].
  split; [reflexivity|].
  vm_compute. discriminate.
Qed.

(** One "junior" and one "senior" trigger: junior. *)
Lemma seniority_greatest_first_witness :
  JDParser._determine_seniority JDParser.declared_service
    "junior or senior developer" = JUNIOR.
Proof.
  destruct (seniority_greatest_first JDParser.declared_service
              "junior or senior developer" declared_service_initialised)
    as [H _].
  destruct H as [_ [_ [_ H]]].
  - exists JUNIOR. vm_compute. constructor.
  - apply H.
    + vm_compute. reflexivity.
    + vm_compute. reflexivity.
    + intros []; vm_compute; lia.
Defined.

(** A text without any vocabulary term or trigger phrase. *)
Lemma parse_jd_total_witness :
  JDParser.parse_jd JDParser.declared_service
    (mkJDParseRequest "We need a plumber." (Some "job_7"))
  = Some (mkJDParseResponse [] [] MID (Some "job_7")).
Proof.
  destruct (parse_jd_total JDParser.declared_service
              (mkJDParseRequest "We need a plumber." (Some "job_7"))
              declared_service_initialised) as [_ H].
  apply H.
  - intros t Ht.
    assert (E : forallb (fun t => Nat.eqb (Re.findall_count t "we need a plumber.") 0)
                        JDParser.technical_vocabulary = true)
      by (vm_compute; reflexivity).
    rewrite forallb_forall in E. apply Nat.eqb_eq, E, Ht.
  - intros t Ht.
    assert (E : forallb (fun t => negb (Re.search t "we need a plumber."))
                        JDParser.soft_vocabulary = true)
      by (vm_compute; reflexivity).
    rewrite forallb_forall in E. apply negb_true_iff, E, Ht.
  - intros []; vm_compute; reflexivity.
Defined.

(** ** Stable sorting by descending key *)

Section SortFacts.
Context {A : Type} (key : A -> Q).


Lemma insert_desc_perm (x : A) (l : list A) :
  Permutation (PyList.insert_desc key x l) (x :: l).
Proof.
  induction l as [|y l IH]; simpl; [apply Permutation_refl|].
  destruct (Qle_bool (key y) (key x)); [apply Permutation_refl|].
  eapply Permutation_trans; [apply perm_skip, IH|apply perm_swap].
Qed.

Lemma sort_desc_perm (l : list A) : Permutation (PyList.sort_desc key l) l.
Proof.
  induction l as [|x l IH]; simpl; [constructor|].
  eapply Permutation_trans; [apply insert_desc_perm|apply perm_skip, IH].
Qed.

Lemma sort_desc_length (l : list A) :
  List.length (PyList.sort_desc key l) = List.length l.
Proof. apply Permutation_length, sort_desc_perm. Qed.

Lemma insert_desc_sorted (x : A) (l : list A) :
  Sorted (Ref.desc key) l -> Sorted (Ref.desc key) (PyList.insert_desc key x l).
Proof.
  induction l as [|y l IH]; intros Hs; simpl.
  - repeat constructor.
  - destruct (Qle_bool (key y) (key x)) eqn:E.
    + constructor; [exact Hs|]. constructor. apply Qle_bool_iff, E.
    + inversion Hs as [|? ? Hl Hhd]; subst.
      assert (Hyx : (Ref.desc key) y x).
      { unfold Ref.desc. apply Qlt_le_weak, Qnot_le_lt.
        rewrite <- Qle_bool_iff. congruence. }
      constructor; [apply IH, Hl|].
      destruct l as [|z l]; simpl.
      * constructor. exact Hyx.
      * destruct (Qle_bool (key z) (key x)); constructor; [exact Hyx|].
        inversion Hhd; assumption.
Qed.

Lemma sort_desc_sorted (l : list A) : Sorted (Ref.desc key) (PyList.sort_desc key l).
Proof.
  induction l as [|x l IH]; simpl; [constructor|].
  apply insert_desc_sorted, IH.
Qed.

Lemma desc_trans : Relations_1.Transitive (Ref.desc key).
Proof.
  intros a b c Hab Hbc. unfold Ref.desc in *. eapply Qle_trans; eassumption.
Qed.

Lemma sort_desc_strongly_sorted (l : list A) :
  StronglySorted (Ref.desc key) (PyList.sort_desc key l).
Proof.
  apply Sorted_StronglySorted; [exact desc_trans|apply sort_desc_sorted].
Qed.

Lemma insert_desc_with_key (s : Q) (x : A) (l : list A) :
  Ref.with_key key s (PyList.insert_desc key x l) = Ref.with_key key s (x :: l).
Proof.
  unfold Ref.with_key.
  induction l as [|y l IH]; simpl; [reflexivity|].
  destruct (Qle_bool (key y) (key x)) eqn:E; [reflexivity|].
  simpl. rewrite IH. simpl.
  destruct (Qeq_bool (key x) s) eqn:Ex, (Qeq_bool (key y) s) eqn:Ey;
    try reflexivity.
  apply Qeq_bool_iff in Ex, Ey.
  assert (Hle : Qle_bool (key y) (key x) = true).
  { apply Qle_bool_iff. rewrite Ex, Ey. apply Qle_refl. }
  congruence.
Qed.

(** Stability: elements with equal keys keep their relative order. *)
Lemma sort_desc_stable (s : Q) (l : list A) :
  Ref.with_key key s (PyList.sort_desc key l) = Ref.with_key key s l.
Proof.
  induction l as [|x l IH]; [reflexivity|].
  simpl PyList.sort_desc. rewrite insert_desc_with_key.
  unfold Ref.with_key in *. simpl. rewrite IH. reflexivity.
Qed.

Lemma with_key_firstn (s : Q) (n : nat) (l : list A) :
  Ref.with_key key s l = Ref.with_key key s (firstn n l) ++ Ref.with_key key s (skipn n l).
Proof.
  unfold Ref.with_key. rewrite <- filter_app, firstn_skipn. reflexivity.
Qed.

End SortFacts.

Lemma slice_to_firstn {A : Type} (k : Z) (l : list A) :
  (0 <= k)%Z -> PyList.slice_to k l = firstn (Z.to_nat k) l.
Proof.
  intros H. unfold PyList.slice_to.
  destruct (Z.leb_spec 0 k); [reflexivity|lia].
Qed.

(** ** The ranking loop *)

Lemma evaluate_candidate_id now c js w m :
  CandidateMatcher._evaluate_candidate now c js w = Some m ->
  Match_student_id m = Candidate_student_id c.
Proof.
  unfold CandidateMatcher._evaluate_candidate, new_Match.
  destruct (_ && _); [|discriminate]. intros [= <-]. reflexivity.
Qed.

Lemma evaluate_loop_app clock js w (todo : list Candidate) :
  forall i matches result,
    CandidateMatcher.evaluate_loop clock i todo js w matches = Some result ->
    exists evaluated,
      result = matches ++ evaluated
      /\ map Match_student_id evaluated = map Candidate_student_id todo.
Proof.
  induction todo as [|c todo IH]; intros i matches result H; simpl in H.
  - injection H as <-. exists []. rewrite app_nil_r. auto.
  - destruct (CandidateMatcher._evaluate_candidate (clock i) c js w) as [m|] eqn:E;
      [|discriminate].
    apply IH in H as [ev [-> Hids]].
    exists (m :: ev). rewrite <- app_assoc. split; [reflexivity|].
    simpl. rewrite Hids, (evaluate_candidate_id _ _ _ _ _ E). reflexivity.
Qed.

(** The loop succeeds exactly when every evaluation does. *)
Lemma evaluate_loop_succeeds clock js w (todo : list Candidate) :
  forall i matches,
    (forall k c, nth_error todo k = Some c ->
       exists m, CandidateMatcher._evaluate_candidate (clock (i + k)%nat) c js w = Some m) ->
    exists result,
      CandidateMatcher.evaluate_loop clock i todo js w matches = Some result.
Proof.
  induction todo as [|c todo IH]; intros i matches H; simpl; [eauto|].
  destruct (H 0%nat c eq_refl) as [m Hm]. rewrite Nat.add_0_r in Hm. rewrite Hm.
  apply IH. intros k c' Hk. rewrite Nat.add_succ_comm. apply (H (S k)). exact Hk.
Qed.

Lemma evaluate_loop_fails clock js w (todo : list Candidate) :
  forall i matches k c,
    nth_error todo k = Some c ->
    CandidateMatcher._evaluate_candidate (clock (i + k)%nat) c js w = None ->
    CandidateMatcher.evaluate_loop clock i todo js w matches = None.
Proof.
  induction todo as [|c0 todo IH]; intros i matches k c Hk Hnone.
  - destruct k; discriminate.
  - simpl. destruct k as [|k]; simpl in Hk.
    + injection Hk as ->. rewrite Nat.add_0_r in Hnone. rewrite Hnone. reflexivity.
    + destruct (CandidateMatcher._evaluate_candidate (clock i) c0 js w); [|reflexivity].
      eapply IH; [exact Hk|]. rewrite Nat.add_succ_comm. exact Hnone.
Qed.

(** A successful loop appends, in order, the evaluation of each candidate
    at its own reading of the clock. *)
Lemma evaluate_loop_nth clock js w (todo : list Candidate) :
  forall i matches result,
    CandidateMatcher.evaluate_loop clock i todo js w matches = Some result ->
    exists evaluated,
      result = matches ++ evaluated
      /\ List.length evaluated = List.length todo
      /\ (forall k c, nth_error todo k = Some c ->
            exists m, nth_error evaluated k = Some m
              /\ CandidateMatcher._evaluate_candidate (clock (i + k)%nat) c js w = Some m).
Proof.
  induction todo as [|c0 todo IH]; intros i matches result H; simpl in H.
  - injection H as <-. exists []. rewrite app_nil_r. split; [reflexivity|].
    split; [reflexivity|]. intros k c Hk. destruct k; discriminate.
  - destruct (CandidateMatcher._evaluate_candidate (clock i) c0 js w) as [m0|] eqn:E;
      [|discriminate].
    apply IH in H as [ev [-> [Hlen Hnth]]].
    exists (m0 :: ev). rewrite <- app_assoc. split; [reflexivity|].
    split; [simpl; rewrite Hlen; reflexivity|].
    intros k c Hk. destruct k as [|k]; simpl in Hk.
    + injection Hk as <-. exists m0. rewrite Nat.add_0_r. split; [reflexivity|exact E].
    + destruct (Hnth k c Hk) as [m [Hm Hev]]. exists m.
      rewrite <- Nat.add_succ_comm. split; [exact Hm|exact Hev].
Qed.

(** A loop that raises does so in the evaluation of one of the candidates. *)
Lemma evaluate_loop_none clock js w (todo : list Candidate) :
  forall i matches,
    CandidateMatcher.evaluate_loop clock i todo js w matches = None ->
    exists k c, nth_error todo k = Some c
      /\ CandidateMatcher._evaluate_candidate (clock (i + k)%nat) c js w = None.
Proof.
  induction todo as [|c0 todo IH]; intros i matches H; simpl in H; [discriminate|].
  destruct (CandidateMatcher._evaluate_candidate (clock i) c0 js w) as [m0|] eqn:E.
  - apply IH in H as [k [c [Hk Hnone]]]. exists (S k), c.
    rewrite <- Nat.add_succ_comm. split; [exact Hk|exact Hnone].
  - exists 0%nat, c0. rewrite Nat.add_0_r. split; [reflexivity|exact E].
Qed.

Lemma evaluate_candidate_skill_score now c js w m :
  CandidateMatcher._evaluate_candidate now c js w = Some m ->
  Match_skill_score m
  = Num.round2 (CandidateMatcher._calculate_skill_score (Candidate_skills c) js).
Proof.
  unfold CandidateMatcher._evaluate_candidate, new_Match.
  destruct (_ && _); [|discriminate]. intros [= <-]. reflexivity.
Qed.

(** The shape of a successful call. *)
Lemma match_candidates_some clock request job_skills response :
  CandidateMatcher.match_candidates clock request job_skills = Some response ->
  exists evaluated,
    CandidateMatcher.evaluate_loop clock 0 (MatchRequest_candidates request)
      (CandidateMatcher.job_skills_or_default job_skills) (MatchRequest_weights request) [] = Some evaluated
    /\ map Match_student_id evaluated
       = map Candidate_student_id (MatchRequest_candidates request)
    /\ response
       = mkMatchResponse (MatchRequest_job_id request)
           (PyList.slice_to (MatchRequest_top_k request)
              (PyList.sort_desc Match_score evaluated))
           (List.length (MatchRequest_candidates request)).
Proof.
  unfold CandidateMatcher.match_candidates. fold (CandidateMatcher.job_skills_or_default job_skills).
  destruct (CandidateMatcher.evaluate_loop _ _ _ _ _ _) as [ms|] eqn:E; [|discriminate].
  intros [= <-]. exists ms. split; [reflexivity|]. split; [|reflexivity].
  apply evaluate_loop_app in E as [ev [-> Hids]]. exact Hids.
Qed.

Lemma valid_request_top_k (request : MatchRequest) :
  valid_MatchRequest request = true ->
  (1 <= MatchRequest_top_k request <= 100)%Z.
Proof.
  unfold valid_MatchRequest. rewrite !andb_true_iff.
  intros [[[_ H1] H2] _]. apply Z.leb_le in H1, H2. lia.
Qed.


(** ** Skill score *)

Lemma levels_in_range_spec (c : Candidate) :
  levels_in_range c = true <-> Forall Ref.level_ok (Candidate_skills c).
Proof.
  unfold levels_in_range. rewrite forallb_forall, Forall_forall.
  split; intros H kv Hin; specialize (H kv Hin).
  - apply in_range_spec in H. exact H.
  - apply in_range_spec. exact H.
Qed.

Lemma dict_set_levels (k : string) (v : Q) (d : CandidateMatcher.dict) :
  (0 <= v <= 5)%Q -> Forall Ref.level_ok d -> Forall Ref.level_ok (CandidateMatcher.dict_set k v d).
Proof.
  intros Hv. induction d as [|[k' v'] d IH]; intros Hd; simpl.
  - constructor; [exact Hv|constructor].
  - inversion Hd as [|? ? Hh Ht]; subst.
    destruct (String.eqb k k'); constructor; auto.
Qed.

Lemma lower_keys_levels (d : CandidateMatcher.dict) :
  Forall Ref.level_ok d -> Forall Ref.level_ok (CandidateMatcher.lower_keys d).
Proof.
  unfold CandidateMatcher.lower_keys.
  assert (G : forall acc, Forall Ref.level_ok acc -> Forall Ref.level_ok d ->
              Forall Ref.level_ok
                (fold_left (fun acc kv => CandidateMatcher.dict_set (Str.lower (fst kv)) (snd kv) acc) d acc)).
  { induction d as [|kv d IH]; intros acc Hacc Hd; simpl; [exact Hacc|].
    inversion Hd; subst. apply IH; [|assumption].
    apply dict_set_levels; assumption. }
  intros Hd. apply G; [constructor|exact Hd].
Qed.

Lemma dict_get_levels (k : string) (d : CandidateMatcher.dict) (v : Q) :
  Forall Ref.level_ok d -> CandidateMatcher.dict_get k d = Some v -> (0 <= v <= 5)%Q.
Proof.
  induction d as [|[k' v'] d IH]; intros Hd H; simpl in H; [discriminate|].
  inversion Hd as [|? ? Hh Ht]; subst.
  destruct (String.eqb k k'); [injection H as <-; exact Hh|auto].
Qed.

Lemma alias_loop_range (aliases : list string) (d : CandidateMatcher.dict) (q : Q) :
  Forall Ref.level_ok d -> CandidateMatcher.alias_loop aliases d = Some q -> (0 <= q <= 5)%Q.
Proof.
  intros Hd. induction aliases as [|a aliases IH]; simpl; [discriminate|].
  destruct (CandidateMatcher.dict_get a d) as [level|] eqn:E; [|exact IH].
  intros [= <-]. pose proof (dict_get_levels _ _ _ Hd E). lra.
Qed.

Lemma substring_loop_range (job_skill : string) (d : CandidateMatcher.dict) :
  Forall Ref.level_ok d -> (0 <= CandidateMatcher.substring_loop job_skill d <= 5)%Q.
Proof.
  induction d as [|[k v] d IH]; intros Hd; simpl; [lra|].
  inversion Hd as [|? ? Hh Ht]; subst. unfold Ref.level_ok in Hh. simpl in Hh.
  destruct (_ || _); [lra|auto].
Qed.

Lemma contribution_range (d : CandidateMatcher.dict) (job_skill : string) :
  Forall Ref.level_ok d -> (0 <= CandidateMatcher.contribution d job_skill <= 5)%Q.
Proof.
  intros Hd. unfold CandidateMatcher.contribution.
  destruct (CandidateMatcher.dict_get job_skill d) eqn:E.
  - eapply dict_get_levels; eassumption.
  - unfold CandidateMatcher._find_partial_skill_match.
    destruct (CandidateMatcher.mapping_get _ _) as [aliases|].
    + destruct (CandidateMatcher.alias_loop aliases d) eqn:Ea.
      * eapply alias_loop_range; eassumption.
      * apply substring_loop_range, Hd.
    + apply substring_loop_range, Hd.
Qed.

(** The loop adds the contributions in order and 5 per job skill. *)
Lemma skill_loop_sum (d : CandidateMatcher.dict) (todo : list string) :
  forall acc,
    fst (CandidateMatcher.skill_loop d todo acc)
    = fold_left Qplus (map (CandidateMatcher.contribution d) todo) (fst acc)
    /\ (snd (CandidateMatcher.skill_loop d todo acc)
        == snd acc + 5 * Num.of_nat (List.length todo))%Q.
Proof.
  unfold CandidateMatcher.skill_loop.
  induction todo as [|s todo IH]; intros acc; simpl.
  - split; [reflexivity|]. unfold Num.of_nat. simpl. ring.
  - destruct (IH (fst acc + CandidateMatcher.contribution d s, snd acc + 5)%Q)
      as [H1 H2]. simpl in H1, H2.
    split; [exact H1|]. rewrite H2.
    unfold Num.of_nat. rewrite Nat2Z.inj_succ, <- Z.add_1_r, inject_Z_plus.
    change (inject_Z 1) with 1%Q. ring.
Qed.

Lemma fold_Qplus_range (b : Q) (l : list Q) :
  Forall (fun q => 0 <= q <= b)%Q l ->
  forall a, (a <= fold_left Qplus l a <= a + b * Num.of_nat (List.length l))%Q.
Proof.
  induction 1 as [|q l Hq Hl IH]; intros a; simpl.
  - change (Num.of_nat 0) with 0%Q. lra.
  - specialize (IH (a + q)%Q).
    assert (E : (Num.of_nat (S (List.length l)) == Num.of_nat (List.length l) + 1)%Q).
    { unfold Num.of_nat. rewrite Nat2Z.inj_succ, <- Z.add_1_r, inject_Z_plus.
      reflexivity. }
    rewrite E. lra.
Qed.

Lemma of_nat_pos (n : nat) : (0 < n)%nat -> (0 < Num.of_nat n)%Q.
Proof.
  intros H. unfold Num.of_nat. change 0%Q with (inject_Z 0).
  rewrite <- Zlt_Qlt. lia.
Qed.

(** The score computed once a direct match exists. *)
Lemma skill_score_direct (cs : CandidateMatcher.dict) (js : list string) :
  cs <> [] -> js <> [] ->
  let csl := CandidateMatcher.lower_keys cs in
  let set := CandidateMatcher.set_of (map Str.lower js) in
  (CandidateMatcher._calculate_skill_score cs js
   == if existsb (fun s => CandidateMatcher.dict_mem s csl) set
      then Num.sumQ (map (CandidateMatcher.contribution csl) set)
           / (5 * Num.of_nat (List.length set)) * 100
      else 0)%Q.
Proof.
  intros Hcs Hjs csl set.
  unfold CandidateMatcher._calculate_skill_score.
  destruct js as [|j js]; [congruence|]. destruct cs as [|c cs]; [congruence|].
  fold csl. fold set.
  assert (Hex : existsb (fun s => CandidateMatcher.dict_mem s csl) set
                = match filter (fun s => CandidateMatcher.dict_mem s csl) set with
                  | [] => false | _ :: _ => true end).
  { clear. induction set as [|s set IH]; simpl; [reflexivity|].
    destruct (CandidateMatcher.dict_mem s csl); [reflexivity|exact IH]. }
  rewrite Hex.
  destruct (filter (fun s => CandidateMatcher.dict_mem s csl) set) as [|m ms] eqn:Ef;
    [reflexivity|].
  assert (Hne : (0 < List.length set)%nat).
  { destruct set; [discriminate Ef|simpl; lia]. }
  destruct (skill_loop_sum csl set (0%Q, 0%Q)) as [H1 H2].
  destruct (CandidateMatcher.skill_loop csl set (0%Q, 0%Q)) as [total maxp].
  simpl in H1, H2. pose proof (of_nat_pos _ Hne) as Hpos.
  assert (Hmax : (0 < maxp)%Q) by (rewrite H2; lra).
  assert (Hb : Qle_bool maxp 0 = false).
  { destruct (Qle_bool maxp 0) eqn:E; [|reflexivity].
    apply Qle_bool_iff in E. lra. }
  rewrite Hb. simpl. subst total. unfold Num.sumQ.
  rewrite H2. setoid_replace (0 + 5 * Num.of_nat (List.length set))%Q
    with (5 * Num.of_nat (List.length set))%Q by ring.
  reflexivity.
Qed.

Lemma skill_score_range (cs : CandidateMatcher.dict) (js : list string) :
  Forall Ref.level_ok cs ->
  (0 <= CandidateMatcher._calculate_skill_score cs js <= 100)%Q.
Proof.
  intros Hok.
  destruct js as [|j js]; [simpl; lra|].
  destruct cs as [|c cs]; [simpl; lra|].
  rewrite skill_score_direct by discriminate.
  set (csl := CandidateMatcher.lower_keys (c :: cs)).
  set (set := CandidateMatcher.set_of (map Str.lower (j :: js))).
  destruct (existsb _ set) eqn:Hex; [|lra].
  assert (Hne : (0 < List.length set)%nat).
  { destruct set; [discriminate Hex|simpl; lia]. }
  pose proof (of_nat_pos _ Hne) as Hpos.
  assert (Hr : Forall (fun q => 0 <= q <= 5)%Q (map (CandidateMatcher.contribution csl) set)).
  { apply Forall_forall. intros q Hq. apply in_map_iff in Hq as [s [<- _]].
    apply contribution_range, lower_keys_levels, Hok. }
  pose proof (fold_Qplus_range 5 _ Hr 0%Q) as Hsum.
  rewrite length_map in Hsum. fold (Num.sumQ (map (CandidateMatcher.contribution csl) set)) in Hsum.
  set (sum := Num.sumQ _) in *. set (n := Num.of_nat _) in *.
  assert (H5 : (0 < 5 * n)%Q) by lra.
  split.
  - apply Qmult_le_0_compat; [|lra].
    apply Qle_shift_div_l; [exact H5|]. lra.
  - assert (Hd : (sum / (5 * n) <= 1)%Q).
    { apply Qle_shift_div_r; [exact H5|]. lra. }
    lra.
Qed.

(** ** Recency score *)

Lemma project_score_range (now : Datetime.datetime) (p : Project) :
  (0 <= CandidateMatcher.project_score now p <= 100)%Q.
Proof.
  unfold CandidateMatcher.project_score.
  destruct (Project_completion_date p) as [s|]; [|lra].
  destruct (Str.truthy s); [|lra].
  destruct (Datetime.strptime s); [|lra].
  repeat match goal with |- context [if ?b then _ else _] => destruct b end; lra.
Qed.

Lemma recency_total (now : Datetime.datetime) (projects : list Project) :
  forall a,
    fold_left (fun total p => (total + CandidateMatcher.project_score now p)%Q) projects a
    = fold_left Qplus (map (CandidateMatcher.project_score now) projects) a.
Proof.
  induction projects as [|p projects IH]; intros a; simpl; [reflexivity|apply IH].
Qed.

(** The recency score of a non-empty list is the arithmetic mean of the
    contributions of its projects. *)
Lemma recency_mean (now : Datetime.datetime) (projects : list Project) :
  projects <> [] ->
  CandidateMatcher._calculate_recency_score now projects
  = (Num.sumQ (map (CandidateMatcher.project_score now) projects)
     / Num.of_nat (List.length projects))%Q.
Proof.
  intros H. unfold CandidateMatcher._calculate_recency_score, Num.sumQ.
  destruct projects as [|p projects]; [congruence|].
  rewrite recency_total. reflexivity.
Qed.

Lemma recency_score_range (now : Datetime.datetime) (projects : list Project) :
  (0 <= CandidateMatcher._calculate_recency_score now projects <= 100)%Q.
Proof.
  destruct projects as [|p projects]; [simpl; lra|].
  rewrite recency_mean by discriminate.
  set (ps := p :: projects).
  assert (Hne : (0 < List.length ps)%nat) by (simpl; lia).
  pose proof (of_nat_pos _ Hne) as Hpos.
  assert (Hr : Forall (fun q => 0 <= q <= 100)%Q
                 (map (CandidateMatcher.project_score now) ps)).
  { apply Forall_forall. intros q Hq. apply in_map_iff in Hq as [x [<- _]].
    apply project_score_range. }
  pose proof (fold_Qplus_range 100 _ Hr 0%Q) as Hsum.
  rewrite length_map in Hsum.
  fold (Num.sumQ (map (CandidateMatcher.project_score now) ps)) in Hsum.
  set (sum := Num.sumQ _) in *. set (n := Num.of_nat _) in *.
  split.
  - apply Qle_shift_div_l; [exact Hpos|]. lra.
  - apply Qle_shift_div_r; [exact Hpos|]. lra.
Qed.

(** ** Overall score *)

Lemma overall_score_range (s e r : Q) (w : MatchWeights) :
  (0 <= s <= 100)%Q -> (0 <= e <= 100)%Q -> (0 <= r <= 100)%Q ->
  (0 <= MatchWeights_skill w)%Q -> (0 <= MatchWeights_eval w)%Q ->
  (0 <= MatchWeights_recency w)%Q ->
  (MatchWeights_skill w + MatchWeights_eval w + MatchWeights_recency w <= 1)%Q ->
  (0 <= CandidateMatcher.overall_score s e r w <= 100)%Q.
Proof.
  intros Hs He Hr H1 H2 H3 Hsum. unfold CandidateMatcher.overall_score.
  destruct w as [ws we wr]. simpl in *.
  assert (A1 : (0 <= s * ws <= 100 * ws)%Q).
  { split; [apply Qmult_le_0_compat; lra|apply Qmult_le_compat_r; lra]. }
  assert (A2 : (0 <= e * we <= 100 * we)%Q).
  { split; [apply Qmult_le_0_compat; lra|apply Qmult_le_compat_r; lra]. }
  assert (A3 : (0 <= r * wr <= 100 * wr)%Q).
  { split; [apply Qmult_le_0_compat; lra|apply Qmult_le_compat_r; lra]. }
  lra.
Qed.


(** ** Dates *)

Lemma truthy_nonempty (s : string) : s <> "" -> Str.truthy s = true.
Proof.
  destruct s; [intros H; contradiction H; reflexivity|reflexivity].
Qed.

Lemma strptime_nonempty (s : string) (d : Datetime.datetime) :
  Datetime.strptime s = Some d -> Str.truthy s = true.
Proof.
  destruct s; [discriminate|reflexivity].
Qed.

Lemma strptime_midnight (s : string) (d : Datetime.datetime) :
  Datetime.strptime s = Some d -> Datetime.micros d = 0%Z.
Proof.
  unfold Datetime.strptime.
  destruct (Datetime.format_match s) as [[[[y m] dd] rest]|]; [|discriminate].
  destruct rest; [|discriminate].
  unfold Datetime.new_datetime. destruct (_ && _); [|discriminate].
  intros [= <-]. reflexivity.
Qed.

(** Whole days elapsed since midnight of a date, at any time of the day. *)
Lemma days_between_midnight (now d : Datetime.datetime) :
  Datetime.well_formed now -> Datetime.micros d = 0%Z ->
  Datetime.days_between now d = (Datetime.ordinal now - Datetime.ordinal d)%Z.
Proof.
  unfold Datetime.well_formed, Datetime.days_between. intros Hw ->.
  rewrite Z.sub_0_r, Z.add_comm, Z.div_add by (unfold Datetime.micros_per_day; lia).
  rewrite Z.div_small by exact Hw. reflexivity.
Qed.

Lemma project_score_parsed (now : Datetime.datetime) (p : Project) (s : string)
    (d : Datetime.datetime) :
  Project_completion_date p = Some s -> Datetime.strptime s = Some d ->
  (Datetime.days_between now d <= 30)%Z ->
  CandidateMatcher.project_score now p = 100%Q.
Proof.
  intros Hp Hs Hd. unfold CandidateMatcher.project_score.
  rewrite Hp, (strptime_nonempty _ _ Hs), Hs.
  destruct (Z.leb_spec (Datetime.days_between now d) 30); [reflexivity|lia].
Qed.

Lemma recency_single (now : Datetime.datetime) (p : Project) :
  (CandidateMatcher._calculate_recency_score now [p]
   == CandidateMatcher.project_score now p)%Q.
Proof.
  unfold CandidateMatcher._calculate_recency_score. simpl.
  change (Num.of_nat 1) with 1%Q. field.
Qed.

(** ** Evaluation of one candidate *)

Lemma evaluate_candidate_unfold now c js w :
  CandidateMatcher._evaluate_candidate now c js w
  = new_Match (Candidate_student_id c)
      (Num.round2
         (CandidateMatcher.overall_score
            (CandidateMatcher._calculate_skill_score (Candidate_skills c) js)
            (Candidate_eval_score c)
            (CandidateMatcher._calculate_recency_score now (Candidate_recent_projects c))
            w))
      (Num.round2 (CandidateMatcher._calculate_skill_score (Candidate_skills c) js))
      (Num.round2 (Candidate_eval_score c))
      (Num.round2
         (CandidateMatcher._calculate_recency_score now (Candidate_recent_projects c))).
Proof. reflexivity. Qed.

(** With levels in [[0, 5]], an evaluation score in [[0, 100]] and weights in
    [[0, 1]] that sum to at most 1, the four scores pass the bounds of
    [Match]. *)
Lemma evaluate_candidate_total now c js w :
  valid_Candidate c = true -> levels_in_range c = true ->
  valid_MatchWeights w = true ->
  (MatchWeights_skill w + MatchWeights_eval w + MatchWeights_recency w <= 1)%Q ->
  exists m, CandidateMatcher._evaluate_candidate now c js w = Some m.
Proof.
  intros Hc Hl Hw Hsum. rewrite evaluate_candidate_unfold. unfold new_Match.
  unfold valid_Candidate in Hc. apply in_range_spec in Hc.
  unfold valid_MatchWeights in Hw. rewrite !andb_true_iff, !in_range_spec in Hw.
  destruct Hw as [[Hw1 Hw2] Hw3].
  apply levels_in_range_spec in Hl.
  pose proof (skill_score_range _ js Hl) as Hs.
  pose proof (recency_score_range now (Candidate_recent_projects c)) as Hr.
  set (skill_score := CandidateMatcher._calculate_skill_score _ _) in *.
  set (recency_score := CandidateMatcher._calculate_recency_score _ _) in *.
  set (overall := CandidateMatcher.overall_score _ _ _ _).
  assert (Ho : (0 <= overall <= 100)%Q).
  { apply overall_score_range; tauto. }
  assert (R1 : Num.in_range 0 100 (Num.round2 overall) = true)
    by (apply (round2_range 0 100); exact Ho).
  assert (R2 : Num.in_range 0 100 (Num.round2 skill_score) = true)
    by (apply (round2_range 0 100); exact Hs).
  assert (R3 : Num.in_range 0 100 (Num.round2 (Candidate_eval_score c)) = true)
    by (apply (round2_range 0 100); exact Hc).
  assert (R4 : Num.in_range 0 100 (Num.round2 recency_score) = true)
    by (apply (round2_range 0 100); exact Hr).
  rewrite R1, R2, R3, R4. simpl. eauto.
Qed.

(** C2 (amended).  The score of a returned [Match] is the weighted sum
    [skill_score * weights.skill + eval_score * weights.eval
     + recency_score * weights.recency] rounded to two decimals.  Nothing
    is clamped: a [Match] is returned exactly when the four rounded scores
    already lie in [[0, 100]] (then the score equals its own clamping), and
    the constructor raises otherwise.  A [Match] is always returned when the
    skill levels lie in [[0, 5]], the evaluation score in [[0, 100]] and
    the weights, each in [[0, 1]], sum to at most 1. *)
Theorem evaluate_candidate_score now c js w :
  let skill_score := CandidateMatcher._calculate_skill_score (Candidate_skills c) js in
  let recency_score :=
    CandidateMatcher._calculate_recency_score now (Candidate_recent_projects c) in
  let overall :=
    (skill_score * MatchWeights_skill w
     + Candidate_eval_score c * MatchWeights_eval w
     + recency_score * MatchWeights_recency w)%Q in
  (forall m, CandidateMatcher._evaluate_candidate now c js w = Some m ->
     Match_score m = Num.round2 overall
     /\ (0 <= Match_score m <= 100)%Q
     /\ (Match_score m == Ref.clamp 0 100 (Num.round2 overall))%Q)
  /\ ((exists m, CandidateMatcher._evaluate_candidate now c js w = Some m) <->
      Num.in_range 0 100 (Num.round2 overall)
      && Num.in_range 0 100 (Num.round2 skill_score)
      && Num.in_range 0 100 (Num.round2 (Candidate_eval_score c))
      && Num.in_range 0 100 (Num.round2 recency_score) = true)
  /\ (valid_Candidate c = true -> levels_in_range c = true ->
      valid_MatchWeights w = true ->
      (MatchWeights_skill w + MatchWeights_eval w + MatchWeights_recency w <= 1)%Q ->
      exists m, CandidateMatcher._evaluate_candidate now c js w = Some m).
Proof.
  intros skill_score recency_score overall.
  split; [|split].
  - rewrite evaluate_candidate_unfold. unfold new_Match.
    fold skill_score recency_score. intros m H.
    destruct (_ && _) eqn:E; [|discriminate]. injection H as <-. simpl.
    rewrite !andb_true_iff in E. destruct E as [[[E _] _] _].
    apply in_range_spec in E.
    split; [reflexivity|]. split; [exact E|].
    unfold Ref.clamp.
    destruct (Qle_bool _ 0) eqn:E0.
    + apply Qle_bool_iff in E0. apply Qle_antisym; [exact E0|apply E].
    + destruct (Qle_bool 100 _) eqn:E1; [|reflexivity].
      apply Qle_bool_iff in E1. apply Qle_antisym; [apply E|exact E1].
  - rewrite evaluate_candidate_unfold. unfold new_Match.
    fold skill_score recency_score.
    change (CandidateMatcher.overall_score skill_score (Candidate_eval_score c)
              recency_score w) with overall.
    destruct (_ && _); split; eauto; try discriminate.
    intros [m H]. discriminate.
  - apply evaluate_candidate_total.
Qed.

(** ** Ranking *)

Lemma slice_to_is_firstn {A : Type} (k : Z) (l : list A) :
  exists n, PyList.slice_to k l = firstn n l.
Proof.
  unfold PyList.slice_to. destruct (0 <=? k)%Z; eauto.
Qed.

Lemma in_firstn {A : Type} (y : A) (n : nat) (l : list A) :
  In y (firstn n l) -> In y l.
Proof.
  revert n. induction l as [|x l IH]; intros n H.
  - rewrite firstn_nil in H. exact H.
  - destruct n; simpl in H; [contradiction|].
    destruct H as [->|H]; [left; reflexivity|right; eapply IH; exact H].
Qed.

Lemma StronglySorted_firstn {A : Type} (R : A -> A -> Prop) (n : nat) (l : list A) :
  StronglySorted R l -> StronglySorted R (firstn n l).
Proof.
  intros H. revert n. induction H as [|x l Hs IH Hall]; intros n.
  - rewrite firstn_nil. constructor.
  - destruct n; simpl; constructor; [apply IH|].
    rewrite Forall_forall in *. intros y Hy. apply Hall.
    eapply in_firstn; eassumption.
Qed.

(** C5 (amended).  For every well-typed ranking request on which the call
    returns, the number of returned matches is [min(top_k, n)] and
    [total_candidates] is [n], the number of input candidates.  The call
    returns exactly when every candidate's [Match] passes its bounds, which
    is always the case when the skill levels lie in [[0, 5]] and the weights
    sum to at most 1; an empty candidate list always gives [matches = []]
    and [total_candidates = 0]. *)
Theorem match_count clock request job_skills :
  valid_MatchRequest request = true ->
  let n := List.length (MatchRequest_candidates request) in
  (forall response,
      CandidateMatcher.match_candidates clock request job_skills = Some response ->
      List.length (MatchResponse_matches response)
      = Nat.min (Z.to_nat (MatchRequest_top_k request)) n
      /\ MatchResponse_total_candidates response = n)
  /\ ((forall k c, nth_error (MatchRequest_candidates request) k = Some c ->
         exists m, CandidateMatcher._evaluate_candidate (clock k) c
                     (CandidateMatcher.job_skills_or_default job_skills)
                     (MatchRequest_weights request) = Some m) ->
      exists response,
        CandidateMatcher.match_candidates clock request job_skills = Some response)
  /\ (forallb levels_in_range (MatchRequest_candidates request) = true ->
      (MatchWeights_skill (MatchRequest_weights request)
       + MatchWeights_eval (MatchRequest_weights request)
       + MatchWeights_recency (MatchRequest_weights request) <= 1)%Q ->
      exists response,
        CandidateMatcher.match_candidates clock request job_skills = Some response)
  /\ (MatchRequest_candidates request = [] ->
      CandidateMatcher.match_candidates clock request job_skills
      = Some (mkMatchResponse (MatchRequest_job_id request) [] 0))
  /\ (forall k c,
        nth_error (MatchRequest_candidates request) k = Some c ->
        CandidateMatcher._evaluate_candidate (clock k) c
          (CandidateMatcher.job_skills_or_default job_skills)
          (MatchRequest_weights request) = None ->
        CandidateMatcher.match_candidates clock request job_skills = None).
Proof.
  intros Hvalid n. pose proof (valid_request_top_k _ Hvalid) as Hk.
  assert (Hsome : (forall k c, nth_error (MatchRequest_candidates request) k = Some c ->
         exists m, CandidateMatcher._evaluate_candidate (clock k) c
                     (CandidateMatcher.job_skills_or_default job_skills)
                     (MatchRequest_weights request) = Some m) ->
      exists response,
        CandidateMatcher.match_candidates clock request job_skills = Some response).
  { intros Hall. unfold CandidateMatcher.match_candidates.
    destruct (evaluate_loop_succeeds clock
                (CandidateMatcher.job_skills_or_default job_skills)
                (MatchRequest_weights request) (MatchRequest_candidates request)
                0%nat [] Hall) as [ms ->].
    eauto. }
  split; [|split; [|split; [|split]]].
  - intros response H.
    apply match_candidates_some in H as [ev [Hev [Hids ->]]]. simpl.
    split; [|reflexivity].
    rewrite slice_to_firstn by lia.
    rewrite length_firstn, sort_desc_length.
    assert (Hlen : List.length ev = n).
    { unfold n. rewrite <- (length_map Match_student_id), Hids.
      apply length_map. }
    rewrite Hlen. reflexivity.
  - exact Hsome.
  - intros Hlevels Hsum. apply Hsome. intros k c Hc.
    apply nth_error_In in Hc.
    unfold valid_MatchRequest in Hvalid. rewrite !andb_true_iff in Hvalid.
    destruct Hvalid as [[[Hcs _] _] Hw].
    rewrite forallb_forall in Hcs, Hlevels.
    apply evaluate_candidate_total; auto.
  - intros Hnil. unfold CandidateMatcher.match_candidates. rewrite Hnil. simpl.
    rewrite slice_to_firstn by lia. rewrite firstn_nil. reflexivity.
  - intros k c Hc Hnone. unfold CandidateMatcher.match_candidates.
    rewrite (evaluate_loop_fails clock _ _ _ 0%nat [] k c Hc Hnone). reflexivity.
Qed.

(** C6.  The returned matches are in descending order of overall score,
    and the sort is stable: for every score [s], the returned matches whose
    score is [s] are, in the same order, the first of the evaluated
    candidates (taken in input order) whose score is [s].  Two candidates
    with equal overall scores therefore keep their input order. *)
Theorem ranking_sorted_stable clock request job_skills response :
  CandidateMatcher.match_candidates clock request job_skills = Some response ->
  StronglySorted (Ref.desc Match_score) (MatchResponse_matches response)
  /\ exists evaluated,
       CandidateMatcher.evaluate_loop clock 0 (MatchRequest_candidates request)
         (CandidateMatcher.job_skills_or_default job_skills)
         (MatchRequest_weights request) [] = Some evaluated
       /\ map Match_student_id evaluated
          = map Candidate_student_id (MatchRequest_candidates request)
       /\ forall s, exists rest,
            Ref.with_key Match_score s evaluated
            = Ref.with_key Match_score s (MatchResponse_matches response) ++ rest.
Proof.
  intros H. apply match_candidates_some in H as [ev [Hev [Hids ->]]]. simpl.
  destruct (slice_to_is_firstn (MatchRequest_top_k request)
              (PyList.sort_desc Match_score ev)) as [n ->].
  split.
  - apply StronglySorted_firstn, sort_desc_strongly_sorted.
  - exists ev. split; [exact Hev|]. split; [exact Hids|].
    intros s. exists (Ref.with_key Match_score s (skipn n (PyList.sort_desc Match_score ev))).
    rewrite <- with_key_firstn. symmetry. apply sort_desc_stable.
Qed.

(** C9.  The HTTP handler passes no skill list, so the ranking runs with
    the built-in list [python, machine learning, sql, communication].
    The matches do not depend on the [job_id] of the request.  When the
    call returns, the [k]-th candidate of the request has been evaluated,
    at the [k]-th reading of the clock, against the built-in list: its
    match carries its identifier and the rounded skill score computed
    against that list; the matches returned are the first [top_k] of these
    evaluations sorted by decreasing score, so each of them is the
    evaluation of a candidate of the request against the built-in list.
    The call raises exactly when the evaluation of one of the candidates
    against the built-in list does. *)
Theorem endpoint_uses_default_skills clock request :
  let default := ["python"; "machine learning"; "sql"; "communication"] in
  let candidates := MatchRequest_candidates request in
  let weights := MatchRequest_weights request in
  Main.match_candidates clock request
  = CandidateMatcher.match_candidates clock request (Some default)
  /\ (forall job_id,
        option_map MatchResponse_matches
          (Main.match_candidates clock (Ref.with_job_id request job_id))
        = option_map MatchResponse_matches (Main.match_candidates clock request))
  /\ (forall response,
        Main.match_candidates clock request = Some response ->
        exists evaluated,
          CandidateMatcher.evaluate_loop clock 0 candidates default weights []
          = Some evaluated
          /\ List.length evaluated = List.length candidates
          /\ (forall k c,
                nth_error candidates k = Some c ->
                exists m,
                  nth_error evaluated k = Some m
                  /\ CandidateMatcher._evaluate_candidate (clock k) c default weights
                     = Some m
                  /\ Match_student_id m = Candidate_student_id c
                  /\ Match_skill_score m
                     = Num.round2
                         (CandidateMatcher._calculate_skill_score
                            (Candidate_skills c) default))
          /\ MatchResponse_matches response
             = PyList.slice_to (MatchRequest_top_k request)
                 (PyList.sort_desc Match_score evaluated)
          /\ (forall m,
                In m (MatchResponse_matches response) ->
                exists k c,
                  nth_error candidates k = Some c
                  /\ CandidateMatcher._evaluate_candidate (clock k) c default weights
                     = Some m))
  /\ (Main.match_candidates clock request = None <->
      exists k c,
        nth_error candidates k = Some c
        /\ CandidateMatcher._evaluate_candidate (clock k) c default weights = None).
Proof.
  intros default candidates weights.
  split; [reflexivity|]. split; [|split].
  - intros job_id. unfold Main.match_candidates, CandidateMatcher.match_candidates.
    simpl. destruct (CandidateMatcher.evaluate_loop _ _ _ _ _ _); reflexivity.
  - intros response H. unfold Main.match_candidates in H.
    apply match_candidates_some in H as [ev [Hev [_ ->]]].
    change (CandidateMatcher.job_skills_or_default None) with default in Hev.
    fold candidates weights in Hev.
    destruct (evaluate_loop_nth _ _ _ _ _ _ _ Hev) as [ev' [E [Hlen Hnth]]].
    simpl in E. subst ev'.
    exists ev. split; [exact Hev|]. split; [exact Hlen|]. split; [|split].
    + intros k c Hk. destruct (Hnth k c Hk) as [m [Hm He]]. simpl in He.
      exists m. split; [exact Hm|]. split; [exact He|]. split.
      * eapply evaluate_candidate_id, He.
      * eapply evaluate_candidate_skill_score, He.
    + reflexivity.
    + intros m Hin. cbn [MatchResponse_matches] in Hin.
      destruct (slice_to_is_firstn (MatchRequest_top_k request)
                  (PyList.sort_desc Match_score ev)) as [n En].
      rewrite En in Hin. apply in_firstn in Hin.
      apply (Permutation_in _ (sort_desc_perm _ _)) in Hin.
      apply In_nth_error in Hin as [k Hk].
      assert (Hlt : (k < List.length candidates)%nat).
      { rewrite <- Hlen. apply nth_error_Some. congruence. }
      destruct (nth_error candidates k) as [c|] eqn:Ec.
      * destruct (Hnth k c Ec) as [m' [Hm' He]]. simpl in He.
        exists k, c. split; [exact Ec|]. congruence.
      * apply nth_error_None in Ec. lia.
  - unfold Main.match_candidates, CandidateMatcher.match_candidates.
    change (CandidateMatcher.job_skills_or_default None) with default.
    fold candidates weights. split.
    + destruct (CandidateMatcher.evaluate_loop clock 0 candidates default weights [])
        eqn:E; [discriminate|]. intros _.
      apply evaluate_loop_none in E. exact E.
    + intros [k [c [Hk Hnone]]].
      rewrite (evaluate_loop_fails clock default weights candidates 0 [] k c Hk Hnone).
      reflexivity.
Qed.

(** The request of three candidates: each is evaluated against the
    built-in list, and the response holds the three evaluations sorted. *)
Lemma endpoint_uses_default_skills_witness :
  exists evaluated,
    List.length evaluated = 3%nat
    /\ (forall k c,
          nth_error (MatchRequest_candidates Sample.three_request) k = Some c ->
          exists m,
            nth_error evaluated k = Some m
            /\ CandidateMatcher._evaluate_candidate (Sample.clock k) c
                 ["python"; "machine learning"; "sql"; "communication"]
                 default_MatchWeights = Some m)
    /\ MatchResponse_matches Sample.three_response
       = PyList.slice_to 10 (PyList.sort_desc Match_score evaluated).
Proof.
  destruct (endpoint_uses_default_skills Sample.clock Sample.three_request)
    as [_ [_ [H _]]].
  destruct (H Sample.three_response) as [ev [_ [Hlen [Hnth [Hm _]]]]].
  - vm_compute. reflexivity.
  - exists ev. split; [exact Hlen|]. split; [|exact Hm].
    intros k c Hk. destruct (Hnth k c Hk) as [m [H1 [H2 _]]].
    exists m. split; [exact H1|exact H2].
Defined.

(** ** Alias matches *)

Lemma fold_Qplus_compat (l : list Q) :
  forall a b, (a == b)%Q -> (fold_left Qplus l a == fold_left Qplus l b)%Q.
Proof.
  induction l as [|x l IH]; intros a b H; simpl; [exact H|].
  apply IH. rewrite H. reflexivity.
Qed.

Lemma fold_Qplus_perm (l l' : list Q) :
  Permutation l l' ->
  forall a, (fold_left Qplus l a == fold_left Qplus l' a)%Q.
Proof.
  induction 1 as [|x l l' _ IH|x y l|l l' l'' _ IH1 _ IH2]; intros a; simpl.
  - reflexivity.
  - apply IH.
  - apply fold_Qplus_compat. ring.
  - rewrite IH1. apply IH2.
Qed.

(** The totals of the loop over the job skills do not depend on the order
    in which the set is iterated. *)
Lemma skill_loop_order (d : CandidateMatcher.dict) (l l' : list string) (acc : Q * Q) :
  Permutation l l' ->
  (fst (CandidateMatcher.skill_loop d l acc)
   == fst (CandidateMatcher.skill_loop d l' acc))%Q
  /\ (snd (CandidateMatcher.skill_loop d l acc)
      == snd (CandidateMatcher.skill_loop d l' acc))%Q.
Proof.
  intros H.
  destruct (skill_loop_sum d l acc) as [H1 H2].
  destruct (skill_loop_sum d l' acc) as [H1' H2'].
  rewrite H1, H1', H2, H2'. split.
  - apply fold_Qplus_perm, Permutation_map, H.
  - rewrite (Permutation_length H). reflexivity.
Qed.

(** The alias loop answers with the first alias, in the order of the list,
    that is a key of the candidate's skills. *)
Lemma alias_loop_first (d : CandidateMatcher.dict) (pre : list string) :
  forall (alias : string) (post : list string) (level : Q),
    (forall a, In a pre -> CandidateMatcher.dict_get a d = None) ->
    CandidateMatcher.dict_get alias d = Some level ->
    CandidateMatcher.alias_loop (pre ++ alias :: post) d = Some (level * 0.8)%Q.
Proof.
  induction pre as [|a pre IH]; intros alias post level Hpre Halias; simpl.
  - rewrite Halias. reflexivity.
  - rewrite (Hpre a (or_introl eq_refl)). apply IH; [|exact Halias].
    intros b Hb. apply Hpre. right. exact Hb.
Qed.

(** C1 (amended).  For a candidate with a non-empty skill map and a
    non-empty required-skill list of which at least one skill is directly a
    key of the lower-cased skill map, the skill score is
    [100 * (sum of the contributions) / (5 * number of distinct required
    skills)], and a required skill that is not a key but is a canonical term
    of the alias table contributes [level(alias) * 0.8] for the first alias,
    in the declared order of its alias list, that is a key of the
    candidate's skills.  When no required skill is directly a key the score
    is 0 and no alias is looked at. *)
Theorem alias_contribution (cs : CandidateMatcher.dict) (js : list string) :
  cs <> [] -> js <> [] ->
  let csl := CandidateMatcher.lower_keys cs in
  let set := CandidateMatcher.set_of (map Str.lower js) in
  ((exists r, In r set /\ CandidateMatcher.dict_mem r csl = true) ->
   (CandidateMatcher._calculate_skill_score cs js
    == Num.sumQ (map (CandidateMatcher.contribution csl) set)
       / (5 * Num.of_nat (List.length set)) * 100)%Q)
  /\ ((forall r, In r set -> CandidateMatcher.dict_mem r csl = false) ->
      (CandidateMatcher._calculate_skill_score cs js == 0)%Q)
  /\ (forall r aliases pre alias post level,
        In r set ->
        CandidateMatcher.dict_get r csl = None ->
        CandidateMatcher.mapping_get r CandidateMatcher.skill_mappings = Some aliases ->
        aliases = pre ++ alias :: post ->
        (forall a, In a pre -> CandidateMatcher.dict_get a csl = None) ->
        CandidateMatcher.dict_get alias csl = Some level ->
        CandidateMatcher.contribution csl r = (level * 0.8)%Q).
Proof.
  intros Hcs Hjs csl set.
  pose proof (skill_score_direct cs js Hcs Hjs) as Hscore.
  cbv zeta in Hscore. fold csl set in Hscore.
  split; [|split].
  - intros Hex.
    assert (E : existsb (fun s => CandidateMatcher.dict_mem s csl) set = true)
      by (apply existsb_exists; exact Hex).
    rewrite E in Hscore. exact Hscore.
  - intros Hnone.
    assert (E : existsb (fun s => CandidateMatcher.dict_mem s csl) set = false).
    { destruct (existsb _ set) eqn:E; [|reflexivity].
      apply existsb_exists in E as [r [Hr Hm]]. rewrite (Hnone r Hr) in Hm.
      discriminate. }
    rewrite E in Hscore. exact Hscore.
  - intros r aliases pre alias post level _ Hr Hmap -> Hpre Halias.
    unfold CandidateMatcher.contribution, CandidateMatcher._find_partial_skill_match.
    rewrite Hr, Hmap, (alias_loop_first csl pre alias post level Hpre Halias).
    reflexivity.
Qed.

(** A candidate who only knows "ml", asked for "machine learning": the
    alias gives a contribution of [5 * 0.8], yet the score is 0 and not
    [100 * (5 * 0.8) / 5]. *)
Lemma alias_alone_scores_zero :
  let cs := [("ml", 5%Q)] in
  let js := ["machine learning"] in
  let csl := CandidateMatcher.lower_keys cs in
  CandidateMatcher.dict_get "machine learning" csl = None
  /\ CandidateMatcher.mapping_get "machine learning" CandidateMatcher.skill_mappings
     = Some ["ml"; "ai"; "artificial intelligence"]
  /\ CandidateMatcher.dict_get "ml" csl = Some 5%Q
  /\ CandidateMatcher.contribution csl "machine learning" = (5 * 0.8)%Q
  /\ CandidateMatcher._calculate_skill_score cs js = 0%Q
  /\ ~ (CandidateMatcher._calculate_skill_score cs js == 5 * 0.8 / 5 * 100)%Q.
Proof.
  repeat split; try reflexivity.
  intros H. vm_compute in H. discriminate H.
Qed.

(** A candidate who knows "python" and, under the aliases "ai" and "ml",
    machine learning: "ml" comes first in the alias list. *)
Lemma alias_contribution_witness :
  CandidateMatcher.contribution
    (CandidateMatcher.lower_keys [("AI", 2%Q); ("ML", 5%Q); ("Python", 4%Q)])
    "machine learning" = (5 * 0.8)%Q.
Proof.
  destruct (alias_contribution [("AI", 2%Q); ("ML", 5%Q); ("Python", 4%Q)]
              ["Python"; "Machine Learning"]) as [_ [_ H]].
  - discriminate.
  - discriminate.
  - apply (H "machine learning" ["ml"; "ai"; "artificial intelligence"]
             [] "ml" ["ai"; "artificial intelligence"] 5%Q).
    + vm_compute. auto.
    + reflexivity.
    + reflexivity.
    + reflexivity.
    + intros a [].
    + reflexivity.
Defined.

(** ** Recency *)

(** C7 (amended).  Whatever the reading of the clock: a candidate with no
    project scores exactly 50; one project whose completion date parses as
    "YYYY-MM-DD" and is today's date scores 100; one project whose date
    string is not empty and does not parse contributes and scores 50; a
    project without completion date, or whose date string is empty,
    contributes 70, and alone scores 70; and the score of a non-empty list
    of projects is the arithmetic mean of the contributions of its
    projects. *)
Theorem recency_score_cases (now : Datetime.datetime) :
  Datetime.well_formed now ->
  CandidateMatcher._calculate_recency_score now [] = 50%Q
  /\ (forall p s d,
        Project_completion_date p = Some s ->
        Datetime.strptime s = Some d ->
        Datetime.ordinal d = Datetime.ordinal now ->
        (CandidateMatcher._calculate_recency_score now [p] == 100)%Q)
  /\ (forall p s,
        Project_completion_date p = Some s ->
        s <> "" ->
        Datetime.strptime s = None ->
        CandidateMatcher.project_score now p = 50%Q
        /\ (CandidateMatcher._calculate_recency_score now [p] == 50)%Q)
  /\ (forall p,
        Project_completion_date p = None \/ Project_completion_date p = Some "" ->
        CandidateMatcher.project_score now p = 70%Q
        /\ (CandidateMatcher._calculate_recency_score now [p] == 70)%Q)
  /\ (forall projects,
        projects <> [] ->
        CandidateMatcher._calculate_recency_score now projects
        = (Num.sumQ (map (CandidateMatcher.project_score now) projects)
           / Num.of_nat (List.length projects))%Q).
Proof.
  intros Hnow. split; [reflexivity|]. split; [|split; [|split]].
  - intros p s d Hp Hs Hd. rewrite recency_single.
    rewrite (project_score_parsed now p s d Hp Hs); [reflexivity|].
    rewrite (days_between_midnight now d Hnow (strptime_midnight s d Hs)). lia.
  - intros p s Hp Ht Hs.
    assert (E : CandidateMatcher.project_score now p = 50%Q).
    { unfold CandidateMatcher.project_score.
      rewrite Hp, (truthy_nonempty s Ht), Hs. reflexivity. }
    split; [exact E|]. rewrite recency_single, E. reflexivity.
  - intros p Hp.
    assert (E : CandidateMatcher.project_score now p = 70%Q).
    { unfold CandidateMatcher.project_score. destruct Hp as [-> | ->]; reflexivity. }
    split; [exact E|]. rewrite recency_single, E. reflexivity.
  - intros projects H. apply recency_mean, H.
Qed.

(** C10.  A project whose completion date parses and lies after today's
    date has a negative number of elapsed days, falls in the first bucket
    and contributes 100, as a project completed today does. *)
Theorem future_date_scores_100 (now : Datetime.datetime) (p : Project)
    (s : string) (d : Datetime.datetime) :
  Datetime.well_formed now ->
  Project_completion_date p = Some s ->
  Datetime.strptime s = Some d ->
  (Datetime.ordinal now < Datetime.ordinal d)%Z ->
  (Datetime.days_between now d < 0)%Z
  /\ CandidateMatcher.project_score now p = 100%Q
  /\ (CandidateMatcher._calculate_recency_score now [p] == 100)%Q.
Proof.
  intros Hnow Hp Hs Hd.
  pose proof (days_between_midnight now d Hnow (strptime_midnight s d Hs)) as E.
  assert (Hscore : CandidateMatcher.project_score now p = 100%Q).
  { apply (project_score_parsed now p s d Hp Hs). lia. }
  split; [lia|]. split; [exact Hscore|].
  rewrite recency_single, Hscore. reflexivity.
Qed.

Lemma noon_well_formed : Datetime.well_formed Sample.noon_2026_11_04.
Proof.
  unfold Datetime.well_formed, Datetime.micros_per_day. simpl. lia.
Defined.

(** A project completed on the day of the reading. *)
Lemma recency_score_cases_witness :
  (CandidateMatcher._calculate_recency_score Sample.noon_2026_11_04
     [mkProject "portal" None [] (Some "2026-11-04")] == 100)%Q.
Proof.
  destruct (recency_score_cases Sample.noon_2026_11_04 noon_well_formed) as [_ [H _]].
  apply (H _ "2026-11-04" (Datetime.mkdatetime 739924 0)); reflexivity.
Defined.

(** A project whose completion date is the empty string: the string does
    not parse as a date, and the project scores 70, not 50. *)
Lemma empty_date_string_scores_70 :
  let p := mkProject "portal" None [] (Some "") in
  let now := Sample.noon_2026_11_04 in
  Datetime.well_formed now
  /\ Project_completion_date p = Some ""
  /\ Datetime.strptime "" = None
  /\ CandidateMatcher.project_score now p = 70%Q
  /\ (CandidateMatcher._calculate_recency_score now [p] == 70)%Q
  /\ ~ (CandidateMatcher._calculate_recency_score now [p] == 50)%Q.
Proof.
  split; [exact noon_well_formed|].
  repeat split; try reflexivity.
  intros H. vm_compute in H. discriminate H.
Qed.

(** A project dated one year after the reading. *)
Lemma future_date_scores_100_witness :
  CandidateMatcher.project_score Sample.noon_2026_11_04
    (mkProject "portal" None [] (Some "2027-11-04")) = 100%Q.
Proof.
  apply (future_date_scores_100 Sample.noon_2026_11_04 _ "2027-11-04"
           (Datetime.mkdatetime 740289 0) noon_well_formed).
  - reflexivity.
  - reflexivity.
  - simpl. lia.
Defined.


(** With weights 1, 1, 1 the weighted sum of a candidate whose evaluation
    score is 100 rounds to 250: the [Match] constructor raises, so no
    [Match] carries the clamped score. *)
Lemma unit_weights_raise :
  valid_Candidate Sample.strong_candidate = true
  /\ levels_in_range Sample.strong_candidate = true
  /\ valid_MatchWeights Sample.unit_weights = true
  /\ (Num.round2
        (CandidateMatcher.overall_score
           (CandidateMatcher._calculate_skill_score
              (Candidate_skills Sample.strong_candidate) ["python"])
           (Candidate_eval_score Sample.strong_candidate)
           (CandidateMatcher._calculate_recency_score Sample.noon_2026_11_04
              (Candidate_recent_projects Sample.strong_candidate))
           Sample.unit_weights) == 250)%Q
  /\ CandidateMatcher._evaluate_candidate Sample.noon_2026_11_04 Sample.strong_candidate
       ["python"] Sample.unit_weights = None
  /\ ~ (exists m,
          CandidateMatcher._evaluate_candidate Sample.noon_2026_11_04 Sample.strong_candidate
            ["python"] Sample.unit_weights = Some m
          /\ (Match_score m == Ref.clamp 0 100 250)%Q).
Proof.
  repeat split; try reflexivity.
  intros [m [H _]]. vm_compute in H. discriminate H.
Qed.

(** With the default weights the same candidate gets
    [100 * 0.6 + 100 * 0.3 + 50 * 0.1 = 95]. *)
Lemma evaluate_candidate_score_witness :
  exists m,
    CandidateMatcher._evaluate_candidate Sample.noon_2026_11_04 Sample.strong_candidate
      ["python"] default_MatchWeights = Some m
    /\ (Match_score m == 95)%Q.
Proof.
  destruct (evaluate_candidate_score Sample.noon_2026_11_04 Sample.strong_candidate
              ["python"] default_MatchWeights) as [Hscore [_ Htotal]].
  destruct Htotal as [m Hm].
  - reflexivity.
  - reflexivity.
  - reflexivity.
  - simpl. lra.
  - exists m. split; [exact Hm|].
    destruct (Hscore m Hm) as [-> _]. vm_compute. reflexivity.
Defined.

(** A well-typed request on which the ranking raises: no match is
    returned, where [min(top_k, n)] is 1. *)
Lemma unit_request_raises :
  valid_MatchRequest Sample.unit_request = true
  /\ forallb levels_in_range (MatchRequest_candidates Sample.unit_request) = true
  /\ Nat.min (Z.to_nat (MatchRequest_top_k Sample.unit_request))
             (List.length (MatchRequest_candidates Sample.unit_request)) = 1%nat
  /\ Main.match_candidates Sample.clock Sample.unit_request = None
  /\ ~ (exists response,
          Main.match_candidates Sample.clock Sample.unit_request = Some response
          /\ List.length (MatchResponse_matches response) = 1%nat).
Proof.
  repeat split; try reflexivity.
  intros [response [H _]]. vm_compute in H. discriminate H.
Qed.

(** Fifteen candidates and [top_k = 5]: five matches, fifteen counted. *)
Lemma match_count_witness :
  exists response,
    Main.match_candidates Sample.clock Sample.fifteen_request = Some response
    /\ List.length (MatchResponse_matches response) = 5%nat
    /\ MatchResponse_total_candidates response = 15%nat.
Proof.
  destruct (match_count Sample.clock Sample.fifteen_request None)
    as [Hcount [_ [Htotal _]]].
  - reflexivity.
  - destruct Htotal as [response Hresponse].
    + reflexivity.
    + simpl. lra.
    + exists response. split; [exact Hresponse|].
      apply Hcount in Hresponse. exact Hresponse.
Defined.

(** The better candidate comes first; the two equal ones keep their input
    order. *)
Lemma ranking_sorted_stable_witness :
  map Match_student_id (MatchResponse_matches Sample.three_response)
  = ["third"; "first"; "second"]
  /\ StronglySorted (Ref.desc Match_score)
       (MatchResponse_matches Sample.three_response).
Proof.
  split; [reflexivity|].
  assert (E : CandidateMatcher.match_candidates Sample.clock Sample.three_request None
              = Some Sample.three_response) by (vm_compute; reflexivity).
  destruct (ranking_sorted_stable _ _ _ _ E) as [H _]. exact H.
Defined.

(* ================================================================== *)
(** * Further properties of the extractor and of the ranker *)

(** ** Whole-word matching *)

Lemma startswith_length (p : string) :
  forall s, Str.startswith p s = true -> (String.length p <= String.length s)%nat.
Proof.
  induction p as [|a p IH]; intros s H; simpl; [lia|].
  destruct s as [|b s]; simpl in *; [discriminate|].
  apply andb_true_iff in H as [_ H]. apply IH in H. lia.
Qed.

(** The literal followed by [\b]: the literal is a prefix and there is a
    boundary between its last character and the character after it. *)
Lemma match_literal_spec (pat : string) :
  forall prev s,
    Re.match_literal pat prev s
    = Str.startswith pat s
      && xorb (Re.opt_is_word (RefRe.last_char prev pat))
              (Re.opt_is_word (RefRe.char_after pat s)).
Proof.
  induction pat as [|a pat IH]; intros prev s.
  - reflexivity.
  - destruct s as [|b s]; [reflexivity|].
    simpl. rewrite IH.
    destruct (Ascii.eqb a b) eqn:E; [|reflexivity].
    apply Ascii.eqb_eq in E. subst b. reflexivity.
Qed.

(** A non-empty term matches at a position exactly when it is a prefix there
    and has a boundary on each side. *)
Lemma match_here_spec (a : ascii) (pat' : string) (prev : option ascii) (s : string) :
  Re.match_here (String a pat') prev s = true
  <-> Str.startswith (String a pat') s = true
      /\ Re.opt_is_word prev = negb (Str.is_word a)
      /\ Re.opt_is_word (RefRe.char_after (String a pat') s)
         = negb (Re.opt_is_word (RefRe.last_char None (String a pat'))).
Proof.
  unfold Re.match_here. rewrite match_literal_spec.
  assert (L : forall p, RefRe.last_char p (String a pat') = RefRe.last_char None (String a pat'))
    by reflexivity.
  rewrite (L prev).
  destruct s as [|b s].
  - simpl. split; [intros H; rewrite andb_false_r in H; discriminate|intros [H _]; discriminate].
  - unfold Re.word_boundary. simpl Str.head. unfold Re.opt_is_word at 2.
    destruct (Str.startswith (String a pat') (String b s)) eqn:E.
    + assert (b = a).
      { simpl in E. apply andb_true_iff in E as [E _]. apply Ascii.eqb_eq in E. auto. }
      subst b.
      destruct (Re.opt_is_word prev), (Str.is_word a),
        (Re.opt_is_word (RefRe.last_char None (String a pat'))),
        (Re.opt_is_word (RefRe.char_after (String a pat') (String a s)));
        simpl; intuition congruence.
    + rewrite andb_false_r. intuition congruence.
Qed.

(** X4.  A term that begins and ends with a word character matches at a
    position exactly when it is a prefix of the rest of the text, the
    character before it is not a word character and the character after it
    is not a word character (the ends of the text count as non-word). *)
Theorem word_term_matches_whole_words (a : ascii) (pat' : string)
    (prev : option ascii) (s : string) :
  Str.is_word a = true ->
  Re.opt_is_word (RefRe.last_char None (String a pat')) = true ->
  (Re.match_here (String a pat') prev s = true
   <-> Str.startswith (String a pat') s = true
       /\ Re.opt_is_word prev = false
       /\ Re.opt_is_word (RefRe.char_after (String a pat') s) = false).
Proof.
  intros Ha Hl. rewrite match_here_spec, Ha, Hl. reflexivity.
Qed.

Lemma word_term_matches_whole_words_witness :
  Re.match_here "python" (Some "("%char) "python)" = true.
Proof.
  apply (word_term_matches_whole_words "p"%char "ython"); reflexivity
    || (repeat split; reflexivity).
Defined.

(** X5.  A term whose last character is not a word character (in the
    vocabulary: "c++" and "c#") matches only when a word character follows
    it immediately: never at the end of the text, nor before a space or a
    punctuation mark. *)
Theorem nonword_ending_needs_word_after (a : ascii) (pat' : string)
    (prev : option ascii) (s : string) :
  Re.opt_is_word (RefRe.last_char None (String a pat')) = false ->
  Re.match_here (String a pat') prev s = true ->
  exists c, RefRe.char_after (String a pat') s = Some c /\ Str.is_word c = true.
Proof.
  intros Hl H. apply match_here_spec in H as [_ [_ H]]. rewrite Hl in H.
  destruct (RefRe.char_after (String a pat') s) as [c|]; [|discriminate].
  exists c. split; [reflexivity|exact H].
Qed.

Lemma nonword_ending_needs_word_after_witness :
  exists c, RefRe.char_after "c++" "c++11 and c++" = Some c /\ Str.is_word c = true.
Proof.
  apply (nonword_ending_needs_word_after "c"%char "++" None "c++11 and c++");
    reflexivity.
Defined.

(** The search fails exactly when the scan counts nothing. *)
Lemma search_from_false_count (pat : string) :
  forall s prev skip,
    Re.search_from pat prev s = false -> Re.count_from pat prev skip s = 0%nat.
Proof.
  induction s as [|c s IH]; intros prev skip H; simpl in *.
  - rewrite orb_false_r in H. rewrite H. destruct skip; reflexivity.
  - apply orb_false_iff in H as [H1 H2]. rewrite H1.
    destruct skip; apply IH, H2.
Qed.

Lemma search_findall_pos (pat s : string) :
  Re.search pat s = true -> (1 <= Re.findall_count pat s)%nat.
Proof.
  unfold Re.search, Re.findall_count. intros H.
  destruct (Re.count_from pat None 0 s) eqn:E; [|lia].
  apply count_from_zero_search in E. congruence.
Qed.

Lemma findall_pos_search (pat s : string) :
  (1 <= Re.findall_count pat s)%nat -> Re.search pat s = true.
Proof.
  unfold Re.search, Re.findall_count. intros H.
  destruct (Re.search_from pat None s) eqn:E; [reflexivity|].
  rewrite (search_from_false_count pat s None 0%nat E) in H. lia.
Qed.

(** X6.  [re.search] finds the pattern exactly when [re.findall] returns at
    least one match: the soft-skill test and the technical-skill test agree
    on what "mentioned" means. *)
Theorem search_iff_findall (pat s : string) :
  Re.search pat s = true <-> (0 < Re.findall_count pat s)%nat.
Proof.
  split; [apply search_findall_pos|apply findall_pos_search].
Qed.

Lemma count_from_bound (pat : string) :
  pat <> "" ->
  forall s prev skip,
    (skip <= String.length s)%nat ->
    (String.length pat * Re.count_from pat prev skip s + skip <= String.length s)%nat.
Proof.
  intros Hne.
  assert (Hlen : (1 <= String.length pat)%nat)
    by (destruct pat; [congruence|simpl; lia]).
  induction s as [|c s IH]; intros prev skip Hskip; simpl in *.
  - destruct skip; [|lia].
    destruct (Re.match_here pat prev "") eqn:E; [|lia].
    apply match_here_contains in E. destruct pat; [congruence|discriminate E].
  - destruct skip as [|k].
    + destruct (Re.match_here pat prev (String c s)) eqn:E.
      * assert (Hp : (String.length pat <= S (String.length s))%nat).
        { unfold Re.match_here in E. apply andb_true_iff in E as [_ E].
          apply match_literal_startswith, startswith_length in E. exact E. }
        specialize (IH (Some c) (String.length pat - 1)%nat ltac:(lia)). nia.
      * specialize (IH (Some c) 0%nat ltac:(lia)). lia.
    + specialize (IH (Some c) k ltac:(lia)). lia.
Qed.

(** X7.  The matches counted for a non-empty term do not overlap: the term
    cannot be counted more often than it fits in the text. *)
Theorem findall_matches_fit (pat s : string) :
  pat <> "" ->
  (String.length pat * Re.findall_count pat s <= String.length s)%nat.
Proof.
  intros H. pose proof (count_from_bound pat H s None 0%nat ltac:(lia)).
  unfold Re.findall_count. lia.
Qed.

Lemma findall_matches_fit_witness :
  (String.length "aa" * Re.findall_count "aa" "aa aa aa" <= String.length "aa aa aa")%nat.
Proof.
  apply findall_matches_fit. discriminate.
Defined.

(** ** Monotonicity of rounding *)

Lemma round_half_even_mono (x y : Q) :
  (x <= y)%Q -> (Num.round_half_even x <= Num.round_half_even y)%Z.
Proof.
  intros H.
  assert (Hf : (Qfloor x <= Qfloor y)%Z) by (apply Qfloor_resp_le, H).
  pose proof (round_half_even_bounds x) as Bx.
  pose proof (round_half_even_bounds y) as By.
  destruct (Z.eq_dec (Qfloor x) (Qfloor y)) as [E|NE]; [|lia].
  unfold Num.round_half_even. rewrite <- E.
  destruct (x - inject_Z (Qfloor x) ?= 1 # 2)%Q eqn:Cx;
    destruct (y - inject_Z (Qfloor x) ?= 1 # 2)%Q eqn:Cy;
    try (destruct (Z.even (Qfloor x)); lia); try lia; exfalso.
  - apply Qeq_alt in Cx. apply Qlt_alt in Cy. lra.
  - apply Qgt_alt in Cx. apply Qeq_alt in Cy. lra.
  - apply Qgt_alt in Cx. apply Qlt_alt in Cy. lra.
Qed.

Lemma round2_mono (x y : Q) :
  (x <= y)%Q -> (Num.round2 x <= Num.round2 y)%Q.
Proof.
  intros H. unfold Num.round2.
  apply Qmult_le_compat_r; [|discriminate].
  rewrite <- Zle_Qle. apply round_half_even_mono. lra.
Qed.


Lemma of_nat_mono (f g : nat) : (f <= g)%nat -> (Num.of_nat f <= Num.of_nat g)%Q.
Proof.
  intros H. unfold Num.of_nat. rewrite <- Zle_Qle. lia.
Qed.

(** A mentioned term weighs at least 0.2. *)
Lemma skill_weight_at_least (skill jd_text : string) (f : nat) :
  (1 <= f)%nat -> (0.2 <= JDParser.skill_weight skill jd_text f)%Q.
Proof.
  intros Hf.
  pose proof (of_nat_mono 1 f Hf) as H1. change (Num.of_nat 1) with 1%Q in H1.
  unfold JDParser.skill_weight.
  set (wf := Num.py_min (0.1 + Num.of_nat f * 0.1)%Q 1%Q).
  assert (Bf : (0.2 <= wf)%Q) by (apply py_min_ge; lra).
  destruct (existsb _ _); [destruct (JDParser.boost_inner _ _)|]; try exact Bf.
  apply py_min_ge; lra.
Qed.



(** ** The extracted skills *)

Lemma extract_loop_spec (jd_text : string) (todo : list string) :
  forall found,
    JDParser.extract_loop jd_text found todo
    = Some (found ++ map (RefParser.found_skill jd_text)
                         (filter (RefParser.mentioned jd_text) todo)).
Proof.
  induction todo as [|t todo IH]; intros found; simpl.
  - rewrite app_nil_r. reflexivity.
  - unfold JDParser.extract_step, RefParser.mentioned at 1.
    destruct (0 <? Re.findall_count (Str.lower t) jd_text)%nat.
    + unfold new_Skill.
      assert (R : Num.in_range 0 1
                    (Num.round2 (JDParser.skill_weight t jd_text
                                   (Re.findall_count (Str.lower t) jd_text))) = true)
        by (apply (round2_range 0 1), skill_weight_range).
      rewrite R, IH, <- app_assoc. reflexivity.
    + apply IH.
Qed.

Lemma extract_technical_skills_spec (self : JDParser.JDParserService) (jd_text : string) :
  JDParser._extract_technical_skills self jd_text
  = Some (firstn 20
            (PyList.sort_desc Skill_weight
               (map (RefParser.found_skill jd_text)
                    (filter (RefParser.mentioned jd_text)
                            (JDParser.technical_skills self))))).
Proof.
  unfold JDParser._extract_technical_skills. rewrite extract_loop_spec.
  reflexivity.
Qed.

Lemma found_skill_weight_range (jd_text t : string) :
  RefParser.mentioned jd_text t = true ->
  (0.2 <= Skill_weight (RefParser.found_skill jd_text t) <= 1)%Q.
Proof.
  unfold RefParser.mentioned. intros H. apply Nat.ltb_lt in H. simpl.
  pose proof (skill_weight_at_least t jd_text _ H) as Hlo.
  destruct (skill_weight_range t jd_text (Re.findall_count (Str.lower t) jd_text))
    as [_ Hhi].
  split.
  - assert (E : (Num.round2 0.2 == 0.2)%Q) by reflexivity.
    rewrite <- E. apply round2_mono, Hlo.
  - assert (E : (Num.round2 1 == 1)%Q) by reflexivity.
    rewrite <- E. apply round2_mono, Hhi.
Qed.

Lemma StronglySorted_app_rel {A : Type} (R : A -> A -> Prop) (l1 l2 : list A) :
  StronglySorted R (l1 ++ l2) ->
  forall a b, In a l1 -> In b l2 -> R a b.
Proof.
  induction l1 as [|x l1 IH]; intros H a b Ha Hb; [contradiction|].
  simpl in H. inversion H as [|? ? Hs Hall]; subst.
  destruct Ha as [<-|Ha].
  - rewrite Forall_forall in Hall. apply Hall, in_or_app. right. exact Hb.
  - eapply IH; eassumption.
Qed.

(** X1.  The technical-skill extraction always returns: at most 20 skills,
    in descending order of weight, each weight between 0.2 and 1. *)
Theorem extracted_skills_shape (self : JDParser.JDParserService) (jd_text : string) :
  exists skills,
    JDParser._extract_technical_skills self jd_text = Some skills
    /\ (List.length skills <= 20)%nat
    /\ StronglySorted (Ref.desc Skill_weight) skills
    /\ Forall (fun s => 0.2 <= Skill_weight s <= 1)%Q skills.
Proof.
  rewrite extract_technical_skills_spec. eexists. split; [reflexivity|].
  split; [apply firstn_le_length|]. split.
  - apply StronglySorted_firstn, sort_desc_strongly_sorted.
  - apply Forall_forall. intros s Hs. apply in_firstn in Hs.
    eapply Permutation_in in Hs; [|apply sort_desc_perm].
    apply in_map_iff in Hs as [t [<- Ht]]. apply filter_In in Ht as [_ Ht].
    apply found_skill_weight_range, Ht.
Qed.

Lemma technical_vocabulary_nodup : NoDup JDParser.technical_vocabulary.
Proof.
  assert (E : nodup string_dec JDParser.technical_vocabulary
              = JDParser.technical_vocabulary) by (vm_compute; reflexivity).
  rewrite <- E. apply NoDup_nodup.
Qed.

Lemma soft_vocabulary_nodup : NoDup JDParser.soft_vocabulary.
Proof.
  assert (E : nodup string_dec JDParser.soft_vocabulary
              = JDParser.soft_vocabulary) by (vm_compute; reflexivity).
  rewrite <- E. apply NoDup_nodup.
Qed.

Lemma NoDup_firstn {A : Type} (n : nat) (l : list A) :
  NoDup l -> NoDup (firstn n l).
Proof.
  intros H. rewrite <- (firstn_skipn n l) in H.
  eapply NoDup_app_remove_r. exact H.
Qed.

Lemma NoDup_filter {A : Type} (p : A -> bool) (l : list A) :
  NoDup l -> NoDup (filter p l).
Proof.
  induction 1 as [|x l Hx Hl IH]; simpl; [constructor|].
  destruct (p x); [|exact IH].
  constructor; [|exact IH]. intros Hin. apply filter_In in Hin as [Hin _]. auto.
Qed.

(** X2.  The skills returned are vocabulary terms with at least one
    whole-word match, each at most once and with the weight computed for
    it; and a mentioned vocabulary term is left out only when 20 skills are
    returned, none of them lighter than it. *)
Theorem extracted_skills_are_heaviest_mentions
    (self : JDParser.JDParserService) (jd_text : string) (skills : list Skill) :
  JDParser.initialised self ->
  JDParser._extract_technical_skills self jd_text = Some skills ->
  (forall s, In s skills ->
     In (Skill_name s) JDParser.technical_vocabulary
     /\ (1 <= Re.findall_count (Skill_name s) jd_text)%nat
     /\ s = RefParser.found_skill jd_text (Skill_name s))
  /\ NoDup (map Skill_name skills)
  /\ (forall t,
        In t JDParser.technical_vocabulary ->
        (1 <= Re.findall_count t jd_text)%nat ->
        In (RefParser.found_skill jd_text t) skills
        \/ (List.length skills = 20%nat
            /\ forall s, In s skills ->
                 (Skill_weight (RefParser.found_skill jd_text t) <= Skill_weight s)%Q)).
Proof.
  intros [Hperm _] H. rewrite extract_technical_skills_spec in H.
  set (mentions := filter (RefParser.mentioned jd_text) (JDParser.technical_skills self)) in *.
  set (sorted := PyList.sort_desc Skill_weight (map (RefParser.found_skill jd_text) mentions)) in *.
  assert (E : skills = firstn 20 sorted) by congruence.
  clear H. subst skills.
  assert (Hsorted : forall s, In s sorted <->
                      exists t, s = RefParser.found_skill jd_text t
                                /\ In t JDParser.technical_vocabulary
                                /\ (1 <= Re.findall_count t jd_text)%nat).
  { intros s. split.
    - intros Hs. eapply Permutation_in in Hs; [|apply sort_desc_perm].
      apply in_map_iff in Hs as [t [<- Ht]]. apply filter_In in Ht as [Hin Hm].
      assert (Hv : In t JDParser.technical_vocabulary)
        by (eapply Permutation_in; eassumption).
      exists t. split; [reflexivity|]. split; [exact Hv|].
      unfold RefParser.mentioned in Hm.
      rewrite (technical_vocabulary_lower t Hv) in Hm. apply Nat.ltb_lt, Hm.
    - intros [t [-> [Hv Hc]]].
      eapply Permutation_in; [apply Permutation_sym, sort_desc_perm|].
      apply in_map, filter_In. split.
      + eapply Permutation_in; [apply Permutation_sym; eassumption|exact Hv].
      + unfold RefParser.mentioned. rewrite (technical_vocabulary_lower t Hv).
        apply Nat.ltb_lt, Hc. }
  split; [|split].
  - intros s Hs. apply in_firstn, Hsorted in Hs as [t [-> [Hv Hc]]].
    simpl. auto.
  - rewrite <- firstn_map. apply NoDup_firstn.
    eapply Permutation_NoDup.
    + apply Permutation_sym, Permutation_map, sort_desc_perm.
    + rewrite map_map. simpl. rewrite map_id. apply NoDup_filter.
      eapply Permutation_NoDup;
        [apply Permutation_sym; eassumption|apply technical_vocabulary_nodup].
  - intros t Hv Hc.
    assert (Hin : In (RefParser.found_skill jd_text t) sorted)
      by (apply Hsorted; eauto).
    rewrite <- (firstn_skipn 20 sorted) in Hin. apply in_app_or in Hin as [Hin|Hin].
    + left. exact Hin.
    + right. split.
      * apply firstn_length_le.
        destruct (le_lt_dec 20 (List.length sorted)) as [Hl|Hl]; [exact Hl|].
        rewrite skipn_all2 in Hin by lia. contradiction.
      * intros s Hs.
        pose proof (sort_desc_strongly_sorted Skill_weight
                      (map (RefParser.found_skill jd_text) mentions)) as Hss.
        fold sorted in Hss. rewrite <- (firstn_skipn 20 sorted) in Hss.
        exact (StronglySorted_app_rel _ _ _ Hss _ _ Hs Hin).
Qed.

Lemma extracted_skills_are_heaviest_mentions_witness :
  NoDup (map Skill_name
           (firstn 20 (PyList.sort_desc Skill_weight
              (map (RefParser.found_skill "python and sql, mostly python")
                   (filter (RefParser.mentioned "python and sql, mostly python")
                           JDParser.technical_vocabulary))))).
Proof.
  destruct (extracted_skills_are_heaviest_mentions JDParser.declared_service
              "python and sql, mostly python" _ declared_service_initialised
              (extract_technical_skills_spec _ _)) as [_ [H _]].
  exact H.
Defined.

(** X3.  The soft skills returned are exactly the terms of the soft-skill
    vocabulary that have a whole-word match in the text, each once. *)
Theorem soft_skills_are_the_mentions (self : JDParser.JDParserService) (jd_text : string) :
  JDParser.initialised self ->
  (forall t, In t (JDParser._extract_soft_skills self jd_text)
             <-> In t JDParser.soft_vocabulary /\ Re.search t jd_text = true)
  /\ NoDup (JDParser._extract_soft_skills self jd_text).
Proof.
  intros [_ [Hperm _]]. unfold JDParser._extract_soft_skills. split.
  - intros t. rewrite filter_In. split.
    + intros [Hin Hs].
      assert (Hv : In t JDParser.soft_vocabulary)
        by (eapply Permutation_in; eassumption).
      rewrite (soft_vocabulary_lower t Hv) in Hs. auto.
    + intros [Hv Hs]. split.
      * eapply Permutation_in; [apply Permutation_sym; eassumption|exact Hv].
      * rewrite (soft_vocabulary_lower t Hv). exact Hs.
  - apply NoDup_filter. eapply Permutation_NoDup;
      [apply Permutation_sym; eassumption|apply soft_vocabulary_nodup].
Qed.

Lemma soft_skills_are_the_mentions_witness :
  In "teamwork"
     (JDParser._extract_soft_skills JDParser.declared_service
        "teamwork and communication matter").
Proof.
  destruct (soft_skills_are_the_mentions JDParser.declared_service
              "teamwork and communication matter" declared_service_initialised)
    as [H _].
  apply H. split; [simpl; auto 20|reflexivity].
Defined.

(** ** Letter case *)

Lemma lower_char_idempotent (c : ascii) :
  Str.lower_char (Str.lower_char c) = Str.lower_char c.
Proof.
  destruct c as [[] [] [] [] [] [] [] []]; reflexivity.
Qed.

Lemma lower_idempotent (s : string) : Str.lower (Str.lower s) = Str.lower s.
Proof.
  induction s as [|c s IH]; simpl; [reflexivity|].
  rewrite lower_char_idempotent, IH. reflexivity.
Qed.

(** X8.  Extraction ignores letter case: two descriptions that differ only
    in the case of their letters give the same response, and a description
    gives the same response as its lower-cased form. *)
Theorem parse_jd_ignores_case (self : JDParser.JDParserService)
    (text1 text2 : string) (job_id : option string) :
  Str.lower text1 = Str.lower text2 ->
  JDParser.parse_jd self (mkJDParseRequest text1 job_id)
  = JDParser.parse_jd self (mkJDParseRequest text2 job_id)
  /\ JDParser.parse_jd self (mkJDParseRequest (Str.lower text1) job_id)
     = JDParser.parse_jd self (mkJDParseRequest text1 job_id).
Proof.
  intros H. unfold JDParser.parse_jd. simpl.
  rewrite lower_idempotent, H. split; reflexivity.
Qed.

Lemma parse_jd_ignores_case_witness :
  JDParser.parse_jd JDParser.declared_service
    (mkJDParseRequest "SENIOR Python Developer" None)
  = JDParser.parse_jd JDParser.declared_service
      (mkJDParseRequest "senior PYTHON developer" None).
Proof.
  apply parse_jd_ignores_case. reflexivity.
Defined.

(** ** Bounds of the skill score *)

Lemma fold_Qplus_const (c : Q) (l : list Q) :
  Forall (fun q => q == c)%Q l ->
  forall a, (fold_left Qplus l a == a + c * Num.of_nat (List.length l))%Q.
Proof.
  induction 1 as [|q l Hq Hl IH]; intros a; simpl.
  - change (Num.of_nat 0) with 0%Q. ring.
  - rewrite IH.
    assert (E : (Num.of_nat (S (List.length l)) == Num.of_nat (List.length l) + 1)%Q).
    { unfold Num.of_nat. rewrite Nat2Z.inj_succ, <- Z.add_1_r, inject_Z_plus.
      reflexivity. }
    rewrite E, Hq. ring.
Qed.

Lemma set_of_In (l : list string) (x : string) :
  In x (CandidateMatcher.set_of l) <-> In x l.
Proof. apply nodup_In. Qed.

Lemma dict_mem_get (k : string) (d : CandidateMatcher.dict) (v : Q) :
  CandidateMatcher.dict_get k d = Some v -> CandidateMatcher.dict_mem k d = true.
Proof. unfold CandidateMatcher.dict_mem. intros ->. reflexivity. Qed.

(** X10.  With skill levels in [[0, 5]] the skill score lies in [[0, 100]];
    it is 0 when either the required-skill list or the candidate's skill map
    is empty; and it is 100 when every required skill is a key of the
    lower-cased skill map at level 5. *)
Theorem skill_score_bounds (cs : CandidateMatcher.dict) (js : list string) :
  Forall Ref.level_ok cs ->
  (0 <= CandidateMatcher._calculate_skill_score cs js <= 100)%Q
  /\ (js = [] \/ cs = [] -> CandidateMatcher._calculate_skill_score cs js = 0%Q)
  /\ (js <> [] ->
      (forall r, In r js ->
         CandidateMatcher.dict_get (Str.lower r) (CandidateMatcher.lower_keys cs)
         = Some 5%Q) ->
      (CandidateMatcher._calculate_skill_score cs js == 100)%Q).
Proof.
  intros Hok. split; [apply skill_score_range, Hok|]. split.
  - intros [-> | ->]; [reflexivity|destruct js; reflexivity].
  - intros Hjs Hall.
    assert (Hcs : cs <> []).
    { intros ->. destruct js as [|j js]; [congruence|].
      specialize (Hall j (or_introl eq_refl)). discriminate Hall. }
    rewrite (skill_score_direct cs js Hcs Hjs).
    set (csl := CandidateMatcher.lower_keys cs) in *.
    set (set := CandidateMatcher.set_of (map Str.lower js)).
    assert (Hset : forall s, In s set -> CandidateMatcher.dict_get s csl = Some 5%Q).
    { intros s Hs. apply set_of_In, in_map_iff in Hs as [r [<- Hr]]. apply Hall, Hr. }
    assert (Hne : (0 < List.length set)%nat).
    { destruct js as [|j js]; [congruence|].
      assert (Hj : In (Str.lower j) set) by (apply set_of_In; left; reflexivity).
      destruct set; [contradiction|simpl; lia]. }
    assert (Hex : existsb (fun s => CandidateMatcher.dict_mem s csl) set = true).
    { destruct set as [|s set']; [simpl in Hne; lia|].
      simpl. rewrite (dict_mem_get _ _ _ (Hset s (or_introl eq_refl))). reflexivity. }
    rewrite Hex. unfold Num.sumQ.
    rewrite (fold_Qplus_const 5).
    + rewrite length_map. pose proof (of_nat_pos _ Hne) as Hpos. field. lra.
    + apply Forall_forall. intros q Hq. apply in_map_iff in Hq as [s [<- Hs]].
      unfold CandidateMatcher.contribution. rewrite (Hset s Hs). reflexivity.
Qed.

Lemma skill_score_bounds_witness :
  (0 <= CandidateMatcher._calculate_skill_score [("python", 3%Q); ("db", 4%Q)]
          ["Python"; "database"] <= 100)%Q.
Proof.
  apply skill_score_bounds.
  repeat constructor; unfold Ref.level_ok; simpl; lra.
Defined.

(** ** Order, case and repetition of the required skills *)




(** ** The substring fallback *)






(** ** The lower-cased skill map *)

Lemma dict_get_set (k k' : string) (v : Q) (d : CandidateMatcher.dict) :
  CandidateMatcher.dict_get k (CandidateMatcher.dict_set k' v d)
  = if String.eqb k k' then Some v else CandidateMatcher.dict_get k d.
Proof.
  induction d as [|[k0 v0] d IH]; simpl.
  - destruct (String.eqb k k'); reflexivity.
  - destruct (String.eqb k' k0) eqn:E; simpl.
    + apply String.eqb_eq in E. subst k0.
      destruct (String.eqb k k'); reflexivity.
    + rewrite IH. destruct (String.eqb k k0) eqn:E0; [|reflexivity].
      apply String.eqb_eq in E0. subst k0.
      rewrite String.eqb_sym in E. rewrite E. reflexivity.
Qed.

Lemma dict_set_keys (k : string) (v : Q) (d : CandidateMatcher.dict) :
  map fst (CandidateMatcher.dict_set k v d)
  = if existsb (String.eqb k) (map fst d) then map fst d else map fst d ++ [k].
Proof.
  induction d as [|[k0 v0] d IH]; simpl; [reflexivity|].
  destruct (String.eqb k k0) eqn:E; simpl; [reflexivity|].
  rewrite IH. destruct (existsb (String.eqb k) (map fst d)); reflexivity.
Qed.

Lemma dict_set_nodup (k : string) (v : Q) (d : CandidateMatcher.dict) :
  NoDup (map fst d) -> NoDup (map fst (CandidateMatcher.dict_set k v d)).
Proof.
  intros H. rewrite dict_set_keys.
  destruct (existsb (String.eqb k) (map fst d)) eqn:E; [exact H|].
  apply NoDup_app; [exact H|repeat constructor; intros []|].
  intros x Hx [Ex|[]]. subst x.
  assert (existsb (String.eqb k) (map fst d) = true).
  { apply existsb_exists. exists k. split; [exact Hx|apply String.eqb_refl]. }
  congruence.
Qed.

Lemma lower_keys_fold (k : string) (d : CandidateMatcher.dict) :
  forall acc,
    CandidateMatcher.dict_get k
      (fold_left (fun acc kv => CandidateMatcher.dict_set (Str.lower (fst kv)) (snd kv) acc)
                 d acc)
    = fold_left
        (fun found kv => if String.eqb k (Str.lower (fst kv)) then Some (snd kv) else found)
        d (CandidateMatcher.dict_get k acc).
Proof.
  induction d as [|kv d IH]; intros acc; simpl; [reflexivity|].
  rewrite IH, dict_get_set. reflexivity.
Qed.

Lemma lower_keys_invariant (d : CandidateMatcher.dict) :
  forall acc,
    NoDup (map fst acc) -> Forall (fun k => Str.lower k = k) (map fst acc) ->
    let r := fold_left (fun acc kv => CandidateMatcher.dict_set (Str.lower (fst kv)) (snd kv) acc)
                       d acc in
    NoDup (map fst r) /\ Forall (fun k => Str.lower k = k) (map fst r).
Proof.
  induction d as [|kv d IH]; intros acc Hn Hl; simpl; [auto|].
  apply IH.
  - apply dict_set_nodup, Hn.
  - rewrite dict_set_keys. destruct (existsb _ _); [exact Hl|].
    apply Forall_app. split; [exact Hl|].
    constructor; [apply lower_idempotent|constructor].
Qed.

(** X13.  In the lower-cased skill map every key is in lower case and
    occurs once, and looking a key up gives the level of the last skill of
    the candidate whose lower-cased name is that key: of two skills that
    differ only in case, the later one wins. *)
Theorem lower_keys_lookup (d : CandidateMatcher.dict) :
  (forall k, CandidateMatcher.dict_get k (CandidateMatcher.lower_keys d)
             = RefMatcher.last_value k d)
  /\ NoDup (map fst (CandidateMatcher.lower_keys d))
  /\ Forall (fun k => Str.lower k = k) (map fst (CandidateMatcher.lower_keys d)).
Proof.
  split.
  - intros k. unfold CandidateMatcher.lower_keys, RefMatcher.last_value.
    rewrite lower_keys_fold. reflexivity.
  - apply (lower_keys_invariant d []); constructor.
Qed.

(** ** Recency buckets *)

Lemma project_score_bucket (now : Datetime.datetime) (p : Project) (s : string)
    (d : Datetime.datetime) :
  Project_completion_date p = Some s -> Datetime.strptime s = Some d ->
  CandidateMatcher.project_score now p
  = RefRecency.bucket (Datetime.days_between now d).
Proof.
  intros Hp Hs. unfold CandidateMatcher.project_score.
  rewrite Hp, (strptime_nonempty _ _ Hs), Hs. reflexivity.
Qed.

Lemma bucket_antitone (a b : Z) :
  (a <= b)%Z -> (RefRecency.bucket b <= RefRecency.bucket a)%Q.
Proof.
  intros H. unfold RefRecency.bucket.
  repeat match goal with
         | |- context [(?x <=? ?y)%Z] => destruct (Z.leb_spec x y)
         end; try lia; lra.
Qed.

Lemma project_score_at_least (now : Datetime.datetime) (p : Project) :
  (20 <= CandidateMatcher.project_score now p)%Q.
Proof.
  unfold CandidateMatcher.project_score.
  destruct (Project_completion_date p) as [s|]; [|lra].
  destruct (Str.truthy s); [|lra].
  destruct (Datetime.strptime s); [|lra].
  repeat match goal with |- context [if ?b then _ else _] => destruct b end; lra.
Qed.

Lemma fold_Qplus_at_least (b : Q) (l : list Q) :
  Forall (fun q => b <= q)%Q l ->
  forall a, (a + b * Num.of_nat (List.length l) <= fold_left Qplus l a)%Q.
Proof.
  induction 1 as [|q l Hq Hl IH]; intros a; simpl.
  - change (Num.of_nat 0) with 0%Q. lra.
  - specialize (IH (a + q)%Q).
    assert (E : (Num.of_nat (S (List.length l)) == Num.of_nat (List.length l) + 1)%Q).
    { unfold Num.of_nat. rewrite Nat2Z.inj_succ, <- Z.add_1_r, inject_Z_plus.
      reflexivity. }
    rewrite E. lra.
Qed.

(** X14.  The recency score always lies between 20 and 100, and among
    projects with a parsed completion date an older one never contributes
    more than a more recent one. *)
Theorem recency_bounds_and_age (now : Datetime.datetime) :
  Datetime.well_formed now ->
  (forall projects,
      (20 <= CandidateMatcher._calculate_recency_score now projects <= 100)%Q)
  /\ (forall p1 p2 s1 s2 d1 d2,
        Project_completion_date p1 = Some s1 -> Datetime.strptime s1 = Some d1 ->
        Project_completion_date p2 = Some s2 -> Datetime.strptime s2 = Some d2 ->
        (Datetime.ordinal d1 <= Datetime.ordinal d2)%Z ->
        (CandidateMatcher.project_score now p1
         <= CandidateMatcher.project_score now p2)%Q).
Proof.
  intros Hnow. split.
  - intros projects. split; [|apply recency_score_range].
    destruct projects as [|p projects]; [simpl; lra|].
    rewrite recency_mean by discriminate.
    set (ps := p :: projects).
    assert (Hne : (0 < List.length ps)%nat) by (simpl; lia).
    pose proof (of_nat_pos _ Hne) as Hpos.
    assert (Hr : Forall (fun q => 20 <= q)%Q
                   (map (CandidateMatcher.project_score now) ps)).
    { apply Forall_forall. intros q Hq. apply in_map_iff in Hq as [x [<- _]].
      apply project_score_at_least. }
    pose proof (fold_Qplus_at_least 20 _ Hr 0%Q) as Hsum.
    rewrite length_map in Hsum.
    fold (Num.sumQ (map (CandidateMatcher.project_score now) ps)) in Hsum.
    apply Qle_shift_div_l; [exact Hpos|]. lra.
  - intros p1 p2 s1 s2 d1 d2 Hp1 Hs1 Hp2 Hs2 Hd.
    rewrite (project_score_bucket now p1 s1 d1 Hp1 Hs1),
      (project_score_bucket now p2 s2 d2 Hp2 Hs2).
    apply bucket_antitone.
    rewrite (days_between_midnight now d1 Hnow (strptime_midnight s1 d1 Hs1)),
      (days_between_midnight now d2 Hnow (strptime_midnight s2 d2 Hs2)).
    lia.
Qed.

Lemma recency_bounds_and_age_witness :
  (CandidateMatcher.project_score Sample.noon_2026_11_04
     (mkProject "old" None [] (Some "2025-01-15"))
   <= CandidateMatcher.project_score Sample.noon_2026_11_04
        (mkProject "new" None [] (Some "2026-10-01")))%Q.
Proof.
  destruct (recency_bounds_and_age Sample.noon_2026_11_04 noon_well_formed)
    as [_ H].
  apply (H _ _ "2025-01-15" "2026-10-01"
           (Datetime.mkdatetime 739266 0) (Datetime.mkdatetime 739890 0));
    try reflexivity.
  simpl. lia.
Defined.

(** ** Evaluation score and ranking *)

(** X15.  Of two candidates with the same skills and projects, evaluated at
    the same time under the same non-negative evaluation weight, the one
    with the higher evaluation score never gets the lower overall score. *)
Theorem higher_eval_never_lowers_score (now : Datetime.datetime)
    (c1 c2 : Candidate) (js : list string) (w : MatchWeights) (m1 m2 : Match) :
  Candidate_skills c1 = Candidate_skills c2 ->
  Candidate_recent_projects c1 = Candidate_recent_projects c2 ->
  (Candidate_eval_score c1 <= Candidate_eval_score c2)%Q ->
  (0 <= MatchWeights_eval w)%Q ->
  CandidateMatcher._evaluate_candidate now c1 js w = Some m1 ->
  CandidateMatcher._evaluate_candidate now c2 js w = Some m2 ->
  (Match_score m1 <= Match_score m2)%Q.
Proof.
  intros Hs Hp He Hw H1 H2.
  rewrite evaluate_candidate_unfold in H1, H2. unfold new_Match in H1, H2.
  destruct (_ && _) in H1; [|discriminate].
  destruct (_ && _) in H2; [|discriminate].
  injection H1 as <-. injection H2 as <-. simpl.
  apply round2_mono. unfold CandidateMatcher.overall_score.
  rewrite Hs, Hp.
  assert (A : (Candidate_eval_score c1 * MatchWeights_eval w
               <= Candidate_eval_score c2 * MatchWeights_eval w)%Q)
    by (apply Qmult_le_compat_r; assumption).
  lra.
Qed.

Lemma higher_eval_never_lowers_score_witness :
  exists m1 m2,
    CandidateMatcher._evaluate_candidate Sample.noon_2026_11_04
      (mkCandidate "a" [("python", 3%Q)] 60%Q []) ["python"] default_MatchWeights
    = Some m1
    /\ CandidateMatcher._evaluate_candidate Sample.noon_2026_11_04
         (mkCandidate "b" [("python", 3%Q)] 80%Q []) ["python"] default_MatchWeights
       = Some m2
    /\ (Match_score m1 <= Match_score m2)%Q.
Proof.
  destruct (evaluate_candidate_total Sample.noon_2026_11_04
              (mkCandidate "a" [("python", 3%Q)] 60%Q []) ["python"]
              default_MatchWeights) as [m1 H1]; try reflexivity; [simpl; lra|].
  destruct (evaluate_candidate_total Sample.noon_2026_11_04
              (mkCandidate "b" [("python", 3%Q)] 80%Q []) ["python"]
              default_MatchWeights) as [m2 H2]; try reflexivity; [simpl; lra|].
  exists m1, m2. split; [exact H1|]. split; [exact H2|].
  apply (higher_eval_never_lowers_score Sample.noon_2026_11_04
           (mkCandidate "a" [("python", 3%Q)] 60%Q [])
           (mkCandidate "b" [("python", 3%Q)] 80%Q [])
           ["python"] default_MatchWeights m1 m2 eq_refl eq_refl);
    [simpl; lra|simpl; lra|exact H1|exact H2].
Defined.

(** X16.  The matches returned are the best of all evaluated candidates:
    together with the candidates left out they make up the whole evaluated
    list, and no candidate left out has a higher score than a returned
    one. *)
Theorem returned_matches_are_the_best (clock : nat -> Datetime.datetime)
    (request : MatchRequest) (job_skills : option (list string))
    (response : MatchResponse) :
  CandidateMatcher.match_candidates clock request job_skills = Some response ->
  exists evaluated left_out,
    CandidateMatcher.evaluate_loop clock 0 (MatchRequest_candidates request)
      (CandidateMatcher.job_skills_or_default job_skills)
      (MatchRequest_weights request) [] = Some evaluated
    /\ Permutation (MatchResponse_matches response ++ left_out) evaluated
    /\ (forall m m', In m (MatchResponse_matches response) -> In m' left_out ->
          (Match_score m' <= Match_score m)%Q).
Proof.
  intros H. apply match_candidates_some in H as [ev [Hev [_ ->]]]. simpl.
  destruct (slice_to_is_firstn (MatchRequest_top_k request)
              (PyList.sort_desc Match_score ev)) as [n ->].
  exists ev, (skipn n (PyList.sort_desc Match_score ev)).
  split; [exact Hev|]. split.
  - rewrite firstn_skipn. apply sort_desc_perm.
  - intros m m' Hm Hm'.
    pose proof (sort_desc_strongly_sorted Match_score ev) as Hss.
    rewrite <- (firstn_skipn n (PyList.sort_desc Match_score ev)) in Hss.
    exact (StronglySorted_app_rel _ _ _ Hss _ _ Hm Hm').
Qed.

Lemma returned_matches_are_the_best_witness :
  exists evaluated left_out,
    CandidateMatcher.evaluate_loop Sample.clock 0
      (MatchRequest_candidates Sample.three_request)
      (CandidateMatcher.job_skills_or_default None)
      (MatchRequest_weights Sample.three_request) [] = Some evaluated
    /\ Permutation (MatchResponse_matches Sample.three_response ++ left_out) evaluated
    /\ (forall m m', In m (MatchResponse_matches Sample.three_response) ->
                     In m' left_out -> (Match_score m' <= Match_score m)%Q).
Proof.
  apply (returned_matches_are_the_best Sample.clock Sample.three_request None).
  vm_compute. reflexivity.
Defined.

(** ** The reasons of a match *)

Lemma strong_held (d : CandidateMatcher.dict) (skill : string) :
  RefReasons.strong d skill = true -> RefReasons.held d skill = true.
Proof.
  unfold RefReasons.strong, RefReasons.held.
  destruct (CandidateMatcher.dict_get skill d) as [level|]; [|discriminate].
  intros H. apply Qle_bool_iff in H. apply Qle_bool_iff. lra.
Qed.

(** The three lists after the loop over the required skills. *)
Lemma required_loop_spec (float_str : Q -> string) (d : CandidateMatcher.dict)
    (l : list string) :
  forall top gaps strengths,
    fold_left (Reasons.required_step float_str d) l (top, gaps, strengths)
    = (top ++ filter (RefReasons.held d) l,
       gaps ++ map (RefReasons.gap_text float_str d)
                   (filter (fun s => negb (RefReasons.held d s)) l),
       strengths ++ map (fun s => Reasons.strength_text float_str s (RefReasons.level_of d s))
                        (filter (RefReasons.strong d) l)).
Proof.
  induction l as [|x l IH]; intros top gaps strengths; simpl.
  - rewrite !app_nil_r. reflexivity.
  - pose proof (strong_held d x) as Hsh.
    unfold RefReasons.held, RefReasons.strong, RefReasons.gap_text,
      RefReasons.level_of in *.
    destruct (CandidateMatcher.dict_get x d) as [level|] eqn:E.
    + destruct (Qle_bool 4 level) eqn:E4.
      * rewrite (Hsh eq_refl). simpl. rewrite IH, E, <- !app_assoc. reflexivity.
      * destruct (Qle_bool 2 level) eqn:E2; simpl; rewrite IH;
          rewrite ?E, <- ?app_assoc; reflexivity.
    + simpl. rewrite IH, E, <- !app_assoc. reflexivity.
Qed.

Lemma own_loop_spec (float_str : Q -> string) (jsl : list string)
    (items : CandidateMatcher.dict) :
  forall strengths,
    fold_left (Reasons.own_step float_str jsl) items strengths
    = strengths ++ map (fun kv => Reasons.strength_text float_str (fst kv) (snd kv))
                       (filter (RefReasons.extra jsl) items).
Proof.
  induction items as [|kv items IH]; intros strengths; simpl.
  - rewrite app_nil_r. reflexivity.
  - unfold Reasons.own_step at 2. unfold RefReasons.extra at 1.
    destruct (_ && _); simpl; rewrite IH, <- ?app_assoc; reflexivity.
Qed.

Lemma generate_match_reasons_spec (float_str : Q -> string) (candidate : Candidate)
    (job_skills : list string) :
  let d := CandidateMatcher.lower_keys (Candidate_skills candidate) in
  let jsl := map Str.lower job_skills in
  Reasons._generate_match_reasons float_str candidate job_skills
  = mkMatchReasons
      (firstn 5 (filter (RefReasons.held d) jsl))
      (firstn 5 (map (RefReasons.gap_text float_str d)
                     (filter (fun s => negb (RefReasons.held d s)) jsl)))
      (firstn 3
         (map (fun s => Reasons.strength_text float_str s (RefReasons.level_of d s))
              (filter (RefReasons.strong d) jsl)
          ++ map (fun kv => Reasons.strength_text float_str (fst kv) (snd kv))
                 (filter (RefReasons.extra jsl) (Candidate_skills candidate)))).
Proof.
  intros d jsl. unfold Reasons._generate_match_reasons.
  fold d. fold jsl. rewrite required_loop_spec, own_loop_spec. reflexivity.
Qed.

Lemma filter_split_length {A : Type} (p : A -> bool) (l : list A) :
  (List.length (filter p l) + List.length (filter (fun x => negb (p x)) l)
   = List.length l)%nat.
Proof.
  induction l as [|x l IH]; simpl; [reflexivity|].
  destruct (p x); simpl; lia.
Qed.

(** X17.  The top terms are the first five required skills, in the order
    of the request, that the candidate holds at level 2 or more; the skill
    gaps are the first five of the others, a missing skill by its bare name;
    with at most five required skills every one of them is reported exactly
    once, as a top term or as a gap. *)
Theorem reasons_top_terms_and_gaps (float_str : Q -> string)
    (candidate : Candidate) (job_skills : list string) :
  let d := CandidateMatcher.lower_keys (Candidate_skills candidate) in
  let jsl := map Str.lower job_skills in
  let reasons := Reasons._generate_match_reasons float_str candidate job_skills in
  MatchReasons_top_terms reasons = firstn 5 (filter (RefReasons.held d) jsl)
  /\ MatchReasons_skill_gaps reasons
     = firstn 5 (map (RefReasons.gap_text float_str d)
                     (filter (fun s => negb (RefReasons.held d s)) jsl))
  /\ (forall s, In s jsl -> CandidateMatcher.dict_get s d = None ->
        RefReasons.gap_text float_str d s = s)
  /\ ((List.length job_skills <= 5)%nat ->
      (List.length (MatchReasons_top_terms reasons)
       + List.length (MatchReasons_skill_gaps reasons)
       = List.length job_skills)%nat).
Proof.
  intros d jsl reasons. subst reasons.
  pose proof (generate_match_reasons_spec float_str candidate job_skills) as E.
  cbv zeta in E. fold d jsl in E. rewrite E.
  cbn [MatchReasons_top_terms MatchReasons_skill_gaps].
  split; [reflexivity|]. split; [reflexivity|]. split.
  - intros s _ Hs. unfold RefReasons.gap_text. rewrite Hs. reflexivity.
  - intros Hlen.
    pose proof (filter_split_length (RefReasons.held d) jsl) as Hsplit.
    assert (Hj : List.length jsl = List.length job_skills) by apply length_map.
    rewrite !firstn_all2; [rewrite length_map; lia| |].
    + rewrite length_map. lia.
    + lia.
Qed.

(** X18.  The strengths are the first three of: the required skills held at
    level 4 or more, in the order of the request, followed by the
    candidate's own skills at level 4.5 or more that are not required, in
    the order of the skill map; so with three strong required skills no
    other skill is ever listed. *)
Theorem reasons_strengths (float_str : Q -> string)
    (candidate : Candidate) (job_skills : list string) :
  let d := CandidateMatcher.lower_keys (Candidate_skills candidate) in
  let jsl := map Str.lower job_skills in
  let reasons := Reasons._generate_match_reasons float_str candidate job_skills in
  let required_strengths :=
    map (fun s => Reasons.strength_text float_str s (RefReasons.level_of d s))
        (filter (RefReasons.strong d) jsl) in
  MatchReasons_strengths reasons
  = firstn 3
      (required_strengths
       ++ map (fun kv => Reasons.strength_text float_str (fst kv) (snd kv))
              (filter (RefReasons.extra jsl) (Candidate_skills candidate)))
  /\ (List.length (MatchReasons_strengths reasons) <= 3)%nat
  /\ ((3 <= List.length required_strengths)%nat ->
      MatchReasons_strengths reasons = firstn 3 required_strengths).
Proof.
  intros d jsl reasons required_strengths. subst reasons.
  pose proof (generate_match_reasons_spec float_str candidate job_skills) as E.
  cbv zeta in E. fold d jsl in E. fold required_strengths in E. rewrite E.
  cbn [MatchReasons_strengths].
  split; [reflexivity|]. split; [apply firstn_le_length|].
  intros H. rewrite firstn_app.
  replace (3 - List.length required_strengths)%nat with 0%nat by lia.
  rewrite firstn_O, app_nil_r. reflexivity.
Qed.

(** ** Similarity of skill names *)

Lemma mem_In (w : string) (l : list string) :
  Similarity.mem w l = true <-> In w l.
Proof.
  unfold Similarity.mem. rewrite existsb_exists. split.
  - intros [x [Hx E]]. apply String.eqb_eq in E. subst x. exact Hx.
  - intros H. exists w. split; [exact H|apply String.eqb_refl].
Qed.

Lemma word_set_nodup (skill : string) : NoDup (Similarity.word_set skill).
Proof. apply NoDup_nodup. Qed.

Lemma common_words_sym (w1 w2 : list string) :
  NoDup w1 -> NoDup w2 ->
  List.length (filter (fun w => Similarity.mem w w2) w1)
  = List.length (filter (fun w => Similarity.mem w w1) w2).
Proof.
  intros H1 H2. apply Permutation_length, NoDup_Permutation.
  - apply NoDup_filter, H1.
  - apply NoDup_filter, H2.
  - intros x. rewrite !filter_In, !mem_In. tauto.
Qed.

Lemma all_words_sym (w1 w2 : list string) :
  List.length (CandidateMatcher.set_of (w1 ++ w2))
  = List.length (CandidateMatcher.set_of (w2 ++ w1)).
Proof.
  apply Permutation_length, NoDup_Permutation; try apply NoDup_nodup.
  intros x. rewrite !set_of_In, !in_app_iff. tauto.
Qed.

(** X19.  Similarity of two skill names is symmetric; a name with at least
    one word is similar to itself; and a name without any word is similar to
    nothing. *)
Theorem skills_are_similar_symmetric (skill1 skill2 : string) :
  Similarity._skills_are_similar skill1 skill2
  = Similarity._skills_are_similar skill2 skill1
  /\ (Similarity.word_set skill1 <> [] ->
      Similarity._skills_are_similar skill1 skill1 = true)
  /\ (Similarity.word_set skill1 = [] ->
      Similarity._skills_are_similar skill1 skill2 = false).
Proof.
  unfold Similarity._skills_are_similar.
  pose proof (common_words_sym _ _ (word_set_nodup skill1) (word_set_nodup skill2)) as Hc.
  pose proof (all_words_sym (Similarity.word_set skill1) (Similarity.word_set skill2)) as Hu.
  pose proof (word_set_nodup skill1) as Hn.
  set (w1 := Similarity.word_set skill1) in *.
  set (w2 := Similarity.word_set skill2) in *.
  split; [|split].
  - destruct w1 as [|a w1], w2 as [|b w2]; try reflexivity.
    rewrite Hc, Hu. reflexivity.
  - intros Hne. destruct w1 as [|a w1]; [congruence|].
    set (w := a :: w1) in *.
    assert (Hall : filter (fun x => Similarity.mem x w) w = w).
    { apply forallb_filter_id, forallb_forall. intros x Hx. apply mem_In, Hx. }
    assert (Hunion : List.length (CandidateMatcher.set_of (w ++ w)) = List.length w).
    { apply Permutation_length, NoDup_Permutation;
        [apply NoDup_nodup|exact Hn|].
      intros x. rewrite set_of_In, in_app_iff. tauto. }
    rewrite Hall, Hunion.
    assert (Hpos : (0 < List.length w)%nat) by (unfold w; simpl; lia).
    destruct (Nat.ltb_spec 0 (List.length w)); [|lia].
    pose proof (of_nat_pos _ Hpos) as Hq.
    apply negb_true_iff. destruct (Qle_bool _ _) eqn:E; [|reflexivity].
    apply Qle_bool_iff in E.
    assert (E1 : (Num.of_nat (List.length w) / Num.of_nat (List.length w) == 1)%Q)
      by (field; lra).
    rewrite E1 in E. lra.
  - intros He. rewrite He. reflexivity.
Qed.

(** ** The similarity score *)

Lemma py_max_range (a b lo hi : Q) :
  (lo <= a <= hi)%Q -> (lo <= b <= hi)%Q -> (lo <= Similarity.py_max a b <= hi)%Q.
Proof.
  unfold Similarity.py_max. destruct (Qle_bool b a); auto.
Qed.

Lemma partial_loop_range (required_skill : string) (items : CandidateMatcher.dict) :
  Forall Ref.level_ok items ->
  forall best, (0 <= best <= 1)%Q ->
    (0 <= fst (Similarity.partial_loop required_skill items best) <= 1)%Q.
Proof.
  induction 1 as [|[k level] items Hkv Hitems IH]; intros best Hbest; simpl;
    [exact Hbest|].
  unfold Ref.level_ok in Hkv. simpl in Hkv.
  destruct (_ || _); [|apply IH, Hbest].
  assert (Hp : (0 <= level / 5 * 0.7 <= 1)%Q).
  { assert (E : (level / 5 * 0.7 == level * (7 # 50))%Q) by (field; lra).
    rewrite E. lra. }
  pose proof (py_max_range best (level / 5 * 0.7)%Q 0 1 Hbest Hp) as Hm.
  destruct (negb _); [exact Hm|apply IH, Hm].
Qed.

Lemma similarity_step_range (d : CandidateMatcher.dict) (acc : Q * nat) (r : string) :
  Forall Ref.level_ok d ->
  let acc' := Similarity.required_step d acc r in
  (fst acc <= fst acc' <= fst acc + 1)%Q
  /\ (snd acc <= snd acc' <= S (snd acc))%nat.
Proof.
  intros Hd. unfold Similarity.required_step.
  destruct (CandidateMatcher.dict_get r d) as [level|] eqn:E.
  - pose proof (dict_get_levels _ _ _ Hd E) as Hl. simpl.
    assert (El : (level / 5 == level * (1 # 5))%Q) by (field; lra).
    rewrite El. split; [lra|lia].
  - pose proof (partial_loop_range r d Hd 0%Q ltac:(lra)) as Hp.
    destruct (Similarity.partial_loop r d 0%Q) as [best matched]. simpl in *.
    split; [lra|destruct matched; lia].
Qed.

Lemma similarity_loop_range (d : CandidateMatcher.dict) (l : list string) :
  Forall Ref.level_ok d ->
  forall acc,
    let acc' := fold_left (Similarity.required_step d) l acc in
    (fst acc <= fst acc' <= fst acc + Num.of_nat (List.length l))%Q
    /\ (snd acc <= snd acc' <= snd acc + List.length l)%nat.
Proof.
  intros Hd. induction l as [|r l IH]; intros acc; simpl.
  - change (Num.of_nat 0) with 0%Q. split; [lra|lia].
  - destruct (similarity_step_range d acc r Hd) as [H1 H2].
    destruct (IH (Similarity.required_step d acc r)) as [H3 H4].
    cbv zeta in *.
    assert (E : (Num.of_nat (S (List.length l)) == Num.of_nat (List.length l) + 1)%Q).
    { unfold Num.of_nat. rewrite Nat2Z.inj_succ, <- Z.add_1_r, inject_Z_plus.
      reflexivity. }
    rewrite E. split; [lra|lia].
Qed.

(** X20.  The similarity score never exceeds 1; with skill levels in
    [[0, 5]] it is never negative; and it is 0 when the candidate has no
    skill or nothing is required. *)
Theorem skill_similarity_bounds (cs : CandidateMatcher.dict) (required : list string) :
  (Similarity._calculate_skill_similarity cs required <= 1)%Q
  /\ (cs = [] \/ required = [] ->
      Similarity._calculate_skill_similarity cs required = 0%Q)
  /\ (Forall Ref.level_ok cs ->
      (0 <= Similarity._calculate_skill_similarity cs required)%Q).
Proof.
  split; [|split].
  - unfold Similarity._calculate_skill_similarity.
    destruct cs as [|c cs]; [lra|]. destruct required as [|r required]; [lra|].
    destruct (fold_left _ _ _) as [total matched].
    destruct (0 <? _)%nat; [apply py_min_le_r|lra].
  - intros [-> | ->]; [reflexivity|destruct cs; reflexivity].
  - intros Hok. unfold Similarity._calculate_skill_similarity.
    destruct cs as [|c cs]; [lra|]. destruct required as [|r required]; [lra|].
    set (d := CandidateMatcher.lower_keys (c :: cs)).
    set (req := r :: required).
    pose proof (similarity_loop_range d (map Str.lower req)
                  (lower_keys_levels _ Hok) (0%Q, 0%nat)) as Hloop.
    cbv zeta in Hloop.
    destruct (fold_left _ _ _) as [total matched]. simpl in Hloop.
    destruct Hloop as [[Ht _] _].
    assert (Hne : (0 < List.length req)%nat) by (unfold req; simpl; lia).
    destruct (Nat.ltb_spec 0 (List.length req)); [|lia].
    pose proof (of_nat_pos _ Hne) as Hpos.
    pose proof (of_nat_nonneg matched) as Hm.
    apply py_min_ge; [|lra].
    assert (H1 : (0 <= total / Num.of_nat (List.length req))%Q).
    { apply Qle_shift_div_l; [exact Hpos|]. lra. }
    assert (H2 : (0 <= Num.of_nat matched / Num.of_nat (List.length req))%Q).
    { apply Qle_shift_div_l; [exact Hpos|]. lra. }
    lra.
Qed.

Lemma skill_similarity_bounds_witness :
  (0 <= Similarity._calculate_skill_similarity
          [("Python", 4%Q); ("react native", 3%Q)] ["python"; "react"])%Q.
Proof.
  apply skill_similarity_bounds.
  repeat constructor; unfold Ref.level_ok; simpl; lra.
Defined.

(** ** Scores of the returned matches *)

Lemma new_Match_range (id : string) (a b c d : Q) (m : Match) :
  new_Match id a b c d = Some m -> RefMatch.scores_in_range m.
Proof.
  unfold new_Match. destruct (_ && _) eqn:E; [|discriminate].
  intros [= <-]. rewrite !andb_true_iff, !in_range_spec in E.
  unfold RefMatch.scores_in_range. simpl. tauto.
Qed.

Lemma evaluate_loop_range clock js w (todo : list Candidate) :
  forall i matches result,
    Forall RefMatch.scores_in_range matches ->
    CandidateMatcher.evaluate_loop clock i todo js w matches = Some result ->
    Forall RefMatch.scores_in_range result.
Proof.
  induction todo as [|c todo IH]; intros i matches result Hm H; simpl in H.
  - injection H as <-. exact Hm.
  - destruct (CandidateMatcher._evaluate_candidate (clock i) c js w) as [m|] eqn:E;
      [|discriminate].
    eapply IH; [|exact H].
    apply Forall_app. split; [exact Hm|]. constructor; [|constructor].
    rewrite evaluate_candidate_unfold in E. eapply new_Match_range, E.
Qed.

(** X21.  Every match of a returned response has its four scores in
    [[0, 100]]. *)
Theorem returned_scores_in_range (clock : nat -> Datetime.datetime)
    (request : MatchRequest) (job_skills : option (list string))
    (response : MatchResponse) :
  CandidateMatcher.match_candidates clock request job_skills = Some response ->
  Forall RefMatch.scores_in_range (MatchResponse_matches response).
Proof.
  intros H. apply match_candidates_some in H as [ev [Hev [_ ->]]]. simpl.
  destruct (slice_to_is_firstn (MatchRequest_top_k request)
              (PyList.sort_desc Match_score ev)) as [n ->].
  apply Forall_forall. intros m Hm. apply in_firstn in Hm.
  eapply Permutation_in in Hm; [|apply sort_desc_perm].
  pose proof (evaluate_loop_range _ _ _ _ _ _ _ (Forall_nil _) Hev) as Hall.
  rewrite Forall_forall in Hall. apply Hall, Hm.
Qed.

Lemma returned_scores_in_range_witness :
  Forall RefMatch.scores_in_range (MatchResponse_matches Sample.three_response).
Proof.
  apply (returned_scores_in_range Sample.clock Sample.three_request None).
  vm_compute. reflexivity.
Defined.

(** ** Trigger phrases that contain another trigger phrase *)

(** The search succeeds exactly when the pattern matches at some position. *)
Lemma search_from_position (pat : string) :
  forall s prev,
    Re.search_from pat prev s = true
    <-> exists n, (n <= String.length s)%nat
                  /\ Re.match_here pat (RefScan.prev_at prev s n) (Str.drop n s) = true.
Proof.
  induction s as [|c s IH]; intros prev; simpl.
  - rewrite orb_false_r. split.
    + intros H. exists 0%nat. split; [lia|exact H].
    + intros [n [Hn H]]. assert (n = 0%nat) by lia. subst n. exact H.
  - rewrite orb_true_iff, IH. split.
    + intros [H|[n [Hn H]]].
      * exists 0%nat. split; [lia|exact H].
      * exists (S n). split; [lia|exact H].
    + intros [[|n] [Hn H]].
      * left. exact H.
      * right. exists n. split; [lia|exact H].
Qed.

Lemma startswith_app (p q : string) :
  forall s, Str.startswith (p ++ q) s = true ->
            Str.startswith p s = true
            /\ Str.startswith q (Str.drop (String.length p) s) = true.
Proof.
  induction p as [|a p IH]; intros s H; simpl in *; [auto|].
  destruct s as [|b s]; [discriminate|].
  apply andb_true_iff in H as [Hab H]. rewrite Hab. apply IH in H. exact H.
Qed.

Lemma drop_drop (n m : nat) :
  forall s, Str.drop n (Str.drop m s) = Str.drop (m + n) s.
Proof.
  induction m as [|m IH]; intros s; simpl; [reflexivity|].
  destruct s as [|c s]; [destruct n; reflexivity|apply IH].
Qed.

Lemma length_append (p q : string) :
  String.length (p ++ q) = (String.length p + String.length q)%nat.
Proof.
  induction p as [|a p IH]; simpl; [reflexivity|]. rewrite IH. reflexivity.
Qed.

Lemma last_char_app (p q : string) (prev : option ascii) :
  RefRe.last_char prev (p ++ q) = RefRe.last_char (RefRe.last_char prev p) q.
Proof.
  revert prev. induction p as [|a p IH]; intros prev; simpl; [reflexivity|apply IH].
Qed.

(** After a prefix [p] of [s], the previous character is the last character
    of [p]. *)
Lemma prev_at_prefix (p : string) :
  forall s prev n,
    Str.startswith p (Str.drop n s) = true -> (n <= String.length s)%nat ->
    RefScan.prev_at prev s (n + String.length p)
    = RefRe.last_char (RefScan.prev_at prev s n) p.
Proof.
  induction p as [|a p IH]; intros s prev n H Hn; simpl.
  - rewrite Nat.add_0_r. reflexivity.
  - replace (n + S (String.length p))%nat with (S n + String.length p)%nat by lia.
    assert (Hd : exists s', Str.drop n s = String a s').
    { destruct (Str.drop n s) as [|b s'] eqn:E; [discriminate|].
      simpl in H. apply andb_true_iff in H as [Hab _].
      apply Ascii.eqb_eq in Hab. subst b. eauto. }
    destruct Hd as [s' Hd].
    assert (Hstep : Str.drop (S n) s = s' /\ RefScan.prev_at prev s (S n) = Some a
                    /\ (S n <= String.length s)%nat).
    { clear IH H. revert s prev Hn Hd. induction n as [|n IHn]; intros s prev Hn Hd.
      - simpl in Hd. subst s. simpl. split; [reflexivity|]. split; [reflexivity|]. lia.
      - destruct s as [|c s]; [discriminate Hd|]. simpl in Hd, Hn.
        destruct (IHn s (Some c) ltac:(lia) Hd) as [E1 [E2 E3]].
        simpl. split; [exact E1|]. split; [exact E2|]. lia. }
    destruct Hstep as [E1 [E2 E3]].
    rewrite IH; [rewrite E2; reflexivity| |exact E3].
    rewrite E1. rewrite Hd in H. simpl in H.
    apply andb_true_iff in H as [_ H]. exact H.
Qed.

(** A match of [p ++ q], where [p] ends with a non-word character and [q]
    begins with a word character, holds a match of [q]. *)
Lemma match_here_suffix (p : string) (b : ascii) (q' : string) (s : string)
    (prev : option ascii) (n : nat) :
  p <> "" ->
  Re.opt_is_word (RefRe.last_char None p) = false ->
  Str.is_word b = true ->
  (n <= String.length s)%nat ->
  Re.match_here (p ++ String b q') (RefScan.prev_at prev s n) (Str.drop n s) = true ->
  Re.match_here (String b q') (RefScan.prev_at prev s (n + String.length p))
                (Str.drop (n + String.length p) s) = true.
Proof.
  intros Hp Hlast Hb Hn H.
  destruct p as [|a p]; [congruence|].
  change (String a p ++ String b q')%string with (String a (p ++ String b q')) in H.
  apply match_here_spec in H as [Hstart [_ Hafter]].
  change (String a (p ++ String b q')) with (String a p ++ String b q')%string in *.
  apply startswith_app in Hstart as [Hs1 Hs2].
  rewrite drop_drop in Hs2.
  apply match_here_spec. split; [exact Hs2|]. split.
  - rewrite (prev_at_prefix (String a p) s prev n Hs1 Hn), Hb.
    assert (E : forall o, RefRe.last_char o (String a p) = RefRe.last_char None (String a p))
      by reflexivity.
    rewrite E. exact Hlast.
  - unfold RefRe.char_after in *. rewrite drop_drop in *.
    rewrite length_append in Hafter.
    rewrite <- Nat.add_assoc. rewrite Hafter.
    rewrite last_char_app. reflexivity.
Qed.

Lemma search_suffix (p : string) (b : ascii) (q' : string) (s : string) :
  p <> "" ->
  Re.opt_is_word (RefRe.last_char None p) = false ->
  Str.is_word b = true ->
  Re.search (p ++ String b q') s = true ->
  Re.search (String b q') s = true.
Proof.
  intros Hp Hlast Hb H. unfold Re.search in *.
  apply search_from_position in H as [n [Hn H]].
  pose proof H as Hm.
  apply (match_here_suffix p b q' s None n Hp Hlast Hb Hn) in Hm.
  apply search_from_position. exists (n + String.length p)%nat. split; [|exact Hm].
  destruct p as [|a p]; [congruence|].
  change (String a p ++ String b q')%string with (String a (p ++ String b q')) in H.
  apply match_here_spec in H as [Hstart _].
  apply startswith_length in Hstart.
  change (String a (p ++ String b q')) with (String a p ++ String b q')%string in Hstart.
  rewrite length_append in Hstart.
  assert (Hl : forall k t, (k <= String.length t)%nat ->
                 String.length (Str.drop k t) = (String.length t - k)%nat).
  { induction k as [|k IHk]; intros t Hk; simpl; [lia|].
    destruct t as [|c t]; simpl in *; [lia|]. apply IHk. lia. }
  rewrite (Hl n s Hn) in Hstart. simpl in Hstart. simpl. lia.
Qed.

(** X22.  Every mention of "team lead", "tech lead" or "technical lead"
    is also a mention of "lead": a text with one of these phrases gives the
    lead level a total of at least 2. *)
Theorem compound_lead_counts_twice (jd_text phrase : string) :
  In phrase ["team lead"; "tech lead"; "technical lead"] ->
  (1 <= Re.findall_count phrase jd_text)%nat ->
  (1 <= Re.findall_count "lead" jd_text)%nat
  /\ (2 <= Ref.level_total jd_text LEAD)%nat.
Proof.
  intros Hin Hc.
  assert (Hlead : (1 <= Re.findall_count "lead" jd_text)%nat).
  { apply search_findall_pos.
    apply findall_pos_search in Hc.
    destruct Hin as [<-|[<-|[<-|[]]]].
    - apply (search_suffix "team " "l"%char "ead"); try reflexivity;
        [discriminate|exact Hc].
    - apply (search_suffix "tech " "l"%char "ead"); try reflexivity;
        [discriminate|exact Hc].
    - apply (search_suffix "technical " "l"%char "ead"); try reflexivity;
        [discriminate|exact Hc]. }
  split; [exact Hlead|].
  unfold Ref.level_total. cbn [Ref.trigger_phrases find JDParser.seniority_table
    SeniorityLevel_eqb fst snd map list_sum fold_right].
  destruct Hin as [<-|[<-|[<-|[]]]]; lia.
Qed.

Lemma compound_lead_counts_twice_witness :
  (2 <= Ref.level_total "we need a team lead" LEAD)%nat.
Proof.
  apply (compound_lead_counts_twice "we need a team lead" "team lead").
  - simpl. auto.
  - vm_compute. lia.
Defined.

(** ** Time of day *)

Lemma project_score_same_day (now1 now2 : Datetime.datetime) (p : Project) :
  Datetime.well_formed now1 -> Datetime.well_formed now2 ->
  Datetime.ordinal now1 = Datetime.ordinal now2 ->
  CandidateMatcher.project_score now1 p = CandidateMatcher.project_score now2 p.
Proof.
  intros H1 H2 Ho. unfold CandidateMatcher.project_score.
  destruct (Project_completion_date p) as [s|]; [|reflexivity].
  destruct (Str.truthy s); [|reflexivity].
  destruct (Datetime.strptime s) as [d|] eqn:Es; [|reflexivity].
  rewrite (days_between_midnight now1 d H1 (strptime_midnight s d Es)),
    (days_between_midnight now2 d H2 (strptime_midnight s d Es)), Ho.
  reflexivity.
Qed.

Lemma recency_score_same_day (now1 now2 : Datetime.datetime) (projects : list Project) :
  Datetime.well_formed now1 -> Datetime.well_formed now2 ->
  Datetime.ordinal now1 = Datetime.ordinal now2 ->
  CandidateMatcher._calculate_recency_score now1 projects
  = CandidateMatcher._calculate_recency_score now2 projects.
Proof.
  intros H1 H2 Ho. destruct projects as [|p projects]; [reflexivity|].
  rewrite !recency_mean by discriminate. f_equal. f_equal.
  apply map_ext. intros q. apply project_score_same_day; assumption.
Qed.

Lemma evaluate_loop_ext (clock1 clock2 : nat -> Datetime.datetime) js w
    (todo : list Candidate) :
  (forall i c, CandidateMatcher._evaluate_candidate (clock1 i) c js w
               = CandidateMatcher._evaluate_candidate (clock2 i) c js w) ->
  forall i matches,
    CandidateMatcher.evaluate_loop clock1 i todo js w matches
    = CandidateMatcher.evaluate_loop clock2 i todo js w matches.
Proof.
  intros H. induction todo as [|c todo IH]; intros i matches; simpl; [reflexivity|].
  rewrite H. destruct (CandidateMatcher._evaluate_candidate (clock2 i) c js w);
    [apply IH|reflexivity].
Qed.

(** X23.  Only the date of each clock reading matters: two runs whose
    readings fall on the same days, at whatever times, give the same recency
    scores and the same response. *)
Theorem ranking_depends_on_dates_only (clock1 clock2 : nat -> Datetime.datetime)
    (request : MatchRequest) (job_skills : option (list string)) :
  (forall i, Datetime.well_formed (clock1 i)) ->
  (forall i, Datetime.well_formed (clock2 i)) ->
  (forall i, Datetime.ordinal (clock1 i) = Datetime.ordinal (clock2 i)) ->
  (forall i projects,
      CandidateMatcher._calculate_recency_score (clock1 i) projects
      = CandidateMatcher._calculate_recency_score (clock2 i) projects)
  /\ CandidateMatcher.match_candidates clock1 request job_skills
     = CandidateMatcher.match_candidates clock2 request job_skills.
Proof.
  intros H1 H2 Ho.
  assert (Hr : forall i projects,
             CandidateMatcher._calculate_recency_score (clock1 i) projects
             = CandidateMatcher._calculate_recency_score (clock2 i) projects).
  { intros i projects. apply recency_score_same_day; auto. }
  split; [exact Hr|].
  unfold CandidateMatcher.match_candidates.
  rewrite (evaluate_loop_ext clock1 clock2); [reflexivity|].
  intros i c. rewrite !evaluate_candidate_unfold, Hr. reflexivity.
Qed.

Lemma ranking_depends_on_dates_only_witness :
  CandidateMatcher.match_candidates Sample.clock Sample.three_request None
  = CandidateMatcher.match_candidates
      (fun _ => Datetime.mkdatetime 739924 0) Sample.three_request None.
Proof.
  apply ranking_depends_on_dates_only.
  - intros i. apply noon_well_formed.
  - intros i. unfold Datetime.well_formed, Datetime.micros_per_day. simpl. lia.
  - intros i. reflexivity.
Defined.
